(** * go-irc-twitch: the line-to-event decoders, embedded and verified

    The repository holds two generations of the decoder:
    - [src/message.go]: [parseMessage] and the methods of [*message]
      (seven message kinds, tag values kept raw);
    - [src/unnamed/part_000]: [ParseMessage] with the [messageTypeMap]
      dispatch table (thirteen message kinds).
    Each generation is embedded in a module of its own ([MessageGo] and
    [Part000]); the Go standard-library functions both use are modelled in
    [strings], [strconv] and [utf8]. [Part000] holds every function of its
    file, and so does [MessageGo].

    Go values are modelled as follows: a [string] is a sequence of bytes
    (Rocq [string]), an [int] is a [Z] (64-bit, wrap-around written where an
    operation can leave the range), a slice that is only read is the [list]
    of its elements, a slice that is sliced again is a [slice] (its elements
    and what lies behind them up to its capacity), a [map] is a [gmap], and
    a run-time panic is the [Panic] result. What the language leaves to the
    Go distribution is gathered in a [platform], and every decoder is
    verified for all of them. *)

From Stdlib Require Import ZArith Lia Ascii String List Bool.
From stdpp Require Import base option list gmap strings fin_maps.

Local Open Scope Z_scope.

(** ** Results of code that may panic *)

Inductive panic :=
  | IndexOutOfRange   (* s[i] with i outside [0, len(s)) *)
  | SliceOutOfRange   (* s[lo:hi] with bounds out of order or out of range *)
  | BadTypeAssertion. (* x.(T) on a value of another dynamic type *)

Inductive result (A : Type) : Type :=
  | Ok (a : A)
  | Panic (p : panic).
Arguments Ok {A} a.
Arguments Panic {A} p.

Definition bind {A B} (r : result A) (k : A -> result B) : result B :=
  match r with
  | Ok a => k a
  | Panic p => Panic p
  end.

Notation "'let*' x ':=' r 'in' k" := (bind r (fun x => k))
  (at level 10, x name, r at level 100, k at level 200).
Notation "'let*' ' p ':=' r 'in' k" := (bind r (fun p => k))
  (at level 10, p pattern, r at level 100, k at level 200).

Definition is_ok {A} (r : result A) : bool :=
  match r with Ok _ => true | Panic _ => false end.

(** [xs[i]] on a slice. *)
Definition index {A} (xs : list A) (i : nat) : result A :=
  match xs !! i with
  | Some x => Ok x
  | None => Panic IndexOutOfRange
  end.

(** The 64-bit two's-complement [int]. *)
Definition int_min : Z := - 2 ^ 63.
Definition int_max : Z := 2 ^ 63 - 1.
Definition wrap_int (z : Z) : Z := (z + 2 ^ 63) mod 2 ^ 64 - 2 ^ 63.

(** ** Bytes and byte strings *)

Definition byte_of (c : ascii) : Z := Z.of_N (N_of_ascii c).
Definition ascii_of_byte (b : Z) : ascii := ascii_of_N (Z.to_N b).

Definition len (s : string) : nat := String.length s.

(** [s[:n]] and [s[n:]], for [n <= len s]. *)
Fixpoint take_bytes (n : nat) (s : string) : string :=
  match n, s with
  | S n', String c s' => String c (take_bytes n' s')
  | _, _ => EmptyString
  end.

Fixpoint drop_bytes (n : nat) (s : string) : string :=
  match n, s with
  | S n', String _ s' => drop_bytes n' s'
  | _, _ => s
  end.

(** [s[lo:hi]] on a string: panics unless [0 <= lo <= hi <= len(s)]. *)
Definition slice_string (s : string) (lo hi : Z) : result string :=
  if (0 <=? lo) && (lo <=? hi) && (hi <=? Z.of_nat (len s))
  then Ok (take_bytes (Z.to_nat (hi - lo)) (drop_bytes (Z.to_nat lo) s))
  else Panic SliceOutOfRange.

(** A slice that is sliced again: its elements, and the elements of its
    underlying array that lie behind them, up to its capacity. *)
Record slice (A : Type) := {
  slice_elems : list A;   (* s[0], ..., s[len(s)-1] *)
  slice_spare : list A }. (* the array from len(s) up to cap(s) *)
Arguments slice_elems {A} s.
Arguments slice_spare {A} s.

Definition slice_cap {A} (s : slice A) : nat :=
  length (slice_elems s) + length (slice_spare s).

(** The elements of [s[lo:hi]]: the bounds are checked against the capacity,
    [0 <= lo <= hi <= cap(s)], not against the length, so a [hi] beyond
    [len(s)] reads the array behind the slice. *)
Definition slice_list {A} (s : slice A) (lo hi : Z) : result (list A) :=
  if (0 <=? lo) && (lo <=? hi) && (hi <=? Z.of_nat (slice_cap s))
  then Ok (take (Z.to_nat (hi - lo))
             (drop (Z.to_nat lo) (slice_elems s ++ slice_spare s)))
  else Panic SliceOutOfRange.

(** ** Package [unicode/utf8] and the conversions [[]rune(s)], [string(runes)] *)

Module utf8.

Definition RuneError : Z := 65533.

Definition in_range (lo hi : Z) (c : ascii) : bool :=
  (lo <=? byte_of c) && (byte_of c <=? hi).

(** Low six bits of a continuation byte. *)
Definition cont (c : ascii) : Z := byte_of c - 128.

(** Accepted range of the second byte, by first byte (Go's [acceptRanges]). *)
Definition second_lo (b0 : Z) : Z :=
  if b0 =? 224 then 160 else if b0 =? 240 then 144 else 128.
Definition second_hi (b0 : Z) : Z :=
  if b0 =? 237 then 159 else if b0 =? 244 then 143 else 191.

(** [[]rune(s)]: every ill-formed byte decodes to [RuneError], one byte wide. *)
Fixpoint decode (s : string) : list Z :=
  match s with
  | EmptyString => []
  | String c0 s1 =>
      let b0 := byte_of c0 in
      let bad := RuneError :: decode s1 in
      if b0 <? 128 then b0 :: decode s1
      else if (194 <=? b0) && (b0 <=? 223) then
        match s1 with
        | String c1 s2 =>
            if in_range 128 191 c1
            then ((b0 - 192) * 64 + cont c1) :: decode s2
            else bad
        | _ => bad
        end
      else if (224 <=? b0) && (b0 <=? 239) then
        match s1 with
        | String c1 (String c2 s3) =>
            if in_range (second_lo b0) (second_hi b0) c1 && in_range 128 191 c2
            then ((b0 - 224) * 4096 + cont c1 * 64 + cont c2) :: decode s3
            else bad
        | _ => bad
        end
      else if (240 <=? b0) && (b0 <=? 244) then
        match s1 with
        | String c1 (String c2 (String c3 s4)) =>
            if in_range (second_lo b0) (second_hi b0) c1
               && in_range 128 191 c2 && in_range 128 191 c3
            then ((b0 - 240) * 262144 + cont c1 * 4096 + cont c2 * 64 + cont c3)
                 :: decode s4
            else bad
        | _ => bad
        end
      else bad
  end.

Definition bytes (bs : list Z) : string :=
  fold_right (fun b s => String (ascii_of_byte b) s) EmptyString bs.

Definition valid_rune (r : Z) : bool :=
  (0 <=? r) && (r <=? 1114111) && negb ((55296 <=? r) && (r <=? 57343)).

(** [utf8.AppendRune]: an invalid rune is written as U+FFFD. *)
Definition encode_rune (r : Z) : string :=
  if negb (valid_rune r) then bytes [239; 191; 189]
  else if r <? 128 then bytes [r]
  else if r <? 2048 then bytes [192 + r / 64; 128 + r mod 64]
  else if r <? 65536 then
    bytes [224 + r / 4096; 128 + (r / 64) mod 64; 128 + r mod 64]
  else
    bytes [240 + r / 262144; 128 + (r / 4096) mod 64;
           128 + (r / 64) mod 64; 128 + r mod 64].

(** [string(runes)]. *)
Fixpoint encode (rs : list Z) : string :=
  match rs with
  | [] => EmptyString
  | r :: rs' => encode_rune r +:+ encode rs'
  end.

End utf8.

(** ** Package [strings] *)

Module strings.

Fixpoint HasPrefix (s prefix : string) {struct prefix} : bool :=
  match prefix, s with
  | EmptyString, _ => true
  | String p prefix', String c s' =>
      if decide (c = p) then HasPrefix s' prefix' else false
  | String _ _, EmptyString => false
  end.

Definition HasSuffix (s suffix : string) : bool :=
  if decide (len suffix <= len s)%nat
  then bool_decide (drop_bytes (len s - len suffix) s = suffix)
  else false.

Definition TrimPrefix (s prefix : string) : string :=
  if HasPrefix s prefix then drop_bytes (len prefix) s else s.

(** [Index]: byte offset of the first occurrence, [None] for Go's [-1]. *)
Fixpoint Index (s substr : string) : option nat :=
  if HasPrefix s substr then Some 0%nat
  else match s with
       | EmptyString => None
       | String _ s' => S <$> Index s' substr
       end.

Definition Contains (s substr : string) : bool :=
  bool_decide (is_Some (Index s substr)).

(** [SplitN s sep n] for [n >= 0] and a non-empty [sep] (every call in the
    decoders passes a non-empty literal): at most [n] pieces, the last one
    being the unsplit rest. *)
Fixpoint SplitN (s sep : string) (n : nat) : list string :=
  match n with
  | O => []
  | S O => [s]
  | S n' =>
      match Index s sep with
      | None => [s]
      | Some m => take_bytes m s :: SplitN (drop_bytes (m + len sep) s) sep n'
      end
  end.

(** [Split s sep] is [SplitN s sep -1]: Go sets [n] to [Count(s, sep) + 1],
    which is at most [len(s) + 1]. *)
Definition Split (s sep : string) : list string := SplitN s sep (S (len s)).

Fixpoint count_upto (fuel : nat) (s substr : string) : nat :=
  match fuel with
  | O => O
  | S fuel' =>
      match Index s substr with
      | None => O
      | Some i => S (count_upto fuel' (drop_bytes (i + len substr) s) substr)
      end
  end.

(** [Count] of non-overlapping occurrences of a non-empty [substr]. *)
Definition Count (s substr : string) : nat := count_upto (len s) s substr.

(** [Replace s old new n] for [n >= 0] and a non-empty [old]. *)
Fixpoint Replace (s old new : string) (n : nat) : string :=
  match n with
  | O => s
  | S n' =>
      match Index s old with
      | None => s
      | Some j =>
          take_bytes j s +:+ new +:+ Replace (drop_bytes (j + len old) s) old new n'
      end
  end.

Definition ReplaceAll (s old new : string) : string := Replace s old new (len s).

Fixpoint Join (elems : list string) (sep : string) : string :=
  match elems with
  | [] => EmptyString
  | [e] => e
  | e :: rest => e +:+ sep +:+ Join rest sep
  end.

(** [Trim s cutset] for a [cutset] of ASCII bytes. *)
Fixpoint in_cutset (c : ascii) (cutset : string) : bool :=
  match cutset with
  | EmptyString => false
  | String d cutset' => bool_decide (c = d) || in_cutset c cutset'
  end.

Fixpoint TrimLeft (s cutset : string) : string :=
  match s with
  | String c s' => if in_cutset c cutset then TrimLeft s' cutset else s
  | EmptyString => EmptyString
  end.

Fixpoint TrimRight (s cutset : string) : string :=
  match s with
  | EmptyString => EmptyString
  | String c s' =>
      match TrimRight s' cutset with
      | EmptyString =>
          if in_cutset c cutset then EmptyString else String c EmptyString
      | t => String c t
      end
  end.

Definition Trim (s cutset : string) : string :=
  TrimRight (TrimLeft s cutset) cutset.

Fixpoint map_bytes (f : ascii -> ascii) (s : string) : string :=
  match s with
  | EmptyString => EmptyString
  | String c s' => String (f c) (map_bytes f s')
  end.

Fixpoint isASCII (s : string) : bool :=
  match s with
  | EmptyString => true
  | String c s' => (byte_of c <? 128) && isASCII s'
  end.

Definition lower_byte (c : ascii) : ascii :=
  let b := byte_of c in
  if (65 <=? b) && (b <=? 90) then ascii_of_byte (b + 32) else c.

(** The bytes [TrimSpace] takes for spaces in ASCII text:
    ['\t'], ['\n'], ['\v'], ['\f'], ['\r'] and [' ']. *)
Definition asciiSpace : string :=
  String (ascii_of_nat 9) (String (ascii_of_nat 10) (String (ascii_of_nat 11)
    (String (ascii_of_nat 12) (String (ascii_of_nat 13) " ")))).

Section Unicode.
(** The case table [unicode.ToLower] is data of the Go distribution; the
    decoders are verified for any such table. *)
Variable unicode_ToLower : Z -> Z.

(** [ToLower]: bytewise on an all-ASCII string, otherwise
    [Map(unicode.ToLower, s)], which re-encodes the decoded runes. *)
Definition ToLower (s : string) : string :=
  if isASCII s then map_bytes lower_byte s
  else utf8.encode
         (filter (fun r => 0 <= r) (map unicode_ToLower (utf8.decode s))).

(** What [TrimSpace] returns for a string that holds a byte above 127,
    where it may go by the table [unicode.IsSpace]. *)
Variable unicode_TrimSpace : string -> string.

(** [TrimSpace]: on an all-ASCII string the ASCII spaces are cut off at
    both ends. *)
Definition TrimSpace (s : string) : string :=
  if isASCII s then Trim s asciiSpace else unicode_TrimSpace s.
End Unicode.

End strings.

(** ** Package [strconv] *)

Module strconv.

Definition digit (c : ascii) : option Z :=
  let b := byte_of c in
  if (48 <=? b) && (b <=? 57) then Some (b - 48) else None.

(** Value of a run of decimal digits; [None] on any other byte. *)
Fixpoint digits (acc : Z) (s : string) : option Z :=
  match s with
  | EmptyString => Some acc
  | String c s' =>
      match digit c with
      | Some d => digits (acc * 10 + d) s'
      | None => None
      end
  end.

(** [ParseInt(s, 10, 64)]: the value and whether [err != nil]. A syntax
    error gives 0, a value out of range gives the nearest bound. *)
Definition ParseInt (s : string) : Z * bool :=
  match s with
  | EmptyString => (0, true)
  | String c s' =>
      let neg := bool_decide (c = "-"%char) in
      let body := if bool_decide (c = "-"%char \/ c = "+"%char) then s' else s in
      match body with
      | EmptyString => (0, true)
      | _ =>
          match digits 0 body with
          | None => (0, true)
          | Some un =>
              if neg then
                if 2 ^ 63 <? un then (int_min, true) else (- un, false)
              else
                if 2 ^ 63 <=? un then (int_max, true) else (un, false)
          end
      end
  end.

(** [Atoi] on a 64-bit platform; its fast path for short inputs computes
    the same value. *)
Definition Atoi (s : string) : Z * bool := ParseInt s.

End strconv.

(** ** [time.Time], as far as the decoders build it *)

Inductive Time :=
  | TimeZero                (* time.Time{} *)
  | TimeUnixNano (ns : Z).  (* time.Unix(0, ns) *)

(** ** What the Go distribution decides *)

(** The decoders depend on three things the language does not fix: the
    case table, the space table, and the capacity of the slice a conversion
    [[]rune(s)] returns. The gc run time gives a converted string of [n]
    runes a slice of capacity at least [n] (32 when [n <= 32] and the slice
    does not escape, a size class otherwise) and clears the part behind the
    runes. *)
Record platform := {
  ToLower_table : Z -> Z;              (* unicode.ToLower *)
  TrimSpace_unicode : string -> string; (* TrimSpace off the ASCII path *)
  rune_spare : nat -> nat }.           (* cap - len of [[]rune(s)], by len *)

(** [[]rune(s)]: the runes of [s], with zeroes behind them up to the
    capacity. *)
Definition to_runes (pf : platform) (s : string) : slice Z :=
  let runes := utf8.decode s in
  {| slice_elems := runes;
     slice_spare := replicate (rune_spare pf (length runes)) 0 |}.

(** ** Shared helpers of the embeddings *)

(** [m[k]] on a [map[string]string]: the zero value when [k] is absent. *)
Definition tag (m : gmap string string) (k : string) : string :=
  default EmptyString (m !! k).

(** A [for _, v := range xs] loop whose body may panic and appends one
    element per iteration. *)
Fixpoint for_each {A B} (f : A -> result B) (xs : list A) : result (list B) :=
  match xs with
  | [] => Ok []
  | x :: xs' =>
      let* y := f x in
      let* ys := for_each f xs' in
      Ok (y :: ys)
  end.

(** The control byte U+0001 and the marker ["\u0001ACTION"]. *)
Definition SOH : string := String (ascii_of_nat 1) EmptyString.
Definition ACTION_marker : string := SOH +:+ "ACTION".

(** ** [src/message.go] *)

Module MessageGo.

Inductive MessageType :=
  | UNSET | WHISPER | PRIVMSG | CLEARCHAT | ROOMSTATE | USERNOTICE
  | USERSTATE | NOTICE.

Definition MessageType_value (t : MessageType) : Z :=
  match t with
  | UNSET => -1 | WHISPER => 0 | PRIVMSG => 1 | CLEARCHAT => 2
  | ROOMSTATE => 3 | USERNOTICE => 4 | USERSTATE => 5 | NOTICE => 6
  end.

(** Modelled from the spec: the declaration of [RawMessage] is not in the
    sources; these are the fields the decoders assign ({raw, kind,
    rawCommand, tags} and the body text). *)
Record RawMessage := {
  RawMessage_Type : MessageType;
  RawMessage_RawType : string;
  RawMessage_Raw : string;
  RawMessage_Tags : gmap string string;
  RawMessage_Message : string }.

Record channelMessage := {
  channelMessage_RawMessage : RawMessage;
  channelMessage_Channel : string }.

Record roomMessage := {
  roomMessage_channelMessage : channelMessage;
  roomMessage_RoomID : string }.

Record chatMessage := {
  chatMessage_roomMessage : roomMessage;
  chatMessage_ID : string;
  chatMessage_Time : Time }.

Record Emote := {
  Emote_Name : string;
  Emote_ID : string;
  Emote_Count : Z }.

Record userMessage := {
  userMessage_Action : bool;
  userMessage_Emotes : list Emote }.

Record message := {
  message_RawMessage : RawMessage;
  message_Channel : string;
  message_Username : string }.

(** Modelled from the spec: the declarations of [User] and of the exported
    message structs are not in the sources; the fields are the ones the
    decoders below assign. *)
Record User := {
  User_ID : string;
  User_Name : string;
  User_DisplayName : string;
  User_Color : string;
  User_Badges : gmap string Z }.

Record PRIVMSGMessage := {
  PRIVMSGMessage_chatMessage : chatMessage;
  PRIVMSGMessage_userMessage : userMessage;
  PRIVMSGMessage_Bits : Z }.

Record WHISPERMessage := {
  WHISPERMessage_RawMessage : RawMessage;
  WHISPERMessage_userMessage : userMessage }.

(** A value of [map[string]interface{}] in the parameter bag. *)
Inductive param :=
  | PString (s : string)
  | PInt (n : Z)
  | PBool (b : bool).

Record USERNOTICEMessage := {
  USERNOTICEMessage_chatMessage : chatMessage;
  USERNOTICEMessage_userMessage : userMessage;
  USERNOTICEMessage_MsgID : string;
  USERNOTICEMessage_MsgParams : gmap string param;
  USERNOTICEMessage_SystemMsg : string }.

Record CLEARCHATMessage := {
  CLEARCHATMessage_chatMessage : chatMessage;
  CLEARCHATMessage_BanDuration : Z;
  CLEARCHATMessage_TargetUserID : string;
  CLEARCHATMessage_TargetUsername : string }.

Record ROOMSTATEMessage := {
  ROOMSTATEMessage_roomMessage : roomMessage;
  ROOMSTATEMessage_Language : string;
  ROOMSTATEMessage_State : gmap string Z }.

Record USERSTATEMessage := {
  USERSTATEMessage_channelMessage : channelMessage;
  USERSTATEMessage_EmoteSets : list string }.

Record NOTICEMessage := {
  NOTICEMessage_channelMessage : channelMessage;
  NOTICEMessage_MsgID : string }.

(** Assignment to the promoted field [Message]. *)
Definition RawMessage_set_Message (r : RawMessage) (s : string) : RawMessage :=
  {| RawMessage_Type := RawMessage_Type r;
     RawMessage_RawType := RawMessage_RawType r;
     RawMessage_Raw := RawMessage_Raw r;
     RawMessage_Tags := RawMessage_Tags r;
     RawMessage_Message := s |}.

Definition chatMessage_RawMessage (c : chatMessage) : RawMessage :=
  channelMessage_RawMessage (roomMessage_channelMessage (chatMessage_roomMessage c)).

Definition chatMessage_set_Message (c : chatMessage) (s : string) : chatMessage :=
  let rm := chatMessage_roomMessage c in
  let cm := roomMessage_channelMessage rm in
  {| chatMessage_roomMessage :=
       {| roomMessage_channelMessage :=
            {| channelMessage_RawMessage :=
                 RawMessage_set_Message (channelMessage_RawMessage cm) s;
               channelMessage_Channel := channelMessage_Channel cm |};
          roomMessage_RoomID := roomMessage_RoomID rm |};
     chatMessage_ID := chatMessage_ID c;
     chatMessage_Time := chatMessage_Time c |}.

Definition parseMessageType (messageType : string) : MessageType :=
  if decide (messageType = "PRIVMSG") then PRIVMSG
  else if decide (messageType = "WHISPER") then WHISPER
  else if decide (messageType = "CLEARCHAT") then CLEARCHAT
  else if decide (messageType = "NOTICE") then NOTICE
  else if decide (messageType = "ROOMSTATE") then ROOMSTATE
  else if decide (messageType = "USERSTATE") then USERSTATE
  else if decide (messageType = "USERNOTICE") then USERNOTICE
  else UNSET.

(** Body of the loop of [parseMiddle], at index [i]. *)
Definition parseMiddle_step (i : nat) (v : string) (acc : string * string * string)
  : result (string * string * string) :=
  let '(rawType, channel, username) := acc in
  if decide (i = 1%nat) then Ok (v, channel, username)
  else if strings.Contains v "!" then
    let* u := index (strings.SplitN v "!" 2) 0 in
    Ok (rawType, channel, u)
  else if strings.Contains v "#" then
    Ok (rawType, strings.TrimPrefix v "#", username)
  else Ok acc.

Fixpoint parseMiddle_loop (i : nat) (vs : list string) (acc : string * string * string)
  : result (string * string * string) :=
  match vs with
  | [] => Ok acc
  | v :: vs' =>
      let* acc' := parseMiddle_step i v acc in
      parseMiddle_loop (S i) vs' acc'
  end.

(** Returns [(rawType, channel, username)]. *)
Definition parseMiddle (middle : string) : result (string * string * string) :=
  parseMiddle_loop 0 (strings.SplitN middle " " 3)
    (EmptyString, EmptyString, EmptyString).

Definition parseTags_step (tags : gmap string string) (v : string)
  : result (gmap string string) :=
  let tag := strings.SplitN v "=" 2 in
  let value := match tag with _ :: v1 :: _ => v1 | _ => EmptyString end in
  let* k := index tag 0 in
  Ok (<[k := value]> tags).

Fixpoint parseTags_loop (vs : list string) (tags : gmap string string)
  : result (gmap string string) :=
  match vs with
  | [] => Ok tags
  | v :: vs' =>
      let* tags' := parseTags_step tags v in
      parseTags_loop vs' tags'
  end.

Definition parseTags (tagsRaw : string) : result (gmap string string) :=
  let tagsRaw := strings.TrimPrefix tagsRaw "@" in
  parseTags_loop (strings.Split tagsRaw ";") ∅.

(** [for i := 0; i < 3-len(split); i++ { split = append(split, "") }]:
    the bound is read again on every turn. Three turns of fuel are never
    used up, since [len(split) >= 1]. *)
Fixpoint pad_loop (fuel i : nat) (split : list string) : list string :=
  match fuel with
  | O => split
  | S fuel' =>
      if Z.of_nat i <? 3 - Z.of_nat (length split)
      then pad_loop fuel' (S i) (split ++ [EmptyString])
      else split
  end.

Definition parseMessage (line : string) : result message :=
  if negb (strings.HasPrefix line "@") then
    Ok {| message_RawMessage :=
            {| RawMessage_Type := UNSET;
               RawMessage_RawType := EmptyString;
               RawMessage_Raw := line;
               RawMessage_Tags := ∅;
               RawMessage_Message := line |};
          message_Channel := EmptyString;
          message_Username := EmptyString |}
  else
    let split := strings.SplitN line " :" 3 in
    let split := if (length split <? 3)%nat then pad_loop 3 0 split else split in
    let* middle := index split 1 in
    let* '(rawType, channel, username) := parseMiddle middle in
    let* s0 := index split 0 in
    let* tags := parseTags s0 in
    let* s2 := index split 2 in
    Ok {| message_RawMessage :=
            {| RawMessage_Type := parseMessageType rawType;
               RawMessage_RawType := rawType;
               RawMessage_Raw := line;
               RawMessage_Tags := tags;
               RawMessage_Message := s2 |};
          message_Channel := channel;
          message_Username := username |}.

Definition Tags_of (m : message) : gmap string string :=
  RawMessage_Tags (message_RawMessage m).

Definition parseBadges_step (badges : gmap string Z) (v : string) : gmap string Z :=
  match strings.SplitN v "/" 2 with
  | name :: level :: _ => <[name := (strconv.Atoi level).1]> badges
  | _ => badges  (* len(badge) < 2: continue *)
  end.

Definition parseBadges (m : message) : gmap string Z :=
  match Tags_of m !! "badges" with
  | None => ∅
  | Some rawBadges => foldl parseBadges_step ∅ (strings.Split rawBadges ",")
  end.

Definition parseChannelMessage (m : message) : channelMessage :=
  {| channelMessage_RawMessage := message_RawMessage m;
     channelMessage_Channel := message_Channel m |}.

Definition parseRoomMessage (m : message) : roomMessage :=
  {| roomMessage_channelMessage := parseChannelMessage m;
     roomMessage_RoomID := tag (Tags_of m) "room-id" |}.

Definition parseChatMessage (m : message) : chatMessage :=
  let '(i, err) := strconv.ParseInt (tag (Tags_of m) "tmi-sent-ts") in
  {| chatMessage_roomMessage := parseRoomMessage m;
     chatMessage_ID := tag (Tags_of m) "id";
     chatMessage_Time :=
       if err then TimeZero else TimeUnixNano (wrap_int (i * 1000000)) |}.

(** One turn of the loop of [parseEmotes] over the groups of the tag. *)
Definition parseEmotes_step (runes : slice Z) (v : string) : result Emote :=
  let split := strings.SplitN v ":" 2 in
  let* ranges := index split 1 in
  let pos := strings.SplitN ranges "," 2 in
  let* pos0 := index pos 0 in
  let indexPair := strings.SplitN pos0 "-" 2 in
  let* first := index indexPair 0 in
  let firstIndex := (strconv.Atoi first).1 in
  let* last := index indexPair 1 in
  let lastIndex := (strconv.Atoi last).1 in
  let* name := slice_list runes firstIndex lastIndex in
  let* id := index split 0 in
  Ok {| Emote_Name := utf8.encode name;
        Emote_ID := id;
        Emote_Count := Z.of_nat (strings.Count ranges ",") + 1 |}.

Section Decoders.
Variable pf : platform.

Definition parseEmotes (m : message) : result (list Emote) :=
  let rawEmotes := tag (Tags_of m) "emotes" in
  if decide (rawEmotes = EmptyString) then Ok []
  else
    let runes := to_runes pf (RawMessage_Message (message_RawMessage m)) in
    for_each (parseEmotes_step runes) (strings.Split rawEmotes "/").

Definition is_action (text : string) : bool :=
  strings.HasPrefix text ACTION_marker && strings.HasSuffix text SOH.

Definition parseUserMessage (m : message) : result userMessage :=
  let* emotes := parseEmotes m in
  let text := RawMessage_Message (message_RawMessage m) in
  Ok {| userMessage_Action := is_action text;
        userMessage_Emotes := emotes |}.

Definition parseCLEARCHATMessage (m : message) : CLEARCHATMessage :=
  let chat := parseChatMessage m in
  let targetUsername := RawMessage_Message (chatMessage_RawMessage chat) in
  {| CLEARCHATMessage_chatMessage := chatMessage_set_Message chat EmptyString;
     CLEARCHATMessage_BanDuration :=
       match Tags_of m !! "ban-duration" with
       | None => 0
       | Some rawBanDuration => (strconv.Atoi rawBanDuration).1
       end;
     CLEARCHATMessage_TargetUserID := tag (Tags_of m) "target-user-id";
     CLEARCHATMessage_TargetUsername := targetUsername |}.

(** The promoted field [Tags] of a [ROOMSTATEMessage], and assignment to
    its [State]. *)
Definition ROOMSTATEMessage_Tags (m : ROOMSTATEMessage) : gmap string string :=
  RawMessage_Tags
    (channelMessage_RawMessage
       (roomMessage_channelMessage (ROOMSTATEMessage_roomMessage m))).

Definition ROOMSTATEMessage_set_State (m : ROOMSTATEMessage) (state : gmap string Z)
  : ROOMSTATEMessage :=
  {| ROOMSTATEMessage_roomMessage := ROOMSTATEMessage_roomMessage m;
     ROOMSTATEMessage_Language := ROOMSTATEMessage_Language m;
     ROOMSTATEMessage_State := state |}.

Definition addState (tag : string) (m : ROOMSTATEMessage) : ROOMSTATEMessage :=
  match ROOMSTATEMessage_Tags m !! tag with
  | None => m
  | Some rawValue =>
      ROOMSTATEMessage_set_State m
        (<[tag := (strconv.Atoi rawValue).1]> (ROOMSTATEMessage_State m))
  end.

Definition parseState (m : ROOMSTATEMessage) : ROOMSTATEMessage :=
  let m := ROOMSTATEMessage_set_State m ∅ in
  let m := addState "emote-only" m in
  let m := addState "followers-only" m in
  let m := addState "r9k" m in
  let m := addState "rituals" m in
  let m := addState "slow" m in
  addState "subs-only" m.

Definition parseROOMSTATEMessage (m : message) : ROOMSTATEMessage :=
  parseState
    {| ROOMSTATEMessage_roomMessage := parseRoomMessage m;
       ROOMSTATEMessage_Language := tag (Tags_of m) "broadcaster-lang";
       ROOMSTATEMessage_State := ∅ |}.

Definition parseNOTICEMessage (m : message) : NOTICEMessage :=
  {| NOTICEMessage_channelMessage := parseChannelMessage m;
     NOTICEMessage_MsgID := tag (Tags_of m) "msg-id" |}.

Definition parseUser (m : message) : User :=
  let name := message_Username m in
  let displayName := tag (Tags_of m) "display-name" in
  {| User_ID := tag (Tags_of m) "user-id";
     User_Name :=
       if decide (name = EmptyString)
       then strings.ToLower (ToLower_table pf) displayName
       else name;
     User_DisplayName := displayName;
     User_Color := tag (Tags_of m) "color";
     User_Badges := parseBadges m |}.

Definition parsePRIVMSGMessage (m : message) : result (User * PRIVMSGMessage) :=
  let chat := parseChatMessage m in
  let* user := parseUserMessage m in
  let* chat :=
    if userMessage_Action user then
      let text := RawMessage_Message (chatMessage_RawMessage chat) in
      let* text' := slice_string text 8 (Z.of_nat (len text) - 1) in
      Ok (chatMessage_set_Message chat text')
    else Ok chat in
  match Tags_of m !! "bits" with
  | None =>
      Ok (parseUser m,
          {| PRIVMSGMessage_chatMessage := chat;
             PRIVMSGMessage_userMessage := user;
             PRIVMSGMessage_Bits := 0 |})
  | Some rawBits =>
      Ok (parseUser m,
          {| PRIVMSGMessage_chatMessage := chat;
             PRIVMSGMessage_userMessage := user;
             PRIVMSGMessage_Bits := (strconv.Atoi rawBits).1 |})
  end.

Definition parseWHISPERMessage (m : message) : result (User * WHISPERMessage) :=
  let raw := message_RawMessage m in
  let* user := parseUserMessage m in
  let* raw :=
    if userMessage_Action user then
      let text := RawMessage_Message raw in
      let* text' := slice_string text 8 (Z.of_nat (len text) - 1) in
      Ok (RawMessage_set_Message raw text')
    else Ok raw in
  Ok (parseUser m,
      {| WHISPERMessage_RawMessage := raw;
         WHISPERMessage_userMessage := user |}).

Definition paramToBool (tag : string) (params : gmap string param)
  : result (gmap string param) :=
  match params !! tag with
  | None => Ok params
  | Some (PString rawValue) =>
      Ok (<[tag := PBool (bool_decide (rawValue = "1"))]> params)
  | Some _ => Panic BadTypeAssertion
  end.

Definition paramToInt (tag : string) (params : gmap string param)
  : result (gmap string param) :=
  match params !! tag with
  | None => Ok params
  | Some (PString rawValue) =>
      Ok (<[tag := PInt (strconv.Atoi rawValue).1]> params)
  | Some _ => Panic BadTypeAssertion
  end.

(** [parseMsgParams] reads the receiver's [Tags] and fills its
    [MsgParams]; the model returns the bag. *)
Definition parseMsgParams (tags : gmap string string) : result (gmap string param) :=
  let params : gmap string param :=
    (fun v => PString (strings.ReplaceAll v "\s" " "))
      <$> filter (fun kv => strings.Contains kv.1 "msg-param" = true) tags in
  let* params := paramToInt "msg-param-cumulative-months" params in
  let* params := paramToInt "msg-param-months" params in
  let* params := paramToBool "msg-param-should-share-streak" params in
  let* params := paramToInt "msg-param-streak-months" params in
  paramToInt "msg-param-viewerCount" params.

Definition parseUSERNOTICEMessage (m : message) : result (User * USERNOTICEMessage) :=
  let chat := parseChatMessage m in
  let* user := parseUserMessage m in
  let tags := RawMessage_Tags (chatMessage_RawMessage chat) in
  let* params := parseMsgParams tags in
  let systemMsg :=
    match tags !! "system-msg" with
    | None => EmptyString
    | Some rawSystemMsg =>
        let rawSystemMsg := strings.ReplaceAll rawSystemMsg "\s" " " in
        let rawSystemMsg := strings.ReplaceAll rawSystemMsg "\n" EmptyString in
        strings.TrimSpace (TrimSpace_unicode pf) rawSystemMsg
    end in
  Ok (parseUser m,
      {| USERNOTICEMessage_chatMessage := chat;
         USERNOTICEMessage_userMessage := user;
         USERNOTICEMessage_MsgID := tag (Tags_of m) "msg-id";
         USERNOTICEMessage_MsgParams := params;
         USERNOTICEMessage_SystemMsg := systemMsg |}).

Definition parseUSERSTATEMessage (m : message) : User * USERSTATEMessage :=
  let channel := parseChannelMessage m in
  match RawMessage_Tags (channelMessage_RawMessage channel) !! "emote-sets" with
  | None =>
      (parseUser m,
       {| USERSTATEMessage_channelMessage := channel;
          USERSTATEMessage_EmoteSets := [] |})
  | Some rawEmoteSets =>
      (parseUser m,
       {| USERSTATEMessage_channelMessage := channel;
          USERSTATEMessage_EmoteSets := strings.Split rawEmoteSets "," |})
  end.

End Decoders.

(** Returns [(channel, username)]. *)
Definition parseJoinPart (text : string) : result (string * string) :=
  let username := strings.Split text "!" in
  let* u1 := index username 1 in
  let channel := strings.Split u1 "#" in
  let* c1 := index channel 1 in
  let* u0 := index username 0 in
  Ok (strings.Trim c1 " ", strings.Trim u0 " :").

(** Returns [(channel, users)]. *)
Definition parseNames (text : string) : result (string * list string) :=
  let lines := strings.Split text ":" in
  let* l1 := index lines 1 in
  let channelDirty := strings.Split l1 "#" in
  let* c1 := index channelDirty 1 in
  let channel := strings.Trim c1 " " in
  let* l2 := index lines 2 in
  Ok (channel, strings.Split l2 " ").

End MessageGo.

(** ** [src/unnamed/part_000] *)

Module Part000.

Inductive MessageType :=
  | UNSET | WHISPER | PRIVMSG | CLEARCHAT | ROOMSTATE | USERNOTICE
  | USERSTATE | NOTICE | JOIN | PART | RECONNECT | NAMES | PING | PONG.

Definition MessageType_value (t : MessageType) : Z :=
  match t with
  | UNSET => -1 | WHISPER => 0 | PRIVMSG => 1 | CLEARCHAT => 2
  | ROOMSTATE => 3 | USERNOTICE => 4 | USERSTATE => 5 | NOTICE => 6
  | JOIN => 7 | PART => 8 | RECONNECT => 9 | NAMES => 10 | PING => 11
  | PONG => 12
  end.

Record Emote := {
  Emote_Name : string;
  Emote_ID : string;
  Emote_Count : Z }.

(** Modelled from the spec: the framed line [ircMessage] ({tags,
    sourceUsername, command, params, raw}) is declared outside the
    sources; these are the fields the decoders read. *)
Record ircMessageSource := { Source_Username : string }.

Record ircMessage := {
  ircMessage_Raw : string;
  ircMessage_Tags : gmap string string;
  ircMessage_Source : ircMessageSource;
  ircMessage_Command : string;
  ircMessage_Params : list string }.

(** Modelled from the spec: the declarations of [User] and of the event
    records are outside the sources; each record has the fields its
    decoder assigns. *)
Record User := {
  User_ID : string;
  User_Name : string;
  User_DisplayName : string;
  User_Color : string;
  User_Badges : gmap string Z }.

Record RawMessage := {
  RawMessage_Raw : string;
  RawMessage_Type : MessageType;
  RawMessage_RawType : string;
  RawMessage_Tags : gmap string string;
  RawMessage_Message : string }.

Record WhisperMessage := {
  WhisperMessage_User : User;
  WhisperMessage_Raw : string;
  WhisperMessage_Type : MessageType;
  WhisperMessage_RawType : string;
  WhisperMessage_Tags : gmap string string;
  WhisperMessage_MessageID : string;
  WhisperMessage_ThreadID : string;
  WhisperMessage_Message : string;
  WhisperMessage_Target : string;
  WhisperMessage_Emotes : list Emote;
  WhisperMessage_Action : bool }.

Record PrivateMessage := {
  PrivateMessage_User : User;
  PrivateMessage_Raw : string;
  PrivateMessage_Type : MessageType;
  PrivateMessage_RawType : string;
  PrivateMessage_Tags : gmap string string;
  PrivateMessage_RoomID : string;
  PrivateMessage_ID : string;
  PrivateMessage_Time : Time;
  PrivateMessage_Message : string;
  PrivateMessage_Channel : string;
  PrivateMessage_Emotes : list Emote;
  PrivateMessage_Bits : Z;
  PrivateMessage_Action : bool }.

Record ClearChatMessage := {
  ClearChatMessage_Raw : string;
  ClearChatMessage_Type : MessageType;
  ClearChatMessage_RawType : string;
  ClearChatMessage_Tags : gmap string string;
  ClearChatMessage_RoomID : string;
  ClearChatMessage_Time : Time;
  ClearChatMessage_TargetUserID : string;
  ClearChatMessage_Channel : string;
  ClearChatMessage_BanDuration : Z;
  ClearChatMessage_TargetUsername : string }.

Record RoomStateMessage := {
  RoomStateMessage_Raw : string;
  RoomStateMessage_Type : MessageType;
  RoomStateMessage_RawType : string;
  RoomStateMessage_Tags : gmap string string;
  RoomStateMessage_RoomID : string;
  RoomStateMessage_State : gmap string Z;
  RoomStateMessage_Channel : string }.

Record UserNoticeMessage := {
  UserNoticeMessage_User : User;
  UserNoticeMessage_Raw : string;
  UserNoticeMessage_Type : MessageType;
  UserNoticeMessage_RawType : string;
  UserNoticeMessage_Tags : gmap string string;
  UserNoticeMessage_RoomID : string;
  UserNoticeMessage_ID : string;
  UserNoticeMessage_Time : Time;
  UserNoticeMessage_MsgID : string;
  UserNoticeMessage_MsgParams : gmap string string;
  UserNoticeMessage_SystemMsg : string;
  UserNoticeMessage_Message : string;
  UserNoticeMessage_Channel : string;
  UserNoticeMessage_Emotes : list Emote }.

Record UserStateMessage := {
  UserStateMessage_User : User;
  UserStateMessage_Raw : string;
  UserStateMessage_Type : MessageType;
  UserStateMessage_RawType : string;
  UserStateMessage_Tags : gmap string string;
  UserStateMessage_Channel : string;
  UserStateMessage_EmoteSets : list string }.

Record NoticeMessage := {
  NoticeMessage_Raw : string;
  NoticeMessage_Type : MessageType;
  NoticeMessage_RawType : string;
  NoticeMessage_Tags : gmap string string;
  NoticeMessage_MsgID : string;
  NoticeMessage_Message : string;
  NoticeMessage_Channel : string }.

Record UserJoinMessage := {
  UserJoinMessage_Raw : string;
  UserJoinMessage_Type : MessageType;
  UserJoinMessage_RawType : string;
  UserJoinMessage_User : string;
  UserJoinMessage_Channel : string }.

Record UserPartMessage := {
  UserPartMessage_Raw : string;
  UserPartMessage_Type : MessageType;
  UserPartMessage_RawType : string;
  UserPartMessage_User : string;
  UserPartMessage_Channel : string }.

Record ReconnectMessage := {
  ReconnectMessage_Raw : string;
  ReconnectMessage_Type : MessageType;
  ReconnectMessage_RawType : string }.

Record NamesMessage := {
  NamesMessage_Raw : string;
  NamesMessage_Type : MessageType;
  NamesMessage_RawType : string;
  NamesMessage_Channel : string;
  NamesMessage_Users : list string }.

Record PingMessage := {
  PingMessage_Raw : string;
  PingMessage_Type : MessageType;
  PingMessage_RawType : string;
  PingMessage_Message : string }.

Record PongMessage := {
  PongMessage_Raw : string;
  PongMessage_Type : MessageType;
  PongMessage_RawType : string;
  PongMessage_Message : string }.

(** The interface [Message]: one variant per concrete record. *)
Inductive Message :=
  | MRaw (m : RawMessage)
  | MWhisper (m : WhisperMessage)
  | MPrivate (m : PrivateMessage)
  | MClearChat (m : ClearChatMessage)
  | MRoomState (m : RoomStateMessage)
  | MUserNotice (m : UserNoticeMessage)
  | MUserState (m : UserStateMessage)
  | MNotice (m : NoticeMessage)
  | MUserJoin (m : UserJoinMessage)
  | MUserPart (m : UserPartMessage)
  | MReconnect (m : ReconnectMessage)
  | MNames (m : NamesMessage)
  | MPing (m : PingMessage)
  | MPong (m : PongMessage).

(** The [Type] field of a decoded record. *)
Definition GetType (msg : Message) : MessageType :=
  match msg with
  | MRaw m => RawMessage_Type m
  | MWhisper m => WhisperMessage_Type m
  | MPrivate m => PrivateMessage_Type m
  | MClearChat m => ClearChatMessage_Type m
  | MRoomState m => RoomStateMessage_Type m
  | MUserNotice m => UserNoticeMessage_Type m
  | MUserState m => UserStateMessage_Type m
  | MNotice m => NoticeMessage_Type m
  | MUserJoin m => UserJoinMessage_Type m
  | MUserPart m => UserPartMessage_Type m
  | MReconnect m => ReconnectMessage_Type m
  | MNames m => NamesMessage_Type m
  | MPing m => PingMessage_Type m
  | MPong m => PongMessage_Type m
  end.

Record messageTypeDescription := {
  Type_ : MessageType;
  (** The parser reads the global [messageTypeMap] through
      [parseMessageType] when it runs; it receives that lookup as its
      first argument. *)
  Parser : (string -> MessageType) -> ircMessage -> result Message }.

Definition parseBadges_step (badges : gmap string Z) (badge : string)
  : result (gmap string Z) :=
  let pair := strings.SplitN badge "/" 2 in
  let* name := index pair 0 in
  let* level := index pair 1 in
  Ok (<[name := (strconv.Atoi level).1]> badges).

Fixpoint parseBadges_loop (bs : list string) (badges : gmap string Z)
  : result (gmap string Z) :=
  match bs with
  | [] => Ok badges
  | badge :: bs' =>
      let* badges' := parseBadges_step badges badge in
      parseBadges_loop bs' badges'
  end.

Definition parseBadges (rawBadges : string) : result (gmap string Z) :=
  parseBadges_loop (strings.Split rawBadges ",") ∅.

Definition parseTime (rawTime : string) : Time :=
  if decide (rawTime = EmptyString) then TimeZero
  else TimeUnixNano (wrap_int ((strconv.ParseInt rawTime).1 * 1000000)).

(** One turn of the loop of [parseEmotes] over the groups of the tag. *)
Definition parseEmotes_step (runes : slice Z) (v : string) : result Emote :=
  let split := strings.SplitN v ":" 2 in
  let* ranges := index split 1 in
  let pairs := strings.SplitN ranges "," 2 in
  let* pairs0 := index pairs 0 in
  let pair := strings.SplitN pairs0 "-" 2 in
  let* first := index pair 0 in
  let firstIndex := (strconv.Atoi first).1 in
  let* last := index pair 1 in
  let lastIndex := (strconv.Atoi last).1 in
  let* name := slice_list runes firstIndex (wrap_int (lastIndex + 1)) in
  let* id := index split 0 in
  Ok {| Emote_Name := utf8.encode name;
        Emote_ID := id;
        Emote_Count := Z.of_nat (strings.Count ranges ",") + 1 |}.

Definition parseEmotes (pf : platform) (rawEmotes message : string)
  : result (list Emote) :=
  if decide (rawEmotes = EmptyString) then Ok []
  else
    let runes := to_runes pf message in
    for_each (parseEmotes_step runes) (strings.Split rawEmotes "/").

(** [if len(message.Params) == 2 { ... = message.Params[1] }] *)
Definition second_of_two (params : list string) : string :=
  match params with
  | [_; p1] => p1
  | _ => EmptyString
  end.

Section Parsers.
Variable pf : platform.
(** The lookup in the global [messageTypeMap], see [messageTypeDescription]. *)
Variable parseMessageType : string -> MessageType.

Definition parseUser (message : ircMessage) : result User :=
  let tags := ircMessage_Tags message in
  let name := Source_Username (ircMessage_Source message) in
  let displayName := tag tags "display-name" in
  let rawBadges := tag tags "badges" in
  let* badges :=
    if decide (rawBadges = EmptyString) then Ok ∅ else parseBadges rawBadges in
  Ok {| User_ID := tag tags "user-id";
        User_Name :=
          if bool_decide (name = EmptyString)
             && negb (bool_decide (displayName = EmptyString))
          then strings.Replace (strings.ToLower (ToLower_table pf) displayName)
                 " " EmptyString 1
          else name;
        User_DisplayName := displayName;
        User_Color := tag tags "color";
        User_Badges := badges |}.

(** Body recovered by the fallback: from the first parameter without a
    ['#'] onward. *)
Fixpoint parseRawMessage_loop (params : list string) : string :=
  match params with
  | [] => EmptyString
  | v :: rest =>
      if negb (strings.Contains v "#") then strings.Join params " "
      else parseRawMessage_loop rest
  end.

Definition parseRawMessage (message : ircMessage) : RawMessage :=
  {| RawMessage_Raw := ircMessage_Raw message;
     RawMessage_Type := parseMessageType (ircMessage_Command message);
     RawMessage_RawType := ircMessage_Command message;
     RawMessage_Tags := ircMessage_Tags message;
     RawMessage_Message := parseRawMessage_loop (ircMessage_Params message) |}.

Definition parseWhisperMessage (message : ircMessage) : result Message :=
  let tags := ircMessage_Tags message in
  let params := ircMessage_Params message in
  let* user := parseUser message in
  let text := second_of_two params in
  let* target := index params 0 in
  let* emotes := parseEmotes pf (tag tags "emotes") text in
  let action := strings.Contains text "/me" in
  Ok (MWhisper
        {| WhisperMessage_User := user;
           WhisperMessage_Raw := ircMessage_Raw message;
           WhisperMessage_Type := parseMessageType (ircMessage_Command message);
           WhisperMessage_RawType := ircMessage_Command message;
           WhisperMessage_Tags := tags;
           WhisperMessage_MessageID := tag tags "message-id";
           WhisperMessage_ThreadID := tag tags "thread-id";
           WhisperMessage_Message :=
             if action then strings.TrimPrefix text "/me" else text;
           WhisperMessage_Target := target;
           WhisperMessage_Emotes := emotes;
           WhisperMessage_Action := action |}).

Definition is_action (text : string) : bool :=
  strings.HasPrefix text ACTION_marker && strings.HasSuffix text SOH.

Definition parsePrivateMessage (message : ircMessage) : result Message :=
  let tags := ircMessage_Tags message in
  let params := ircMessage_Params message in
  let* user := parseUser message in
  let text := second_of_two params in
  let* p0 := index params 0 in
  let* emotes := parseEmotes pf (tag tags "emotes") text in
  let bits :=
    match tags !! "bits" with
    | Some rawBits => (strconv.Atoi rawBits).1
    | None => 0
    end in
  let* text' :=
    if is_action text
    then slice_string text 8 (Z.of_nat (len text) - 1)
    else Ok text in
  Ok (MPrivate
        {| PrivateMessage_User := user;
           PrivateMessage_Raw := ircMessage_Raw message;
           PrivateMessage_Type := parseMessageType (ircMessage_Command message);
           PrivateMessage_RawType := ircMessage_Command message;
           PrivateMessage_Tags := tags;
           PrivateMessage_RoomID := tag tags "room-id";
           PrivateMessage_ID := tag tags "id";
           PrivateMessage_Time := parseTime (tag tags "tmi-sent-ts");
           PrivateMessage_Message := text';
           PrivateMessage_Channel := strings.TrimPrefix p0 "#";
           PrivateMessage_Emotes := emotes;
           PrivateMessage_Bits := bits;
           PrivateMessage_Action := is_action text |}).

Definition parseClearChatMessage (message : ircMessage) : result Message :=
  let tags := ircMessage_Tags message in
  let params := ircMessage_Params message in
  let* p0 := index params 0 in
  Ok (MClearChat
        {| ClearChatMessage_Raw := ircMessage_Raw message;
           ClearChatMessage_Type := parseMessageType (ircMessage_Command message);
           ClearChatMessage_RawType := ircMessage_Command message;
           ClearChatMessage_Tags := tags;
           ClearChatMessage_RoomID := tag tags "room-id";
           ClearChatMessage_Time := parseTime (tag tags "tmi-sent-ts");
           ClearChatMessage_TargetUserID := tag tags "target-user-id";
           ClearChatMessage_Channel := strings.TrimPrefix p0 "#";
           ClearChatMessage_BanDuration :=
             match tags !! "ban-duration" with
             | Some rawBanDuration => (strconv.Atoi rawBanDuration).1
             | None => 0
             end;
           ClearChatMessage_TargetUsername := second_of_two params |}).

Definition stateTags : list string :=
  ["emote-only"; "followers-only"; "r9k"; "rituals"; "slow"; "subs-only"].

Definition parseRoomState_step (tags : gmap string string)
    (state : gmap string Z) (t : string) : gmap string Z :=
  match tags !! t with
  | None => state
  | Some rawValue => <[t := (strconv.Atoi rawValue).1]> state
  end.

Definition parseRoomStateMessage (message : ircMessage) : result Message :=
  let tags := ircMessage_Tags message in
  let* p0 := index (ircMessage_Params message) 0 in
  Ok (MRoomState
        {| RoomStateMessage_Raw := ircMessage_Raw message;
           RoomStateMessage_Type := parseMessageType (ircMessage_Command message);
           RoomStateMessage_RawType := ircMessage_Command message;
           RoomStateMessage_Tags := tags;
           RoomStateMessage_RoomID := tag tags "room-id";
           RoomStateMessage_State := foldl (parseRoomState_step tags) ∅ stateTags;
           RoomStateMessage_Channel := strings.TrimPrefix p0 "#" |}).

Definition parseUserNoticeMessage (message : ircMessage) : result Message :=
  let tags := ircMessage_Tags message in
  let params := ircMessage_Params message in
  let* user := parseUser message in
  let text := second_of_two params in
  let* p0 := index params 0 in
  let* emotes := parseEmotes pf (tag tags "emotes") text in
  Ok (MUserNotice
        {| UserNoticeMessage_User := user;
           UserNoticeMessage_Raw := ircMessage_Raw message;
           UserNoticeMessage_Type := parseMessageType (ircMessage_Command message);
           UserNoticeMessage_RawType := ircMessage_Command message;
           UserNoticeMessage_Tags := tags;
           UserNoticeMessage_RoomID := tag tags "room-id";
           UserNoticeMessage_ID := tag tags "id";
           UserNoticeMessage_Time := parseTime (tag tags "tmi-sent-ts");
           UserNoticeMessage_MsgID := tag tags "msg-id";
           UserNoticeMessage_MsgParams :=
             filter (fun kv => strings.Contains kv.1 "msg-param" = true) tags;
           UserNoticeMessage_SystemMsg := tag tags "system-msg";
           UserNoticeMessage_Message := text;
           UserNoticeMessage_Channel := strings.TrimPrefix p0 "#";
           UserNoticeMessage_Emotes := emotes |}).

Definition parseUserStateMessage (message : ircMessage) : result Message :=
  let tags := ircMessage_Tags message in
  let* user := parseUser message in
  let* p0 := index (ircMessage_Params message) 0 in
  Ok (MUserState
        {| UserStateMessage_User := user;
           UserStateMessage_Raw := ircMessage_Raw message;
           UserStateMessage_Type := parseMessageType (ircMessage_Command message);
           UserStateMessage_RawType := ircMessage_Command message;
           UserStateMessage_Tags := tags;
           UserStateMessage_Channel := strings.TrimPrefix p0 "#";
           UserStateMessage_EmoteSets :=
             match tags !! "emote-sets" with
             | Some rawEmoteSets => strings.Split rawEmoteSets ","
             | None => []
             end |}).

Definition parseNoticeMessage (message : ircMessage) : result Message :=
  let tags := ircMessage_Tags message in
  let params := ircMessage_Params message in
  let* p0 := index params 0 in
  Ok (MNotice
        {| NoticeMessage_Raw := ircMessage_Raw message;
           NoticeMessage_Type := parseMessageType (ircMessage_Command message);
           NoticeMessage_RawType := ircMessage_Command message;
           NoticeMessage_Tags := tags;
           NoticeMessage_MsgID := tag tags "msg-id";
           NoticeMessage_Message := second_of_two params;
           NoticeMessage_Channel := strings.TrimPrefix p0 "#" |}).

(** [if len(message.Params) == 1 { ... message.Params[0] ... }] *)
Definition only_param (params : list string) : option string :=
  match params with
  | [p0] => Some p0
  | _ => None
  end.

Definition parseUserJoinMessage (message : ircMessage) : result Message :=
  Ok (MUserJoin
        {| UserJoinMessage_Raw := ircMessage_Raw message;
           UserJoinMessage_Type := parseMessageType (ircMessage_Command message);
           UserJoinMessage_RawType := ircMessage_Command message;
           UserJoinMessage_User := Source_Username (ircMessage_Source message);
           UserJoinMessage_Channel :=
             match only_param (ircMessage_Params message) with
             | Some p0 => strings.TrimPrefix p0 "#"
             | None => EmptyString
             end |}).

Definition parseUserPartMessage (message : ircMessage) : result Message :=
  Ok (MUserPart
        {| UserPartMessage_Raw := ircMessage_Raw message;
           UserPartMessage_Type := parseMessageType (ircMessage_Command message);
           UserPartMessage_RawType := ircMessage_Command message;
           UserPartMessage_User := Source_Username (ircMessage_Source message);
           UserPartMessage_Channel :=
             match only_param (ircMessage_Params message) with
             | Some p0 => strings.TrimPrefix p0 "#"
             | None => EmptyString
             end |}).

Definition parseReconnectMessage (message : ircMessage) : result Message :=
  Ok (MReconnect
        {| ReconnectMessage_Raw := ircMessage_Raw message;
           ReconnectMessage_Type := parseMessageType (ircMessage_Command message);
           ReconnectMessage_RawType := ircMessage_Command message |}).

Definition parseNamesMessage (message : ircMessage) : result Message :=
  let base channel users :=
    MNames
      {| NamesMessage_Raw := ircMessage_Raw message;
         NamesMessage_Type := parseMessageType (ircMessage_Command message);
         NamesMessage_RawType := ircMessage_Command message;
         NamesMessage_Channel := channel;
         NamesMessage_Users := users |} in
  match ircMessage_Params message with
  | [_; _; p2; p3] =>
      Ok (base (strings.TrimPrefix p2 "#") (strings.Split p3 " "))
  | _ => Ok (base EmptyString [])
  end.

Definition parsePingMessage (message : ircMessage) : result Message :=
  let* text :=
    match only_param (ircMessage_Params message) with
    | Some p0 => index (strings.Split p0 " ") 0
    | None => Ok EmptyString
    end in
  Ok (MPing
        {| PingMessage_Raw := ircMessage_Raw message;
           PingMessage_Type := parseMessageType (ircMessage_Command message);
           PingMessage_RawType := ircMessage_Command message;
           PingMessage_Message := text |}).

Definition parsePongMessage (message : ircMessage) : result Message :=
  let* text :=
    match ircMessage_Params message with
    | [_; p1] => index (strings.Split p1 " ") 0
    | _ => Ok EmptyString
    end in
  Ok (MPong
        {| PongMessage_Raw := ircMessage_Raw message;
           PongMessage_Type := parseMessageType (ircMessage_Command message);
           PongMessage_RawType := ircMessage_Command message;
           PongMessage_Message := text |}).

End Parsers.

Section Dispatch.
Variable pf : platform.

(** The table built by [init]. *)
Definition messageTypeMap : gmap string messageTypeDescription :=
  list_to_map
    [ ("WHISPER", {| Type_ := WHISPER; Parser := parseWhisperMessage pf |});
      ("PRIVMSG", {| Type_ := PRIVMSG; Parser := parsePrivateMessage pf |});
      ("CLEARCHAT", {| Type_ := CLEARCHAT; Parser := parseClearChatMessage |});
      ("ROOMSTATE", {| Type_ := ROOMSTATE; Parser := parseRoomStateMessage |});
      ("USERNOTICE", {| Type_ := USERNOTICE; Parser := parseUserNoticeMessage pf |});
      ("USERSTATE", {| Type_ := USERSTATE; Parser := parseUserStateMessage pf |});
      ("NOTICE", {| Type_ := NOTICE; Parser := parseNoticeMessage |});
      ("JOIN", {| Type_ := JOIN; Parser := parseUserJoinMessage |});
      ("PART", {| Type_ := PART; Parser := parseUserPartMessage |});
      ("RECONNECT", {| Type_ := RECONNECT; Parser := parseReconnectMessage |});
      ("353", {| Type_ := NAMES; Parser := parseNamesMessage |});
      ("PING", {| Type_ := PING; Parser := parsePingMessage |});
      ("PONG", {| Type_ := PONG; Parser := parsePongMessage |}) ].

Definition parseMessageType (messageType : string) : MessageType :=
  match messageTypeMap !! messageType with
  | Some mt => Type_ mt
  | None => UNSET
  end.

(** The line framer [parseIRCMessage] is outside the sources; it returns
    the framed line and whether [err != nil]. *)
Variable parseIRCMessage : string -> ircMessage * bool.

Definition ParseMessage (line : string) : result Message :=
  let '(ircMessage, err) := parseIRCMessage line in
  if err then Ok (MRaw (parseRawMessage parseMessageType ircMessage))
  else
    match messageTypeMap !! ircMessage_Command ircMessage with
    | Some mt => Parser mt parseMessageType ircMessage
    | None => Ok (MRaw (parseRawMessage parseMessageType ircMessage))
    end.

End Dispatch.

End Part000.

(** * Vocabulary of the statements

    Inputs are described the way the wire format spells them: lists of
    entries, pairs and groups, and the text that renders them. *)

(** ** Bytes of a string, decimal numerals *)

(** The byte [c] occurs in [s]. *)
Fixpoint occurs (c : ascii) (s : string) : bool :=
  match s with
  | EmptyString => false
  | String d s' => bool_decide (d = c) || occurs c s'
  end.

(** A one-byte separator. *)
Abbreviation sep1 c := (String c EmptyString) (only parsing).

(** The decimal numeral of a number, as the server prints offsets and
    levels. *)
Definition digit_char (d : nat) : ascii := ascii_of_nat (48 + d).

Fixpoint decimal_fuel (fuel n : nat) (acc : string) : string :=
  match fuel with
  | O => acc
  | S fuel' =>
      let acc' := String (digit_char (n mod 10)) acc in
      if (n <? 10)%nat then acc' else decimal_fuel fuel' (n / 10) acc'
  end.

Definition decimal (n : nat) : string := decimal_fuel (S n) n EmptyString.

(** Every byte of [s] is a decimal digit. *)
Fixpoint digits_only (s : string) : bool :=
  match s with
  | EmptyString => true
  | String c s' => bool_decide (is_Some (strconv.digit c)) && digits_only s'
  end.

(** ** Emote groups as the tag spells them *)

(** One group [emoteID:first-last,first-last,...] of the emotes tag: the
    emote, its first range and the additional ranges. *)
Record emote_group := {
  group_id : string;
  group_first : nat;
  group_last : nat;
  group_more : list (nat * nat) }.

(** The text of a range, a group and the whole tag value. *)
Definition render_range (r : nat * nat) : string :=
  decimal r.1 +:+ "-" +:+ decimal r.2.

Definition group_ranges (g : emote_group) : list (nat * nat) :=
  (group_first g, group_last g) :: group_more g.

Definition render_group (g : emote_group) : string :=
  group_id g +:+ ":" +:+ strings.Join (render_range <$> group_ranges g) ",".

Definition render_emotes (gs : list emote_group) : string :=
  strings.Join (render_group <$> gs) "/".

(** The codepoints [lo, hi) of the body, as a string. *)
Definition rune_substring (body : string) (lo hi : nat) : string :=
  utf8.encode (take (hi - lo) (drop lo (utf8.decode body))).

(** An emote ID holds neither of the separators around it. *)
Definition group_id_ok (g : emote_group) : Prop :=
  occurs "/" (group_id g) = false /\ occurs ":" (group_id g) = false.

(** The Emote the claim describes for a group: the name is cut at the first
    range, both ends included. *)
Definition Part000_emote (body : string) (g : emote_group) : Part000.Emote :=
  {| Part000.Emote_Name := rune_substring body (group_first g) (S (group_last g));
     Part000.Emote_ID := group_id g;
     Part000.Emote_Count := 1 + Z.of_nat (length (group_more g)) |}.

(** ** The dispatch table of the specification *)

(** The dispatch table of the specification: command token to kind. *)
Definition dispatch_table : list (string * Part000.MessageType) :=
  [ ("WHISPER", Part000.WHISPER); ("PRIVMSG", Part000.PRIVMSG); ("CLEARCHAT", Part000.CLEARCHAT);
    ("ROOMSTATE", Part000.ROOMSTATE); ("USERNOTICE", Part000.USERNOTICE);
    ("USERSTATE", Part000.USERSTATE); ("NOTICE", Part000.NOTICE); ("JOIN", Part000.JOIN);
    ("PART", Part000.PART); ("RECONNECT", Part000.RECONNECT); ("353", Part000.NAMES);
    ("PING", Part000.PING); ("PONG", Part000.PONG) ].

(** Lookup in the table, and the kind of a command token: Unset outside
    the table. *)
Fixpoint assoc (k : string) (l : list (string * Part000.MessageType)) : option Part000.MessageType :=
  match l with
  | [] => None
  | (k', v) :: l' => if decide (k = k') then Some v else assoc k l'
  end.

Definition dispatch_kind (cmd : string) : Part000.MessageType :=
  default Part000.UNSET (assoc cmd dispatch_table).

(** A decoder stamps its record with the kind looked up for the command. *)
Definition kind_ok (pmt : string -> Part000.MessageType)
    (parser : Part000.ircMessage -> result Part000.Message) : Prop :=
  forall m r, parser m = Ok r -> Part000.GetType r = pmt (Part000.ircMessage_Command m).

(** A sufficient condition for every decoder of the table to return: one
    parameter at least, and sub-decoders that do not panic. *)
Definition decodable (pf : platform) (m : Part000.ircMessage) : bool :=
  let text := Part000.second_of_two (Part000.ircMessage_Params m) in
  negb (bool_decide (Part000.ircMessage_Params m = []))
  && is_ok (Part000.parseUser pf m)
  && is_ok (Part000.parseEmotes pf (tag (Part000.ircMessage_Tags m) "emotes") text)
  && (negb (Part000.is_action text) || (9 <=? Z.of_nat (len text))).

(** ** Tag blocks *)

(** One entry of a tag block: a name and, after ['='], a raw value. *)
Definition render_entry (e : string * option string) : string :=
  match e.2 with
  | Some v => e.1 +:+ "=" +:+ v
  | None => e.1
  end.

(** The text of a tag block. *)
Definition render_tags (es : list (string * option string)) : string :=
  "@" +:+ strings.Join (render_entry <$> es) ";".

(** Names hold no [';'] and no ['='], values no [';']. *)
Definition entry_ok (e : string * option string) : Prop :=
  occurs ";" e.1 = false /\ occurs "=" e.1 = false
  /\ forall v, e.2 = Some v -> occurs ";" v = false.

(** The map a tag block denotes: values verbatim, a later entry wins. *)
Definition tags_of_entries (es : list (string * option string)) : gmap string string :=
  foldl (fun m e => <[e.1 := default EmptyString e.2]> m) ∅ es.

(** ** Badge lists *)









(** ** The ACTION wrapper *)

(** A body has the ACTION shape when it reads [marker ++ mid ++ SOH]. *)
Definition action_shape (text : string) : Prop :=
  exists mid, text = ACTION_marker +:+ mid +:+ SOH.

(** The promoted field [Message] of the two records of [message.go]. *)
Definition PRIVMSG_text (r : MessageGo.PRIVMSGMessage) : string :=
  MessageGo.RawMessage_Message
    (MessageGo.chatMessage_RawMessage (MessageGo.PRIVMSGMessage_chatMessage r)).

Definition WHISPER_text (r : MessageGo.WHISPERMessage) : string :=
  MessageGo.RawMessage_Message (MessageGo.WHISPERMessage_RawMessage r).

(** ** The parameter bag *)

(** The names coerced to integers, and the one coerced to a boolean. *)
Definition int_params : list string :=
  [ "msg-param-cumulative-months"; "msg-param-months";
    "msg-param-streak-months"; "msg-param-viewerCount" ].

Definition bool_param : string := "msg-param-should-share-streak".

(** The value the bag holds for tag [k] with raw value [v]. *)
Definition coerce (k v : string) : MessageGo.param :=
  if bool_decide (k ∈ int_params)
  then MessageGo.PInt (strconv.Atoi (strings.ReplaceAll v "\s" " ")).1
  else if bool_decide (k = bool_param) then MessageGo.PBool (bool_decide (v = "1"))
  else MessageGo.PString (strings.ReplaceAll v "\s" " ").

(** The entry of the bag for name [k]: absent unless the name contains
    ["msg-param"] and the tag is present. *)
Definition bag_entry (tags : gmap string string) (k : string) : option MessageGo.param :=
  if strings.Contains k "msg-param" then coerce k <$> tags !! k else None.

(** The value is still the string copied from the tag. *)
Definition is_PString (p : MessageGo.param) : Prop :=
  match p with MessageGo.PString _ => True | _ => False end.

(** The bag before the coercions. *)
Definition raw_bag (tags : gmap string string) : gmap string MessageGo.param :=
  (fun v => MessageGo.PString (strings.ReplaceAll v "\s" " "))
    <$> filter (fun kv => strings.Contains kv.1 "msg-param" = true) tags.

(** A coercion step applied to a bag: the key becomes [f s], the rest stays. *)
Definition coerced (f : string -> MessageGo.param) (k : string) (params : gmap string MessageGo.param)
  : gmap string MessageGo.param :=
  match params !! k with
  | Some (MessageGo.PString s) => <[k := f s]> params
  | _ => params
  end.

(** The tag map of a USERNOTICE record. *)
Definition USERNOTICE_tags (r : MessageGo.USERNOTICEMessage) : gmap string string :=
  MessageGo.RawMessage_Tags
    (MessageGo.chatMessage_RawMessage (MessageGo.USERNOTICEMessage_chatMessage r)).

(** ** UTF-8 and substrings *)

(** A string is well-formed UTF-8 when decoding and re-encoding gives it
    back ([encode] only writes well-formed sequences, and an ill-formed
    byte comes back as the three bytes of U+FFFD). *)
Definition valid_utf8 (s : string) : Prop := utf8.encode (utf8.decode s) = s.

(** [piece] occurs in [whole] as a run of consecutive bytes. *)
Definition substring_of (piece whole : string) : Prop :=
  exists pre post, whole = pre +:+ piece +:+ post.

(** The Emote [message.go] builds for a group: the end of the first range
    is left out. *)
Definition MessageGo_emote (body : string) (g : emote_group) : MessageGo.Emote :=
  {| MessageGo.Emote_Name := rune_substring body (group_first g) (group_last g);
     MessageGo.Emote_ID := group_id g;
     MessageGo.Emote_Count := 1 + Z.of_nat (length (group_more g)) |}.

(** ** The kinds of [message.go] *)

(** The seven tokens [parseMessageType] of [message.go] knows. *)
Definition legacy_table : list (string * MessageGo.MessageType) :=
  [ ("PRIVMSG", MessageGo.PRIVMSG); ("WHISPER", MessageGo.WHISPER);
    ("CLEARCHAT", MessageGo.CLEARCHAT); ("NOTICE", MessageGo.NOTICE);
    ("ROOMSTATE", MessageGo.ROOMSTATE); ("USERSTATE", MessageGo.USERSTATE);
    ("USERNOTICE", MessageGo.USERNOTICE) ].

Fixpoint legacy_assoc (k : string) (l : list (string * MessageGo.MessageType))
  : option MessageGo.MessageType :=
  match l with
  | [] => None
  | (k', v) :: l' => if decide (k = k') then Some v else legacy_assoc k l'
  end.

(** ** Sample inputs *)

(** A case table that leaves every non-ASCII rune alone. *)
Definition no_case_table (r : Z) : Z := r.

(** A platform as the gc toolchain has it for a short body: the rune slice
    of a body of at most 32 codepoints sits in a 32-rune buffer. The case
    table and the table of Unicode spaces are not used by the samples. *)
Definition sample_platform : platform :=
  {| ToLower_table := no_case_table;
     TrimSpace_unicode := fun s => s;
     rune_spare := fun n => (32 - n)%nat |}.

(** ["\u0001ACTION waves\u0001"] *)
Definition action_waves : string := ACTION_marker +:+ " waves" +:+ SOH.

(** The source of the sample lines. *)
Definition sample_source : Part000.ircMessageSource :=
  {| Part000.Source_Username := "redflamingo13" |}.

(** The framed form of a PRIVMSG line of the test suite. *)
Definition sample_privmsg : Part000.ircMessage :=
  {| Part000.ircMessage_Raw := "@badges=subscriber/6,premium/1;emotes= :redflamingo13!redflamingo13@redflamingo13.tmi.twitch.tv PRIVMSG #pajlada :Thrashh5, FeelsWayTooAmazingMan kinda";
     Part000.ircMessage_Tags :=
       {[ "badges" := "subscriber/6,premium/1"; "emotes" := EmptyString ]};
     Part000.ircMessage_Source := sample_source;
     Part000.ircMessage_Command := "PRIVMSG";
     Part000.ircMessage_Params := ["#pajlada"; "Thrashh5, FeelsWayTooAmazingMan kinda"] |}.

(** A framed line with the given command, tags and parameters. *)
Definition framed (command : string) (tags : gmap string string)
    (params : list string) : Part000.ircMessage :=
  {| Part000.ircMessage_Raw := EmptyString;
     Part000.ircMessage_Tags := tags;
     Part000.ircMessage_Source := sample_source;
     Part000.ircMessage_Command := command;
     Part000.ircMessage_Params := params |}.

(** A [message] of [message.go] with the given tags and body. *)
Definition legacy_message (tags : gmap string string) (body : string)
  : MessageGo.message :=
  {| MessageGo.message_RawMessage :=
       {| MessageGo.RawMessage_Type := MessageGo.PRIVMSG;
          MessageGo.RawMessage_RawType := "PRIVMSG";
          MessageGo.RawMessage_Raw := EmptyString;
          MessageGo.RawMessage_Tags := tags;
          MessageGo.RawMessage_Message := body |};
     MessageGo.message_Channel := "pajlada";
     MessageGo.message_Username := "redflamingo13" |}.

(** Tags of a resub notice with its system message. *)
Definition sample_resub_tags : gmap string string :=
  {[ "system-msg" := "\sann\ssubscribed\sfor\s6\smonths!\n";
     "msg-param-sub-plan-name" := "Channel\sSubscription";
     "msg-param-months" := "6" ]}.

(** The groups of [25:0-4,6-10/1902:12-16]. *)
Definition sample_groups : list emote_group :=
  [ {| group_id := "25"; group_first := 0; group_last := 4;
       group_more := [(6, 10)%nat] |};
    {| group_id := "1902"; group_first := 12; group_last := 16;
       group_more := [] |} ].

(** Tags of a resub notice. *)
Definition sample_notice_tags : gmap string string :=
  {[ "msg-param-months" := "6";
     "msg-param-should-share-streak" := "1";
     "msg-param-sub-plan-name" := "Channel\sSubscription";
     "msg-id" := "resub" ]}.


(** ["\u0001ACTION Kappa\u0001"] *)
Definition action_kappa : string := ACTION_marker +:+ " Kappa" +:+ SOH.

(** The byte 0, which is what the spare capacity of a rune slice holds. *)
Definition NUL : string := String (ascii_of_nat 0) EmptyString.

(** The group of [25:8-12] and the group of [25:8-13]. *)
Definition kappa_group (last : nat) : emote_group :=
  {| group_id := "25"; group_first := 8; group_last := last; group_more := [] |}.

(** ** Tag maps *)

(** Keys hold neither [';'] nor ['=']; values hold no [';']. *)
Definition tags_clean (tags : gmap string string) : Prop :=
  forall k v, tags !! k = Some v ->
    occurs ";" k = false /\ occurs "=" k = false /\ occurs ";" v = false.

(** ** Commands by the way their decoders read the parameters *)

(** The commands whose decoders read the first parameter unguarded, and
    the ones whose decoders look at the number of parameters first. *)
Definition channel_commands : list string :=
  [ "WHISPER"; "PRIVMSG"; "CLEARCHAT"; "ROOMSTATE"; "USERNOTICE"; "USERSTATE";
    "NOTICE" ].

Definition guarded_commands : list string :=
  [ "JOIN"; "PART"; "RECONNECT"; "353"; "PING"; "PONG" ].

(** ** Fields every record of [part_000] has *)

(** The [Raw] and [RawType] fields of a decoded record. *)
Definition GetRaw (msg : Part000.Message) : string :=
  match msg with
  | Part000.MRaw m => Part000.RawMessage_Raw m
  | Part000.MWhisper m => Part000.WhisperMessage_Raw m
  | Part000.MPrivate m => Part000.PrivateMessage_Raw m
  | Part000.MClearChat m => Part000.ClearChatMessage_Raw m
  | Part000.MRoomState m => Part000.RoomStateMessage_Raw m
  | Part000.MUserNotice m => Part000.UserNoticeMessage_Raw m
  | Part000.MUserState m => Part000.UserStateMessage_Raw m
  | Part000.MNotice m => Part000.NoticeMessage_Raw m
  | Part000.MUserJoin m => Part000.UserJoinMessage_Raw m
  | Part000.MUserPart m => Part000.UserPartMessage_Raw m
  | Part000.MReconnect m => Part000.ReconnectMessage_Raw m
  | Part000.MNames m => Part000.NamesMessage_Raw m
  | Part000.MPing m => Part000.PingMessage_Raw m
  | Part000.MPong m => Part000.PongMessage_Raw m
  end.

Definition GetRawType (msg : Part000.Message) : string :=
  match msg with
  | Part000.MRaw m => Part000.RawMessage_RawType m
  | Part000.MWhisper m => Part000.WhisperMessage_RawType m
  | Part000.MPrivate m => Part000.PrivateMessage_RawType m
  | Part000.MClearChat m => Part000.ClearChatMessage_RawType m
  | Part000.MRoomState m => Part000.RoomStateMessage_RawType m
  | Part000.MUserNotice m => Part000.UserNoticeMessage_RawType m
  | Part000.MUserState m => Part000.UserStateMessage_RawType m
  | Part000.MNotice m => Part000.NoticeMessage_RawType m
  | Part000.MUserJoin m => Part000.UserJoinMessage_RawType m
  | Part000.MUserPart m => Part000.UserPartMessage_RawType m
  | Part000.MReconnect m => Part000.ReconnectMessage_RawType m
  | Part000.MNames m => Part000.NamesMessage_RawType m
  | Part000.MPing m => Part000.PingMessage_RawType m
  | Part000.MPong m => Part000.PongMessage_RawType m
  end.

(** A decoder copies the raw line and the command token into its record. *)
Definition raw_ok (parser : Part000.ircMessage -> result Part000.Message) : Prop :=
  forall m r, parser m = Ok r ->
    GetRaw r = Part000.ircMessage_Raw m
    /\ GetRawType r = Part000.ircMessage_Command m.

(** ** Records of [message.go] *)

(** The record [parseMessage] of [message.go] builds for a tagged line. *)
Definition tagged_record (line : string) (tags : gmap string string)
    (rawType channel username body : string) : MessageGo.message :=
  {| MessageGo.message_RawMessage :=
       {| MessageGo.RawMessage_Type := MessageGo.parseMessageType rawType;
          MessageGo.RawMessage_RawType := rawType;
          MessageGo.RawMessage_Raw := line;
          MessageGo.RawMessage_Tags := tags;
          MessageGo.RawMessage_Message := body |};
     MessageGo.message_Channel := channel;
     MessageGo.message_Username := username |}.

(** ** More sample inputs *)

(** The tags of [@slow=10;r9k=on;mod=1]. *)
Definition sample_room_tags : gmap string string :=
  {[ "slow" := "10"; "r9k" := "on"; "mod" := "1" ]}.

(** ** Sample emotes *)

(** The emotes of [25:0-4,6-10/1902:12-16] in ["Kappa Kappa Keepo"]. *)
Definition sample_emotes : list Part000.Emote :=
  [ {| Part000.Emote_Name := "Kappa"; Part000.Emote_ID := "25";
       Part000.Emote_Count := 2 |};
    {| Part000.Emote_Name := "Keepo"; Part000.Emote_ID := "1902";
       Part000.Emote_Count := 1 |} ].

(** The group of [25:0-5]. *)
Definition sample_legacy_groups : list emote_group :=
  [ {| group_id := "25"; group_first := 0; group_last := 5; group_more := [] |} ].

(** ** CLEARCHAT and USERSTATE of [message.go] *)

(** The body of a CLEARCHAT record of [message.go]. *)
Definition CLEARCHAT_text (c : MessageGo.CLEARCHATMessage) : string :=
  MessageGo.RawMessage_Message
    (MessageGo.chatMessage_RawMessage (MessageGo.CLEARCHATMessage_chatMessage c)).

(** A USERSTATE line carries no source user name. *)
Definition sample_userstate : MessageGo.message :=
  {| MessageGo.message_RawMessage :=
       MessageGo.message_RawMessage
         (legacy_message {[ "display-name" := "Red Flamingo 13" ]} EmptyString);
     MessageGo.message_Channel := "pajlada";
     MessageGo.message_Username := EmptyString |}.

(** The same line as [part_000] frames it, and the user it decodes to. *)
Definition sample_userstate_framed : Part000.ircMessage :=
  {| Part000.ircMessage_Raw := EmptyString;
     Part000.ircMessage_Tags := {[ "display-name" := "Red Flamingo 13" ]};
     Part000.ircMessage_Source := {| Part000.Source_Username := EmptyString |};
     Part000.ircMessage_Command := "USERSTATE";
     Part000.ircMessage_Params := ["#pajlada"] |}.

Definition sample_userstate_user : Part000.User :=
  {| Part000.User_ID := EmptyString;
     Part000.User_Name := "redflamingo 13";
     Part000.User_DisplayName := "Red Flamingo 13";
     Part000.User_Color := EmptyString;
     Part000.User_Badges := ∅ |}.

(** ** PRIVMSG of [message.go] *)

(** The channel of a PRIVMSG record of [message.go]. *)
Definition PRIVMSG_channel (r : MessageGo.PRIVMSGMessage) : string :=
  MessageGo.channelMessage_Channel
    (MessageGo.roomMessage_channelMessage
       (MessageGo.chatMessage_roomMessage (MessageGo.PRIVMSGMessage_chatMessage r))).

(** The tags of [@badges=subscriber/6,premium/1;emotes=;bits=100]. *)
Definition sample_chat_tags : gmap string string :=
  {[ "badges" := "subscriber/6,premium/1"; "emotes" := EmptyString;
     "bits" := "100" ]}.

(** * The embedding on sample inputs *)

Example decode_ex1 : utf8.decode "Kappa" = [75; 97; 112; 112; 97].
Proof. reflexivity. Qed.

Example encode_decode_ex1 :
  utf8.decode (utf8.encode [233; 8364; 128512; 65]) = [233; 8364; 128512; 65].
Proof. reflexivity. Qed.

Example SplitN_ex1 :
  strings.SplitN "@a=b :tmi.twitch.tv PING :x :y" " :" 3
  = ["@a=b"; "tmi.twitch.tv PING"; "x :y"].
Proof. reflexivity. Qed.

Example Split_ex1 : strings.Split "a,,b" "," = ["a"; EmptyString; "b"].
Proof. reflexivity. Qed.

Example Split_ex2 : strings.Split EmptyString ";" = [EmptyString].
Proof. reflexivity. Qed.

Example ReplaceAll_ex1 : strings.ReplaceAll "a\sb\s" "\s" " " = "a b ".
Proof. reflexivity. Qed.

Example ToLower_ex1 : strings.ToLower (fun r => r) "Redflamingo13" = "redflamingo13".
Proof. reflexivity. Qed.

Example TrimSpace_ex1 : strings.TrimSpace (fun s => s) "  5 raiders " = "5 raiders".
Proof. reflexivity. Qed.

Example Trim_ex1 : strings.Trim " :ab : " " :" = "ab".
Proof. reflexivity. Qed.

Example Count_ex1 : strings.Count "0-4,6-10,12-16" "," = 2%nat.
Proof. reflexivity. Qed.

Example Atoi_ex1 : strconv.Atoi "1490382457309" = (1490382457309, false).
Proof. reflexivity. Qed.
Example Atoi_ex2 : strconv.Atoi "6a" = (0, true).
Proof. reflexivity. Qed.
Example Atoi_ex3 : strconv.Atoi "-12" = (-12, false).
Proof. reflexivity. Qed.
Example Atoi_ex4 : strconv.Atoi "99999999999999999999" = (int_max, true).
Proof. reflexivity. Qed.

Example MessageGo_parseMessage_ex1 :
  (let* m := MessageGo.parseMessage "@slow=10 :tmi.twitch.tv ROOMSTATE #gempir" in
   Ok (MessageGo.RawMessage_Type (MessageGo.message_RawMessage m),
       MessageGo.message_Channel m,
       MessageGo.Tags_of m !! "slow"))
  = Ok (MessageGo.ROOMSTATE, "gempir", Some "10").
Proof. vm_compute. reflexivity. Qed.

Example parseMessage_bare_tags_ex : MessageGo.parseMessage "@foo" = Panic IndexOutOfRange.
Proof. vm_compute. reflexivity. Qed.

Example parseBadges_bare_name_ex : Part000.parseBadges "subscriber" = Panic IndexOutOfRange.
Proof. vm_compute. reflexivity. Qed.

Example parseTags_escape_ex : MessageGo.parseTags "@foo=a\sb" = Ok {[ "foo" := "a\sb" ]}.
Proof. vm_compute. reflexivity. Qed.

Example parseEmotes_short_body_ex : Part000.parseEmotes sample_platform "25:100-104" "Kappa" = Panic SliceOutOfRange.
Proof. vm_compute. reflexivity. Qed.

Example parseNames_short_ex : MessageGo.parseNames ":tmi.twitch.tv 353 justinfan = #chan" = Panic IndexOutOfRange.
Proof. vm_compute. reflexivity. Qed.

Example parseNames_ex : MessageGo.parseNames ":justinfan.tmi.twitch.tv 353 justinfan = #chan :ann bob"
  = Ok ("chan", ["ann"; "bob"]).
Proof. vm_compute. reflexivity. Qed.

Example decodable_ex : decodable sample_platform sample_privmsg = true.
Proof. vm_compute. reflexivity. Qed.

Example parseEmotes_ex : Part000.parseEmotes sample_platform "25:0-4,6-10/1902:12-16" "Kappa Kappa Keepo"
  = Ok [ {| Part000.Emote_Name := "Kappa"; Part000.Emote_ID := "25"; Part000.Emote_Count := 2 |};
         {| Part000.Emote_Name := "Keepo"; Part000.Emote_ID := "1902"; Part000.Emote_Count := 1 |} ].
Proof. vm_compute. reflexivity. Qed.

Example privmsg_line_ex :
  (let* m := MessageGo.parseMessage "@badges=subscriber/6,premium/1;color=#FF0000;display-name=Redflamingo13;emotes=;id=2a31a9df-d6ff-4840-b211-a2547c7e656e;mod=0;room-id=11148817;subscriber=1;tmi-sent-ts=1490382457309;turbo=0;user-id=78424343;user-type= :redflamingo13!redflamingo13@redflamingo13.tmi.twitch.tv PRIVMSG #pajlada :Thrashh5, FeelsWayTooAmazingMan kinda" in
   let* ' (u, p) := MessageGo.parsePRIVMSGMessage sample_platform m in
   Ok (MessageGo.RawMessage_Type (MessageGo.message_RawMessage m),
       MessageGo.message_Channel m, MessageGo.User_Name u,
       MessageGo.User_Badges u, PRIVMSG_text p))
  = Ok (MessageGo.PRIVMSG, "pajlada", "redflamingo13",
        {[ "subscriber" := 6; "premium" := 1 ]},
        "Thrashh5, FeelsWayTooAmazingMan kinda").
Proof. vm_compute. reflexivity. Qed.

Example tagged_ping_ex :
  (let* m := MessageGo.parseMessage "@x=1 :tmi.twitch.tv PING" in
   Ok (MessageGo.RawMessage_RawType (MessageGo.message_RawMessage m),
       MessageGo.RawMessage_Type (MessageGo.message_RawMessage m)))
  = Ok ("PING", MessageGo.UNSET).
Proof. vm_compute. reflexivity. Qed.

Example empty_action_ex :
  Part000.parsePrivateMessage sample_platform (Part000.parseMessageType sample_platform)
    (framed "PRIVMSG" ∅ ["#c"; ACTION_marker +:+ SOH]) = Panic SliceOutOfRange.
Proof. vm_compute. reflexivity. Qed.

(** * Lemmas *)

(** ** Byte strings: what [Split], [SplitN] and [Count] do to what [Join] glued; decimal numerals *)

Lemma app_cons c s t : String c s +:+ t = String c (s +:+ t).
Proof. reflexivity. Qed.

Lemma app_empty_l s : EmptyString +:+ s = s.
Proof. reflexivity. Qed.

Lemma app_empty_r s : s +:+ EmptyString = s.
Proof. induction s as [|c s IH]; [done|]. by rewrite app_cons, IH. Qed.

Lemma app_assoc' s t u : (s +:+ t) +:+ u = s +:+ t +:+ u.
Proof. induction s as [|c s IH]; [done|]. by rewrite !app_cons, IH. Qed.

Lemma len_app s t : len (s +:+ t) = (len s + len t)%nat.
Proof. induction s as [|c s IH]; [done|]. rewrite app_cons. simpl. by rewrite IH. Qed.

Lemma take_bytes_app s t : take_bytes (len s) (s +:+ t) = s.
Proof. induction s as [|c s IH]; simpl.
  - by destruct t.
  - by rewrite IH.
Qed.

Lemma drop_bytes_app s t n : drop_bytes (len s + n) (s +:+ t) = drop_bytes n t.
Proof. induction s as [|c s IH]; [done|]. rewrite app_cons. simpl. apply IH. Qed.

Lemma drop_bytes_0 s : drop_bytes 0 s = s.
Proof. by destruct s. Qed.

Lemma HasPrefix_byte c d s :
  strings.HasPrefix (String d s) (sep1 c) = bool_decide (d = c).
Proof. simpl. case_bool_decide; case_decide; by destruct s. Qed.

Lemma Index_byte_absent c s :
  occurs c s = false -> strings.Index s (sep1 c) = None.
Proof.
  induction s as [|d s IH]; intros H; [done|].
  simpl in H. apply orb_false_elim in H as [Hd Hs].
  cbn [strings.Index]. rewrite HasPrefix_byte, Hd. simpl.
  by rewrite IH.
Qed.

Lemma Index_byte_app c a b :
  occurs c a = false ->
  strings.Index (a +:+ String c b) (sep1 c) = Some (len a).
Proof.
  induction a as [|d a IH]; intros H.
  - rewrite app_empty_l. cbn [strings.Index]. rewrite HasPrefix_byte.
    by rewrite bool_decide_true.
  - simpl in H. apply orb_false_elim in H as [Hd Hs].
    rewrite app_cons. cbn [strings.Index]. rewrite HasPrefix_byte, Hd.
    rewrite IH by done. done.
Qed.

Lemma occurs_app c s t : occurs c (s +:+ t) = occurs c s || occurs c t.
Proof. induction s as [|d s IH]; [done|]. rewrite app_cons. simpl. rewrite IH. by rewrite orb_assoc. Qed.

Lemma Index_sep1 c a b :
  occurs c a = false ->
  strings.Index (a +:+ sep1 c +:+ b) (sep1 c) = Some (len a).
Proof. apply Index_byte_app. Qed.

Lemma drop_sep1 c a b :
  drop_bytes (len a + len (sep1 c)) (a +:+ sep1 c +:+ b) = b.
Proof. rewrite drop_bytes_app. done. Qed.

Lemma SplitN_SS s sep n :
  strings.SplitN s sep (S (S n)) =
  match strings.Index s sep with
  | None => [s]
  | Some m => take_bytes m s :: strings.SplitN (drop_bytes (m + len sep) s) sep (S n)
  end.
Proof. reflexivity. Qed.

Lemma Join_cons2 p q parts sep :
  strings.Join (p :: q :: parts) sep = p +:+ sep +:+ strings.Join (q :: parts) sep.
Proof. reflexivity. Qed.

(** Splitting what [Join] glued. *)
Lemma SplitN_Join c parts n :
  parts <> [] ->
  Forall (fun p => occurs c p = false) parts ->
  (length parts <= n)%nat ->
  strings.SplitN (strings.Join parts (sep1 c)) (sep1 c) n = parts.
Proof.
  revert n. induction parts as [|p parts IH]; intros n Hne Hall Hn; [done|].
  inversion Hall as [|? ? Hp Hrest]; subst.
  destruct parts as [|q parts].
  - simpl. destruct n as [|[|n]]; simpl in *; [lia|done|].
    by rewrite Index_byte_absent.
  - destruct n as [|[|n]]; simpl in Hn; [lia|lia|].
    rewrite Join_cons2, SplitN_SS, Index_sep1 by done.
    rewrite take_bytes_app, drop_sep1.
    f_equal. apply IH; [done|done|simpl; lia].
Qed.

Lemma len_Join_ge c parts : (length parts <= S (len (strings.Join parts (sep1 c))))%nat.
Proof.
  induction parts as [|p [|q parts] IH]; [simpl; lia|simpl; lia|].
  rewrite Join_cons2, !len_app. simpl in *. lia.
Qed.

Lemma Split_Join c parts :
  parts <> [] ->
  Forall (fun p => occurs c p = false) parts ->
  strings.Split (strings.Join parts (sep1 c)) (sep1 c) = parts.
Proof.
  intros. unfold strings.Split. apply SplitN_Join; [done|done|apply len_Join_ge].
Qed.

(** [SplitN] with [n = 2]: at the first separator only. *)
Lemma SplitN2_sep c a b :
  occurs c a = false ->
  strings.SplitN (a +:+ sep1 c +:+ b) (sep1 c) 2 = [a; b].
Proof.
  intros. by rewrite SplitN_SS, Index_sep1, take_bytes_app, drop_sep1.
Qed.

Lemma SplitN2_none c a :
  occurs c a = false -> strings.SplitN a (sep1 c) 2 = [a].
Proof. intros. by rewrite SplitN_SS, Index_byte_absent. Qed.

Lemma count_upto_Join c parts fuel :
  Forall (fun p => occurs c p = false) parts ->
  (length parts - 1 <= fuel)%nat ->
  strings.count_upto fuel (strings.Join parts (sep1 c)) (sep1 c)
  = (length parts - 1)%nat.
Proof.
  revert fuel. induction parts as [|p parts IH]; intros fuel Hall Hf.
  - destruct fuel; done.
  - inversion Hall as [|? ? Hp Hrest]; subst.
    destruct parts as [|q parts].
    + destruct fuel; [done|]. simpl. by rewrite Index_byte_absent.
    + destruct fuel as [|fuel]; [simpl in Hf; lia|].
      rewrite Join_cons2. cbn [strings.count_upto].
      rewrite Index_sep1, drop_sep1 by done.
      rewrite IH; [simpl; lia|done|simpl in *; lia].
Qed.

Lemma Count_Join c parts :
  Forall (fun p => occurs c p = false) parts ->
  strings.Count (strings.Join parts (sep1 c)) (sep1 c) = (length parts - 1)%nat.
Proof.
  intros. apply count_upto_Join; [done|].
  pose proof (len_Join_ge c parts). lia.
Qed.

Lemma digit_digit_char d :
  (d < 10)%nat -> strconv.digit (digit_char d) = Some (Z.of_nat d).
Proof.
  intros H. do 10 (destruct d as [|d]; [reflexivity|]). lia.
Qed.

Lemma decimal_fuel_S fuel n acc :
  decimal_fuel (S fuel) n acc =
  if (n <? 10)%nat then String (digit_char (n mod 10)) acc
  else decimal_fuel fuel (n / 10) (String (digit_char (n mod 10)) acc).
Proof. reflexivity. Qed.

Lemma decimal_fuel_acc fuel n acc :
  decimal_fuel fuel n acc = decimal_fuel fuel n EmptyString +:+ acc.
Proof.
  revert n acc. induction fuel as [|fuel IH]; intros n acc; [done|].
  rewrite !decimal_fuel_S. destruct (n <? 10)%nat; [done|].
  rewrite IH. rewrite (IH _ (String _ EmptyString)).
  by rewrite app_assoc'.
Qed.

Lemma digits_app acc s t :
  strconv.digits acc (s +:+ t) =
  match strconv.digits acc s with
  | Some a => strconv.digits a t
  | None => None
  end.
Proof.
  revert acc. induction s as [|c s IH]; intros acc; [done|].
  simpl. destruct (strconv.digit c); [apply IH|done].
Qed.

Lemma digits_only_app s t : digits_only (s +:+ t) = digits_only s && digits_only t.
Proof. induction s as [|c s IH]; [done|]. simpl. rewrite IH. by rewrite andb_assoc. Qed.

Lemma digits_only_digit_char d :
  (d < 10)%nat -> digits_only (String (digit_char d) EmptyString) = true.
Proof.
  intros. cbn [digits_only]. rewrite digit_digit_char by done.
  rewrite bool_decide_true; [done|by eexists].
Qed.

Lemma digits_digit_char acc d :
  (d < 10)%nat ->
  strconv.digits acc (String (digit_char d) EmptyString) = Some (acc * 10 + Z.of_nat d).
Proof. intros. cbn [strconv.digits]. by rewrite digit_digit_char. Qed.

Lemma decimal_fuel_spec fuel n :
  (n < fuel)%nat ->
  strconv.digits 0 (decimal_fuel fuel n EmptyString) = Some (Z.of_nat n)
  /\ digits_only (decimal_fuel fuel n EmptyString) = true
  /\ decimal_fuel fuel n EmptyString <> EmptyString.
Proof.
  revert n. induction fuel as [|fuel IH]; intros n Hn; [lia|].
  rewrite decimal_fuel_S. pose proof (Nat.mod_upper_bound n 10 ltac:(lia)) as Hmod.
  destruct (n <? 10)%nat eqn:Hlt.
  - apply Nat.ltb_lt in Hlt. rewrite Nat.mod_small by done.
    rewrite digits_digit_char, digits_only_digit_char by done.
    split; [f_equal; lia|]. split; done.
  - apply Nat.ltb_ge in Hlt.
    assert (n / 10 < fuel)%nat as Hdiv.
    { pose proof (Nat.div_lt n 10 ltac:(lia) ltac:(lia)). lia. }
    destruct (IH _ Hdiv) as (Hd & Ho & Hne).
    rewrite decimal_fuel_acc. split; [|split].
    + rewrite digits_app, Hd, digits_digit_char by done.
      f_equal. pose proof (Nat.div_mod_eq n 10). lia.
    + by rewrite digits_only_app, Ho, digits_only_digit_char.
    + destruct (decimal_fuel fuel (n / 10) EmptyString); done.
Qed.

Lemma digits_only_occurs c s :
  digits_only s = true -> strconv.digit c = None -> occurs c s = false.
Proof.
  intros Hs Hc. induction s as [|d s IH]; [done|].
  simpl in *. apply andb_true_iff in Hs as [Hd Hs].
  rewrite IH by done. rewrite orb_false_r.
  apply bool_decide_eq_false. intros ->. apply bool_decide_eq_true in Hd.
  rewrite Hc in Hd. by destruct Hd.
Qed.

Lemma ParseInt_digits s n :
  s <> EmptyString -> digits_only s = true ->
  strconv.digits 0 s = Some n -> n < 2 ^ 63 ->
  strconv.ParseInt s = (n, false).
Proof.
  intros Hne Hd Hs Hn. destruct s as [|c s]; [done|].
  unfold strconv.ParseInt.
  simpl in Hd. apply andb_true_iff in Hd as [Hc _].
  apply bool_decide_eq_true in Hc as [d Hc].
  assert (c <> "-"%char) as Hm by (intros ->; done).
  assert (c <> "+"%char) as Hp by (intros ->; done).
  rewrite (bool_decide_false (c = "-"%char)) by done.
  rewrite bool_decide_false by (intros [?|?]; done).
  rewrite Hs. destruct (2 ^ 63 <=? n) eqn:E; [lia|done].
Qed.

Lemma Atoi_decimal n :
  Z.of_nat n < 2 ^ 63 -> strconv.Atoi (decimal n) = (Z.of_nat n, false).
Proof.
  intros Hn. destruct (decimal_fuel_spec (S n) n ltac:(lia)) as (Hd & Ho & Hne).
  by apply ParseInt_digits.
Qed.

Lemma decimal_occurs c n :
  strconv.digit c = None -> occurs c (decimal n) = false.
Proof.
  intros. destruct (decimal_fuel_spec (S n) n ltac:(lia)) as (Hd & Ho & Hne).
  by apply digits_only_occurs.
Qed.

(** ** Emote groups, [part_000] *)

Lemma wrap_int_small z : - 2 ^ 63 <= z < 2 ^ 63 -> wrap_int z = z.
Proof. intros. unfold wrap_int. rewrite Z.mod_small; lia. Qed.

Lemma occurs_Join c d parts :
  c <> d ->
  Forall (fun p => occurs c p = false) parts ->
  occurs c (strings.Join parts (sep1 d)) = false.
Proof.
  intros Hcd. induction parts as [|p [|q parts] IH]; intros Hall; [done|..].
  - by inversion Hall.
  - inversion Hall as [|? ? Hp Hrest]; subst.
    rewrite Join_cons2, !occurs_app, Hp, IH by done.
    simpl. rewrite bool_decide_false; [done|congruence].
Qed.

Lemma occurs_render_range c r :
  strconv.digit c = None -> c <> "-"%char -> occurs c (render_range r) = false.
Proof.
  intros Hc Hm. unfold render_range.
  rewrite !occurs_app, !decimal_occurs by done. simpl.
  rewrite bool_decide_false; [done|congruence].
Qed.

Lemma occurs_render_ranges c rs :
  strconv.digit c = None -> c <> "-"%char -> c <> ","%char ->
  occurs c (strings.Join (render_range <$> rs) ",") = false.
Proof.
  intros. apply occurs_Join; [done|].
  apply Forall_forall. intros p [r [-> _]]%list_elem_of_fmap.
  by apply occurs_render_range.
Qed.

Lemma index_0 {A} (x : A) xs : index (x :: xs) 0 = Ok x.
Proof. reflexivity. Qed.
Lemma index_1 {A} (x y : A) xs : index (x :: y :: xs) 1 = Ok y.
Proof. reflexivity. Qed.

Lemma SplitN2_range r :
  strings.SplitN (render_range r) "-" 2 = [decimal r.1; decimal r.2].
Proof. unfold render_range. by rewrite SplitN2_sep by (by apply decimal_occurs). Qed.

Lemma SplitN2_ranges r rs :
  index (strings.SplitN (strings.Join (render_range <$> r :: rs) ",") "," 2) 0
  = Ok (render_range r).
Proof.
  destruct rs as [|r' rs].
  - change (strings.Join (render_range <$> [r]) ",") with (render_range r).
    by rewrite SplitN2_none by (by apply occurs_render_range).
  - rewrite !fmap_cons, Join_cons2.
    by rewrite SplitN2_sep by (by apply occurs_render_range).
Qed.

(** A slice expression that stays inside the length reads the elements
    only, whatever the capacity. *)
Lemma slice_list_ok {A} (s : slice A) (lo hi : nat) :
  (lo <= hi <= length (slice_elems s))%nat ->
  slice_list s (Z.of_nat lo) (Z.of_nat hi)
  = Ok (take (hi - lo) (drop lo (slice_elems s))).
Proof.
  intros H. unfold slice_list, slice_cap.
  replace ((0 <=? Z.of_nat lo) && (Z.of_nat lo <=? Z.of_nat hi)
           && (Z.of_nat hi <=? Z.of_nat (length (slice_elems s) + length (slice_spare s))))
    with true.
  - f_equal. rewrite drop_app_le by lia.
    replace (Z.to_nat (Z.of_nat hi - Z.of_nat lo)) with (hi - lo)%nat by lia.
    replace (Z.to_nat (Z.of_nat lo)) with lo by lia.
    apply take_app_le. rewrite length_drop. lia.
  - symmetry. rewrite !andb_true_iff. repeat split; apply Z.leb_le; lia.
Qed.

(** One group, for a decoder that cuts runes [first, last + extra). *)
Section Step.
Variable runes : slice Z.
Variable g : emote_group.
Hypothesis Hid : group_id_ok g.

Lemma Part000_step :
  (group_first g <= S (group_last g) <= length (slice_elems runes))%nat ->
  Z.of_nat (group_last g) + 1 < 2 ^ 63 ->
  Part000.parseEmotes_step runes (render_group g) =
  Ok {| Part000.Emote_Name :=
          utf8.encode (take (S (group_last g) - group_first g)
                            (drop (group_first g) (slice_elems runes)));
        Part000.Emote_ID := group_id g;
        Part000.Emote_Count := 1 + Z.of_nat (length (group_more g)) |}.
Proof.
  intros Hr Hb. destruct Hid as [_ Hcolon].
  unfold Part000.parseEmotes_step, render_group. cbv zeta.
  rewrite SplitN2_sep by done.
  rewrite index_1. cbn [bind].
  unfold group_ranges. rewrite SplitN2_ranges. cbn [bind].
  rewrite SplitN2_range, index_0, index_1. cbn [bind fst snd].
  rewrite !Atoi_decimal by lia. cbn [fst].
  rewrite wrap_int_small by lia.
  replace (Z.of_nat (group_last g) + 1) with (Z.of_nat (S (group_last g))) by lia.
  rewrite slice_list_ok by done. cbn [bind]. rewrite index_0. cbn [bind].
  rewrite Count_Join.
  2:{ apply Forall_forall. intros p [r [-> _]]%list_elem_of_fmap.
      by apply occurs_render_range. }
  do 2 f_equal. rewrite length_fmap. simpl. lia.
Qed.
End Step.

Section StepGo.
Variable runes : slice Z.
Variable g : emote_group.
Hypothesis Hid : group_id_ok g.

Lemma MessageGo_step :
  (group_first g <= group_last g <= length (slice_elems runes))%nat ->
  Z.of_nat (group_last g) < 2 ^ 63 ->
  MessageGo.parseEmotes_step runes (render_group g) =
  Ok {| MessageGo.Emote_Name :=
          utf8.encode (take (group_last g - group_first g)
                            (drop (group_first g) (slice_elems runes)));
        MessageGo.Emote_ID := group_id g;
        MessageGo.Emote_Count := 1 + Z.of_nat (length (group_more g)) |}.
Proof.
  intros Hr Hb. destruct Hid as [_ Hcolon].
  unfold MessageGo.parseEmotes_step, render_group. cbv zeta.
  rewrite SplitN2_sep by done. rewrite index_1. cbn [bind].
  unfold group_ranges. rewrite SplitN2_ranges. cbn [bind].
  rewrite SplitN2_range, index_0, index_1. cbn [bind fst snd].
  rewrite !Atoi_decimal by lia. cbn [fst].
  rewrite slice_list_ok by done. cbn [bind]. rewrite index_0. cbn [bind].
  rewrite Count_Join.
  2:{ apply Forall_forall. intros p [r [-> _]]%list_elem_of_fmap.
      by apply occurs_render_range. }
  do 2 f_equal. rewrite length_fmap. simpl. lia.
Qed.
End StepGo.

Lemma for_each_fmap {A B C} (f : A -> result B) (r : C -> A) (e : C -> B) xs :
  Forall (fun x => f (r x) = Ok (e x)) xs ->
  for_each f (r <$> xs) = Ok (e <$> xs).
Proof.
  induction 1 as [|x xs Hx _ IH]; [done|].
  rewrite !fmap_cons. cbn [for_each]. by rewrite Hx, IH.
Qed.

Lemma length_decode_le s : (length (utf8.decode s) <= len s)%nat.
Proof.
  assert (forall n s, (len s <= n)%nat -> (length (utf8.decode s) <= len s)%nat) as H;
    [|by apply (H (len s))].
  induction n as [|n IH]; intros [|c0 s1] Hs; simpl in Hs; [done|lia|done|].
  cbn [utf8.decode]. unfold len in *.
  repeat case_match; subst; cbn [length String.length] in *;
    repeat match goal with
    | |- context [utf8.decode ?t] =>
        lazymatch goal with
        | _ : (length (utf8.decode t) <= _)%nat |- _ => fail
        | _ => pose proof (IH t ltac:(cbn [String.length]; lia))
        end
    end; cbn [String.length] in *; lia.
Qed.

Lemma occurs_render_group g :
  group_id_ok g -> occurs "/" (render_group g) = false.
Proof.
  intros [Hs _]. unfold render_group.
  rewrite !occurs_app, Hs, occurs_render_ranges by done. done.
Qed.

Lemma render_group_nonempty g : render_group g <> EmptyString.
Proof. unfold render_group. destruct (group_id g); done. Qed.

Lemma Join_nonempty p parts sep :
  p <> EmptyString -> strings.Join (p :: parts) sep <> EmptyString.
Proof. destruct parts; [done|]. rewrite Join_cons2. destruct p; done. Qed.

Lemma Part000_parseEmotes_groups pf body gs :
  Z.of_nat (len body) < 2 ^ 63 ->
  Forall (fun g => group_id_ok g /\
            (group_first g <= S (group_last g) <= length (utf8.decode body))%nat) gs ->
  Part000.parseEmotes pf (render_emotes gs) body = Ok (Part000_emote body <$> gs).
Proof.
  intros Hlen Hgs. unfold Part000.parseEmotes, render_emotes.
  destruct gs as [|g gs]; [done|].
  rewrite decide_False by (apply Join_nonempty, render_group_nonempty).
  cbv zeta. rewrite Split_Join.
  - apply for_each_fmap. eapply Forall_impl; [exact Hgs|].
    intros g' [Hid Hr]. cbv beta in *.
    apply (Part000_step (to_runes pf body)); [done|done|].
    pose proof (length_decode_le body). lia.
  - done.
  - apply Forall_forall. intros p [g' [-> Hin]]%list_elem_of_fmap.
    apply occurs_render_group. rewrite Forall_forall in Hgs. by apply Hgs.
Qed.

(** ** The dispatch table *)

Lemma parseMessageType_table pf cmd :
  Part000.parseMessageType pf cmd = dispatch_kind cmd.
Proof.
  unfold Part000.parseMessageType, Part000.messageTypeMap, dispatch_kind, dispatch_table.
  cbn [list_to_map foldr assoc fst snd uncurry].
  repeat (rewrite lookup_insert; case_decide;
          [subst; reflexivity|rewrite (decide_False (P := cmd = _)) by congruence]).
  by rewrite lookup_empty.
Qed.

(** The entry of the table of [init] for a command, column by column. *)
Lemma messageTypeMap_Type pf cmd :
  Part000.Type_ <$> (Part000.messageTypeMap pf !! cmd) = assoc cmd dispatch_table.
Proof.
  unfold Part000.messageTypeMap, dispatch_table.
  cbn [list_to_map foldr assoc fst snd uncurry].
  repeat (rewrite lookup_insert; case_decide;
          [subst; reflexivity|rewrite (decide_False (P := cmd = _)) by congruence]).
  by rewrite lookup_empty.
Qed.

Ltac binds :=
  repeat match goal with
  | H : bind ?r _ = Ok _ |- _ =>
      let E := fresh "E" in destruct r eqn:E; cbn [bind] in H; [|discriminate H]
  | H : Ok _ = Ok _ |- _ => injection H as H; subst
  | H : (if ?b then _ else _) = Ok _ |- _ => destruct b eqn:?
  | H : match ?x with _ => _ end = Ok _ |- _ => destruct x eqn:?
  end.

Section Kinds.
Variable pf : platform.
Variable pmt : string -> Part000.MessageType.

Lemma parseWhisperMessage_kind : kind_ok pmt (Part000.parseWhisperMessage pf pmt).
Proof. intros m r H. unfold Part000.parseWhisperMessage in H. binds. done. Qed.
Lemma parsePrivateMessage_kind : kind_ok pmt (Part000.parsePrivateMessage pf pmt).
Proof. intros m r H. unfold Part000.parsePrivateMessage in H. cbv zeta in H. binds; done. Qed.
Lemma parseClearChatMessage_kind : kind_ok pmt (Part000.parseClearChatMessage pmt).
Proof. intros m r H. unfold Part000.parseClearChatMessage in H. binds; done. Qed.
Lemma parseRoomStateMessage_kind : kind_ok pmt (Part000.parseRoomStateMessage pmt).
Proof. intros m r H. unfold Part000.parseRoomStateMessage in H. binds; done. Qed.
Lemma parseUserNoticeMessage_kind : kind_ok pmt (Part000.parseUserNoticeMessage pf pmt).
Proof. intros m r H. unfold Part000.parseUserNoticeMessage in H. binds; done. Qed.
Lemma parseUserStateMessage_kind : kind_ok pmt (Part000.parseUserStateMessage pf pmt).
Proof. intros m r H. unfold Part000.parseUserStateMessage in H. binds; done. Qed.
Lemma parseNoticeMessage_kind : kind_ok pmt (Part000.parseNoticeMessage pmt).
Proof. intros m r H. unfold Part000.parseNoticeMessage in H. binds; done. Qed.
Lemma parseUserJoinMessage_kind : kind_ok pmt (Part000.parseUserJoinMessage pmt).
Proof. intros m r H. unfold Part000.parseUserJoinMessage in H. binds; done. Qed.
Lemma parseUserPartMessage_kind : kind_ok pmt (Part000.parseUserPartMessage pmt).
Proof. intros m r H. unfold Part000.parseUserPartMessage in H. binds; done. Qed.
Lemma parseReconnectMessage_kind : kind_ok pmt (Part000.parseReconnectMessage pmt).
Proof. intros m r H. unfold Part000.parseReconnectMessage in H. binds; done. Qed.
Lemma parseNamesMessage_kind : kind_ok pmt (Part000.parseNamesMessage pmt).
Proof. intros m r H. unfold Part000.parseNamesMessage in H. cbv zeta in H.
  repeat case_match; binds; done. Qed.
Lemma parsePingMessage_kind : kind_ok pmt (Part000.parsePingMessage pmt).
Proof. intros m r H. unfold Part000.parsePingMessage in H. binds; done. Qed.
Lemma parsePongMessage_kind : kind_ok pmt (Part000.parsePongMessage pmt).
Proof. intros m r H. unfold Part000.parsePongMessage in H. binds; done. Qed.
End Kinds.

Lemma SplitN_S_nonempty s sep n : exists x xs, strings.SplitN s sep (S n) = x :: xs.
Proof.
  destruct n as [|n]; [by eexists _, _|].
  rewrite SplitN_SS. destruct (strings.Index s sep); by eexists _, _.
Qed.

Lemma index_Split_0 s sep : exists x, index (strings.Split s sep) 0 = Ok x.
Proof.
  unfold strings.Split. destruct (SplitN_S_nonempty s sep (len s)) as (x & xs & ->).
  by exists x.
Qed.

Lemma slice_string_ok s (lo hi : Z) :
  0 <= lo <= hi -> hi <= Z.of_nat (len s) ->
  slice_string s lo hi
  = Ok (take_bytes (Z.to_nat (hi - lo)) (drop_bytes (Z.to_nat lo) s)).
Proof.
  intros. unfold slice_string.
  rewrite (proj2 (Z.leb_le 0 lo)), (proj2 (Z.leb_le lo hi)),
    (proj2 (Z.leb_le hi _)) by lia. done.
Qed.

Section Returns.
Variable pf : platform.
Variable pmt : string -> Part000.MessageType.
Variable m : Part000.ircMessage.
Hypothesis Hm : decodable pf m = true.

Lemma decodable_inv :
  exists p0 user emotes,
    index (Part000.ircMessage_Params m) 0 = Ok p0
    /\ Part000.parseUser pf m = Ok user
    /\ Part000.parseEmotes pf (tag (Part000.ircMessage_Tags m) "emotes")
         (Part000.second_of_two (Part000.ircMessage_Params m)) = Ok emotes
    /\ (Part000.is_action (Part000.second_of_two (Part000.ircMessage_Params m)) = true ->
        9 <= Z.of_nat (len (Part000.second_of_two (Part000.ircMessage_Params m)))).
Proof.
  unfold decodable in Hm. cbv zeta in Hm.
  apply andb_true_iff in Hm as [[[H1 H2]%andb_true_iff H3]%andb_true_iff H4].
  apply negb_true_iff, bool_decide_eq_false in H1.
  destruct (Part000.ircMessage_Params m) as [|p0 ps] eqn:Hp; [done|].
  destruct (Part000.parseUser pf m) as [user|] eqn:Hu; [|done].
  destruct (Part000.parseEmotes _ _ _) as [emotes|] eqn:He; [|done].
  exists p0, user, emotes. repeat split; try done.
  intros Ha. rewrite Ha in H4. simpl in H4. by apply Z.leb_le.
Qed.

Ltac use_inv :=
  destruct decodable_inv as (p0 & user & emotes & Hp & Hu & He & Ha).

Lemma parseWhisperMessage_returns : exists r, Part000.parseWhisperMessage pf pmt m = Ok r.
Proof.
  use_inv. unfold Part000.parseWhisperMessage. cbv zeta.
  rewrite Hu. cbn [bind]. rewrite He, Hp. by eexists.
Qed.

Lemma parsePrivateMessage_returns : exists r, Part000.parsePrivateMessage pf pmt m = Ok r.
Proof.
  use_inv. unfold Part000.parsePrivateMessage. cbv zeta.
  rewrite Hu. cbn [bind]. rewrite He, Hp. cbn [bind].
  destruct (Part000.is_action _) eqn:Hact.
  - rewrite slice_string_ok by (specialize (Ha eq_refl); lia). by eexists.
  - by eexists.
Qed.

Lemma parseUserNoticeMessage_returns :
  exists r, Part000.parseUserNoticeMessage pf pmt m = Ok r.
Proof.
  use_inv. unfold Part000.parseUserNoticeMessage. cbv zeta.
  rewrite Hu. cbn [bind]. rewrite He, Hp. by eexists.
Qed.

Lemma parseUserStateMessage_returns :
  exists r, Part000.parseUserStateMessage pf pmt m = Ok r.
Proof.
  use_inv. unfold Part000.parseUserStateMessage. cbv zeta.
  rewrite Hu. cbn [bind]. rewrite Hp. by eexists.
Qed.

Lemma parseClearChatMessage_returns :
  exists r, Part000.parseClearChatMessage pmt m = Ok r.
Proof. use_inv. unfold Part000.parseClearChatMessage. cbv zeta. rewrite Hp. by eexists. Qed.

Lemma parseRoomStateMessage_returns :
  exists r, Part000.parseRoomStateMessage pmt m = Ok r.
Proof. use_inv. unfold Part000.parseRoomStateMessage. cbv zeta. rewrite Hp. by eexists. Qed.

Lemma parseNoticeMessage_returns : exists r, Part000.parseNoticeMessage pmt m = Ok r.
Proof. use_inv. unfold Part000.parseNoticeMessage. cbv zeta. rewrite Hp. by eexists. Qed.
End Returns.

Section Total.
Variable pmt : string -> Part000.MessageType.
Variable m : Part000.ircMessage.

Lemma parseNamesMessage_returns : exists r, Part000.parseNamesMessage pmt m = Ok r.
Proof. unfold Part000.parseNamesMessage. cbv zeta. repeat case_match; by eexists. Qed.

Lemma parsePingMessage_returns : exists r, Part000.parsePingMessage pmt m = Ok r.
Proof.
  unfold Part000.parsePingMessage. destruct (Part000.only_param _) as [p0|].
  - destruct (index_Split_0 p0 " ") as [x ->]. by eexists.
  - by eexists.
Qed.

Lemma parsePongMessage_returns : exists r, Part000.parsePongMessage pmt m = Ok r.
Proof.
  unfold Part000.parsePongMessage. destruct (Part000.ircMessage_Params m) as [|? [|p1 [|]]];
    try by eexists.
  destruct (index_Split_0 p1 " ") as [x ->]. by eexists.
Qed.
End Total.

Section EntryPoint.
Variable pf : platform.
Variable parseIRCMessage : string -> Part000.ircMessage * bool.

Lemma ParseMessage_kind line r :
  Part000.ParseMessage pf parseIRCMessage line = Ok r ->
  Part000.GetType r = dispatch_kind (Part000.ircMessage_Command (parseIRCMessage line).1).
Proof.
  unfold Part000.ParseMessage. destruct (parseIRCMessage line) as [m err]. cbn [fst].
  rewrite <- (parseMessageType_table pf).
  destruct err; [by intros [= <-]|].
  unfold Part000.messageTypeMap. cbn [list_to_map foldr fst snd uncurry].
  repeat (rewrite lookup_insert; case_decide;
    [ cbn [Part000.Parser];
      first [ apply parseWhisperMessage_kind | apply parsePrivateMessage_kind
            | apply parseClearChatMessage_kind | apply parseRoomStateMessage_kind
            | apply parseUserNoticeMessage_kind | apply parseUserStateMessage_kind
            | apply parseNoticeMessage_kind | apply parseUserJoinMessage_kind
            | apply parseUserPartMessage_kind | apply parseReconnectMessage_kind
            | apply parseNamesMessage_kind | apply parsePingMessage_kind
            | apply parsePongMessage_kind ] |]).
  rewrite lookup_empty. by intros [= <-].
Qed.

Lemma ParseMessage_returns line :
  decodable pf (parseIRCMessage line).1 = true ->
  exists r, Part000.ParseMessage pf parseIRCMessage line = Ok r.
Proof.
  unfold Part000.ParseMessage. destruct (parseIRCMessage line) as [m err]. cbn [fst].
  intros Hm. destruct err; [by eexists|].
  unfold Part000.messageTypeMap. cbn [list_to_map foldr fst snd uncurry].
  repeat (rewrite lookup_insert; case_decide;
    [ cbn [Part000.Parser];
      first [ (eapply parseWhisperMessage_returns; exact Hm)
            | (eapply parsePrivateMessage_returns; exact Hm)
            | (eapply parseClearChatMessage_returns; exact Hm)
            | (eapply parseRoomStateMessage_returns; exact Hm)
            | (eapply parseUserNoticeMessage_returns; exact Hm)
            | (eapply parseUserStateMessage_returns; exact Hm)
            | (eapply parseNoticeMessage_returns; exact Hm)
            | by eexists
            | apply parseNamesMessage_returns | apply parsePingMessage_returns
            | apply parsePongMessage_returns ] |]).
  rewrite lookup_empty. by eexists.
Qed.

(** A command outside the table always comes back as a raw record. *)
Lemma ParseMessage_unsupported line :
  assoc (Part000.ircMessage_Command (parseIRCMessage line).1) dispatch_table = None ->
  exists raw, Part000.ParseMessage pf parseIRCMessage line = Ok (Part000.MRaw raw)
              /\ Part000.RawMessage_Type raw = Part000.UNSET
              /\ Part000.RawMessage_Raw raw = Part000.ircMessage_Raw (parseIRCMessage line).1.
Proof.
  unfold Part000.ParseMessage. destruct (parseIRCMessage line) as [m err]. cbn [fst].
  intros Hnone.
  pose proof (messageTypeMap_Type pf (Part000.ircMessage_Command m)) as HT.
  rewrite Hnone in HT.
  assert (Part000.parseMessageType pf (Part000.ircMessage_Command m) = Part000.UNSET) as HU.
  { rewrite parseMessageType_table. unfold dispatch_kind. by rewrite Hnone. }
  destruct (Part000.messageTypeMap pf !! Part000.ircMessage_Command m); [done|].
  eexists. split; [by destruct err|]. by split.
Qed.
End EntryPoint.

(** ** Tag blocks, untagged lines *)

Lemma parseTags_step_entry tags e :
  entry_ok e ->
  MessageGo.parseTags_step tags (render_entry e)
  = Ok (<[e.1 := default EmptyString e.2]> tags).
Proof.
  intros (Hsemi & Heq & Hv). destruct e as [k [v|]]; unfold render_entry; cbn [fst snd] in *.
  - unfold MessageGo.parseTags_step. cbv zeta. by rewrite SplitN2_sep.
  - unfold MessageGo.parseTags_step. cbv zeta. by rewrite SplitN2_none.
Qed.

Lemma parseTags_loop_entries es tags :
  Forall entry_ok es ->
  MessageGo.parseTags_loop (render_entry <$> es) tags
  = Ok (foldl (fun m e => <[e.1 := default EmptyString e.2]> m) tags es).
Proof.
  intros H. revert tags. induction H as [|e es He _ IH]; intros tags; [done|].
  rewrite fmap_cons. cbn [MessageGo.parseTags_loop foldl].
  rewrite parseTags_step_entry by done. cbn [bind]. apply IH.
Qed.

Lemma occurs_render_entry e : entry_ok e -> occurs ";" (render_entry e) = false.
Proof.
  intros (Hsemi & Heq & Hv). destruct e as [k [v|]]; unfold render_entry; cbn [fst snd] in *.
  - rewrite !occurs_app, Hsemi, (Hv v) by done. done.
  - done.
Qed.

Lemma TrimPrefix_at s : strings.TrimPrefix ("@" +:+ s) "@" = s.
Proof. reflexivity. Qed.

Lemma parseTags_entries es :
  es <> [] -> Forall entry_ok es ->
  MessageGo.parseTags (render_tags es) = Ok (tags_of_entries es).
Proof.
  intros Hne Hes. unfold MessageGo.parseTags, render_tags. cbv zeta.
  rewrite TrimPrefix_at, Split_Join.
  - by apply parseTags_loop_entries.
  - by destruct es.
  - apply Forall_forall. intros p [e [-> Hin]]%list_elem_of_fmap.
    apply occurs_render_entry. rewrite Forall_forall in Hes. by apply Hes.
Qed.

(** Reading the denoted map: the last entry for a name decides. *)
Lemma tags_of_entries_snoc es e :
  tags_of_entries (es ++ [e]) = <[e.1 := default EmptyString e.2]> (tags_of_entries es).
Proof. unfold tags_of_entries. by rewrite foldl_app. Qed.

Lemma tags_of_entries_last es k v rest :
  Forall (fun e => e.1 <> k) rest ->
  tags_of_entries (es ++ (k, v) :: rest) !! k = Some (default EmptyString v).
Proof.
  induction rest as [|e rest IH] using rev_ind; intros Hrest.
  - rewrite tags_of_entries_snoc. cbn [fst snd]. apply lookup_insert_eq.
  - apply Forall_app in Hrest as [Hrest He]. inversion He; subst.
    replace (es ++ (k, v) :: rest ++ [e]) with ((es ++ (k, v) :: rest) ++ [e])
      by (by rewrite <- app_assoc).
    rewrite tags_of_entries_snoc, lookup_insert_ne by done. by apply IH.
Qed.

Lemma HasPrefix_at_false line :
  strings.HasPrefix line "@" = false ->
  MessageGo.parseMessage line =
  Ok {| MessageGo.message_RawMessage :=
          {| MessageGo.RawMessage_Type := MessageGo.UNSET;
             MessageGo.RawMessage_RawType := EmptyString;
             MessageGo.RawMessage_Raw := line;
             MessageGo.RawMessage_Tags := ∅;
             MessageGo.RawMessage_Message := line |};
        MessageGo.message_Channel := EmptyString;
        MessageGo.message_Username := EmptyString |}.
Proof. intros H. unfold MessageGo.parseMessage. by rewrite H. Qed.

(** ** Badge lists *)










(** ** The ACTION wrapper *)

Lemma HasPrefix_app p s : strings.HasPrefix (p +:+ s) p = true.
Proof. induction p as [|c p IH]; [done|]. simpl. by rewrite decide_True. Qed.

Lemma HasPrefix_inv s p :
  strings.HasPrefix s p = true -> s = p +:+ drop_bytes (len p) s.
Proof.
  revert s. induction p as [|c p IH]; intros s H.
  - by rewrite drop_bytes_0.
  - destruct s as [|d s]; [done|]. simpl in H. case_decide; [subst|done].
    simpl. rewrite app_cons. f_equal. by apply IH.
Qed.

Lemma take_drop_bytes n s : take_bytes n s +:+ drop_bytes n s = s.
Proof.
  revert s. induction n as [|n IH]; intros [|c s]; simpl; try done.
  by rewrite app_cons, IH.
Qed.

Lemma len_drop_bytes n s : len (drop_bytes n s) = (len s - n)%nat.
Proof. revert s. induction n as [|n IH]; intros [|c s]; simpl; try done. Qed.

Lemma HasSuffix_app s t : strings.HasSuffix (s +:+ t) t = true.
Proof.
  unfold strings.HasSuffix. rewrite len_app.
  rewrite decide_True by lia. apply bool_decide_eq_true.
  replace (len s + len t - len t)%nat with (len s + 0)%nat by lia.
  by rewrite drop_bytes_app.
Qed.

Lemma HasSuffix_inv s t :
  strings.HasSuffix s t = true -> s = take_bytes (len s - len t) s +:+ t.
Proof.
  unfold strings.HasSuffix. case_decide; [|done].
  intros Hd%bool_decide_eq_true.
  rewrite <- (take_drop_bytes (len s - len t) s) at 1. by rewrite Hd.
Qed.

Lemma HasSuffix_cons c s t :
  (len t <= len s)%nat -> strings.HasSuffix (String c s) t = strings.HasSuffix s t.
Proof.
  intros H. unfold strings.HasSuffix. cbn [len String.length].
  rewrite !decide_True by (unfold len in *; lia).
  replace (S (String.length s) - len t)%nat with (S (len s - len t))
    by (unfold len in *; lia).
  done.
Qed.

Lemma HasSuffix_app_r p s t :
  (len t <= len s)%nat -> strings.HasSuffix (p +:+ s) t = strings.HasSuffix s t.
Proof.
  intros H. induction p as [|c p IH]; [done|].
  change (String c p +:+ s) with (String c (p +:+ s)).
  rewrite HasSuffix_cons; [done|]. rewrite len_app. lia.
Qed.

Lemma is_action_shape text :
  strings.HasPrefix text ACTION_marker && strings.HasSuffix text SOH = true
  <-> action_shape text.
Proof.
  split.
  - intros [Hp Hs]%andb_true_iff. apply HasPrefix_inv in Hp.
    set (rest := drop_bytes (len ACTION_marker) text) in *.
    destruct rest as [|c rest'] eqn:Hr.
    { rewrite Hp in Hs. done. }
    rewrite Hp in Hs. rewrite HasSuffix_app_r in Hs by (simpl; lia).
    apply HasSuffix_inv in Hs. exists (take_bytes (len (String c rest') - len SOH) (String c rest')).
    by rewrite <- Hs.
  - intros [mid ->]. rewrite HasPrefix_app.
    rewrite <- app_assoc', HasSuffix_app. done.
Qed.

Lemma slice_action c mid :
  let text := ACTION_marker +:+ String c mid +:+ SOH in
  slice_string text 8 (Z.of_nat (len text) - 1) = Ok mid.
Proof.
  cbv zeta. rewrite slice_string_ok.
  - f_equal.
    replace (Z.to_nat _) with (len mid)
      by (rewrite !len_app; unfold len; simpl; lia).
    change (Z.to_nat 8) with 8%nat.
    change (drop_bytes 8 (ACTION_marker +:+ String c mid +:+ SOH)) with (mid +:+ SOH).
    apply take_bytes_app.
  - rewrite !len_app. unfold len. simpl. lia.
  - lia.
Qed.

Lemma slice_action_eq text c mid :
  text = ACTION_marker +:+ String c mid +:+ SOH ->
  slice_string text 8 (Z.of_nat (len text) - 1) = Ok mid.
Proof. intros ->. apply slice_action. Qed.

Lemma not_action_shape text :
  ~ action_shape text ->
  strings.HasPrefix text ACTION_marker && strings.HasSuffix text SOH = false.
Proof.
  intros H. destruct (_ && _) eqn:E; [|done]. by apply is_action_shape in E.
Qed.

Section ActionPart000.
Variable pf : platform.
Variable pmt : string -> Part000.MessageType.
Variable m : Part000.ircMessage.
Variables (user : Part000.User) (emotes : list Part000.Emote) (p0 text : string).
Hypothesis Htext : text = Part000.second_of_two (Part000.ircMessage_Params m).
Hypothesis Huser : Part000.parseUser pf m = Ok user.
Hypothesis Hp0 : index (Part000.ircMessage_Params m) 0 = Ok p0.
Hypothesis Hemotes :
  Part000.parseEmotes pf (tag (Part000.ircMessage_Tags m) "emotes") text = Ok emotes.

Lemma Part000_private_action c mid :
  text = ACTION_marker +:+ String c mid +:+ SOH ->
  exists r, Part000.parsePrivateMessage pf pmt m = Ok (Part000.MPrivate r)
    /\ Part000.PrivateMessage_Message r = mid
    /\ Part000.PrivateMessage_Action r = true
    /\ Part000.PrivateMessage_Emotes r = emotes.
Proof.
  intros Ht. unfold Part000.parsePrivateMessage. cbv zeta.
  rewrite Huser. cbn [bind]. rewrite <- Htext, Hemotes, Hp0. cbn [bind].
  assert (Part000.is_action text = true) as ->.
  { apply is_action_shape. exists (String c mid). by rewrite Ht. }
  rewrite (slice_action_eq text c mid Ht). cbn [bind]. by eexists.
Qed.

Lemma Part000_private_plain :
  ~ action_shape text ->
  exists r, Part000.parsePrivateMessage pf pmt m = Ok (Part000.MPrivate r)
    /\ Part000.PrivateMessage_Message r = text
    /\ Part000.PrivateMessage_Action r = false
    /\ Part000.PrivateMessage_Emotes r = emotes.
Proof.
  intros Ht. unfold Part000.parsePrivateMessage. cbv zeta.
  rewrite Huser. cbn [bind]. rewrite <- Htext, Hemotes, Hp0. cbn [bind].
  assert (Part000.is_action text = false) as -> by (by apply not_action_shape).
  by eexists.
Qed.

(** The whisper decoder looks for ["/me"] instead. *)
Lemma Part000_whisper :
  exists r, Part000.parseWhisperMessage pf pmt m = Ok (Part000.MWhisper r)
    /\ Part000.WhisperMessage_Action r = strings.Contains text "/me"
    /\ Part000.WhisperMessage_Message r =
         (if strings.Contains text "/me" then strings.TrimPrefix text "/me" else text)
    /\ Part000.WhisperMessage_Emotes r = emotes.
Proof.
  unfold Part000.parseWhisperMessage. cbv zeta.
  rewrite Huser. cbn [bind]. rewrite <- Htext, Hemotes, Hp0. cbn [bind].
  by eexists.
Qed.
End ActionPart000.

Section ActionMessageGo.
Variable pf : platform.
Variable m : MessageGo.message.
Variable emotes : list MessageGo.Emote.
Variable text : string.
Hypothesis Htext :
  text = MessageGo.RawMessage_Message (MessageGo.message_RawMessage m).
Hypothesis Hemotes : MessageGo.parseEmotes pf m = Ok emotes.

Lemma MessageGo_privmsg_action c mid :
  text = ACTION_marker +:+ String c mid +:+ SOH ->
  exists u r, MessageGo.parsePRIVMSGMessage pf m = Ok (u, r)
    /\ PRIVMSG_text r = mid
    /\ MessageGo.userMessage_Action (MessageGo.PRIVMSGMessage_userMessage r) = true
    /\ MessageGo.userMessage_Emotes (MessageGo.PRIVMSGMessage_userMessage r) = emotes.
Proof.
  intros Ht. unfold MessageGo.parsePRIVMSGMessage, MessageGo.parseUserMessage.
  cbv zeta. rewrite Hemotes. cbn [bind MessageGo.userMessage_Action]. rewrite <- Htext.
  assert (MessageGo.is_action text = true) as ->.
  { apply is_action_shape. exists (String c mid). by rewrite Ht. }
  assert (MessageGo.RawMessage_Message
            (MessageGo.chatMessage_RawMessage (MessageGo.parseChatMessage m)) = text)
    as -> by (unfold MessageGo.parseChatMessage; by destruct (strconv.ParseInt _)).
  rewrite (slice_action_eq text c mid Ht). cbn [bind].
  unfold PRIVMSG_text. destruct (MessageGo.Tags_of m !! "bits"); by eexists _, _.
Qed.

Lemma MessageGo_privmsg_plain :
  ~ action_shape text ->
  exists u r, MessageGo.parsePRIVMSGMessage pf m = Ok (u, r)
    /\ PRIVMSG_text r = text
    /\ MessageGo.userMessage_Action (MessageGo.PRIVMSGMessage_userMessage r) = false
    /\ MessageGo.userMessage_Emotes (MessageGo.PRIVMSGMessage_userMessage r) = emotes.
Proof.
  intros Ht. unfold MessageGo.parsePRIVMSGMessage, MessageGo.parseUserMessage.
  cbv zeta. rewrite Hemotes. cbn [bind MessageGo.userMessage_Action]. rewrite <- Htext.
  assert (MessageGo.is_action text = false) as -> by (by apply not_action_shape).
  cbn [bind]. unfold PRIVMSG_text.
  destruct (MessageGo.Tags_of m !! "bits"); eexists _, _; (split; [done|]);
    (split; [|done]); unfold MessageGo.parseChatMessage;
    by destruct (strconv.ParseInt _).
Qed.

Lemma MessageGo_whisper_action c mid :
  text = ACTION_marker +:+ String c mid +:+ SOH ->
  exists u r, MessageGo.parseWHISPERMessage pf m = Ok (u, r)
    /\ WHISPER_text r = mid
    /\ MessageGo.userMessage_Action (MessageGo.WHISPERMessage_userMessage r) = true.
Proof.
  intros Ht. unfold MessageGo.parseWHISPERMessage, MessageGo.parseUserMessage.
  cbv zeta. rewrite Hemotes. cbn [bind MessageGo.userMessage_Action]. rewrite <- Htext.
  assert (MessageGo.is_action text = true) as ->.
  { apply is_action_shape. exists (String c mid). by rewrite Ht. }
  rewrite (slice_action_eq text c mid Ht). cbn [bind]. by eexists _, _.
Qed.

Lemma MessageGo_whisper_plain :
  ~ action_shape text ->
  exists u r, MessageGo.parseWHISPERMessage pf m = Ok (u, r)
    /\ WHISPER_text r = text
    /\ MessageGo.userMessage_Action (MessageGo.WHISPERMessage_userMessage r) = false.
Proof.
  intros Ht. unfold MessageGo.parseWHISPERMessage, MessageGo.parseUserMessage.
  cbv zeta. rewrite Hemotes. cbn [bind MessageGo.userMessage_Action]. rewrite <- Htext.
  assert (MessageGo.is_action text = false) as -> by (by apply not_action_shape).
  cbn [bind]. eexists _, _. split; [done|]. split; [|done].
  unfold WHISPER_text. by destruct (MessageGo.message_RawMessage m).
Qed.
End ActionMessageGo.

(** ** The parameter bag of USERNOTICE *)

Lemma Replace_unfold s old new n :
  strings.Replace s old new (S n) =
  match strings.Index s old with
  | None => s
  | Some j => take_bytes j s +:+ new +:+
              strings.Replace (drop_bytes (j + len old) s) old new n
  end.
Proof. reflexivity. Qed.

(** The escape [\s] never yields the one-byte string ["1"], and leaves it alone. *)
Lemma ReplaceAll_s_is_1 v :
  strings.ReplaceAll v "\s" " " = "1" <-> v = "1".
Proof.
  split.
  - unfold strings.ReplaceAll. destruct v as [|a v']; [done|].
    cbn [len String.length]. rewrite Replace_unfold.
    destruct (strings.Index (String a v') "\s") as [j|] eqn:Hj; [|done].
    destruct j as [|j].
    + cbn [take_bytes]. rewrite app_empty_l. intros H. discriminate H.
    + cbn [take_bytes]. rewrite app_cons. intros [= _ H].
      apply (f_equal len) in H. rewrite !len_app in H. simpl in H. lia.
  - by intros ->.
Qed.

Lemma paramToInt_lookup k params s :
  params !! k = Some (MessageGo.PString s) ->
  MessageGo.paramToInt k params = Ok (<[k := MessageGo.PInt (strconv.Atoi s).1]> params).
Proof. intros H. unfold MessageGo.paramToInt. by rewrite H. Qed.

Lemma paramToBool_lookup k params s :
  params !! k = Some (MessageGo.PString s) ->
  MessageGo.paramToBool k params = Ok (<[k := MessageGo.PBool (bool_decide (s = "1"))]> params).
Proof. intros H. unfold MessageGo.paramToBool. by rewrite H. Qed.

Lemma paramToInt_absent k params :
  params !! k = None -> MessageGo.paramToInt k params = Ok params.
Proof. intros H. unfold MessageGo.paramToInt. by rewrite H. Qed.

Lemma paramToBool_absent k params :
  params !! k = None -> MessageGo.paramToBool k params = Ok params.
Proof. intros H. unfold MessageGo.paramToBool. by rewrite H. Qed.

Lemma raw_bag_lookup tags k :
  raw_bag tags !! k =
  if strings.Contains k "msg-param"
  then (fun v => MessageGo.PString (strings.ReplaceAll v "\s" " ")) <$> tags !! k
  else None.
Proof.
  unfold raw_bag. rewrite lookup_fmap, map_lookup_filter.
  destruct (tags !! k) as [v|]; cbn [fst snd]; [|by destruct (strings.Contains _ _)].
  simpl. destruct (strings.Contains k "msg-param") eqn:E.
  - by rewrite option_guard_True.
  - by rewrite option_guard_False.
Qed.

Lemma paramToInt_coerced k params :
  (forall p, params !! k = Some p -> is_PString p) ->
  MessageGo.paramToInt k params = Ok (coerced (fun s => MessageGo.PInt (strconv.Atoi s).1) k params).
Proof.
  intros H. unfold MessageGo.paramToInt, coerced.
  destruct (params !! k) as [[s|n|b]|] eqn:E; try done; by destruct (H _ eq_refl).
Qed.

Lemma paramToBool_coerced k params :
  (forall p, params !! k = Some p -> is_PString p) ->
  MessageGo.paramToBool k params = Ok (coerced (fun s => MessageGo.PBool (bool_decide (s = "1"))) k params).
Proof.
  intros H. unfold MessageGo.paramToBool, coerced.
  destruct (params !! k) as [[s|n|b]|] eqn:E; try done; by destruct (H _ eq_refl).
Qed.

Lemma coerced_lookup_ne f k k' params :
  k <> k' -> coerced f k params !! k' = params !! k'.
Proof.
  intros. unfold coerced. destruct (params !! k) as [[s|n|b]|]; try done.
  by rewrite lookup_insert_ne.
Qed.

Lemma coerced_lookup_eq f k params :
  coerced f k params !! k =
  match params !! k with
  | Some (MessageGo.PString s) => Some (f s)
  | o => o
  end.
Proof.
  unfold coerced. destruct (params !! k) as [[s|n|b]|] eqn:E; try done.
  by rewrite lookup_insert_eq.
Qed.

Ltac not_in_list :=
  let H := fresh in
  intros H; repeat (apply elem_of_cons in H as [H|H]; [congruence|]);
  by apply elem_of_nil in H.

Lemma raw_bag_PString tags k p : raw_bag tags !! k = Some p -> is_PString p.
Proof.
  rewrite raw_bag_lookup. destruct (strings.Contains _ _); [|done].
  destruct (tags !! k); [|done]. by intros [= <-].
Qed.

Lemma parseMsgParams_bag tags :
  exists bag, MessageGo.parseMsgParams tags = Ok bag
              /\ forall k, bag !! k = bag_entry tags k.
Proof.
  unfold MessageGo.parseMsgParams. cbv zeta. fold (raw_bag tags).
  rewrite paramToInt_coerced by apply raw_bag_PString. cbn [bind].
  rewrite paramToInt_coerced
    by (intros p; rewrite coerced_lookup_ne by done; apply raw_bag_PString).
  cbn [bind].
  rewrite paramToBool_coerced
    by (intros p; rewrite !coerced_lookup_ne by done; apply raw_bag_PString).
  cbn [bind].
  rewrite paramToInt_coerced
    by (intros p; rewrite !coerced_lookup_ne by done; apply raw_bag_PString).
  cbn [bind].
  rewrite paramToInt_coerced
    by (intros p; rewrite !coerced_lookup_ne by done; apply raw_bag_PString).
  eexists. split; [done|]. intros k. unfold bag_entry, coerce, int_params, bool_param.
  destruct (decide (k = "msg-param-viewerCount")) as [->|H5].
  { rewrite coerced_lookup_eq, !coerced_lookup_ne, raw_bag_lookup by done.
    change (strings.Contains "msg-param-viewerCount" "msg-param") with true.
    by destruct (tags !! _). }
  rewrite coerced_lookup_ne by done.
  destruct (decide (k = "msg-param-streak-months")) as [->|H4].
  { rewrite coerced_lookup_eq, !coerced_lookup_ne, raw_bag_lookup by done.
    change (strings.Contains "msg-param-streak-months" "msg-param") with true.
    by destruct (tags !! _). }
  rewrite coerced_lookup_ne by done.
  destruct (decide (k = "msg-param-should-share-streak")) as [->|H3].
  { rewrite coerced_lookup_eq, !coerced_lookup_ne, raw_bag_lookup by done.
    change (strings.Contains "msg-param-should-share-streak" "msg-param") with true.
    destruct (tags !! _) as [v|]; [|done]. cbn [fmap option_fmap option_map].
    rewrite (bool_decide_false (_ ∈ _)) by not_in_list.
    rewrite (bool_decide_true ("msg-param-should-share-streak" = _)) by done.
    do 2 f_equal. apply bool_decide_ext, ReplaceAll_s_is_1. }
  rewrite coerced_lookup_ne by done.
  destruct (decide (k = "msg-param-months")) as [->|H2].
  { rewrite coerced_lookup_eq, !coerced_lookup_ne, raw_bag_lookup by done.
    change (strings.Contains "msg-param-months" "msg-param") with true.
    by destruct (tags !! _). }
  rewrite coerced_lookup_ne by done.
  destruct (decide (k = "msg-param-cumulative-months")) as [->|H1].
  { rewrite coerced_lookup_eq, raw_bag_lookup.
    change (strings.Contains "msg-param-cumulative-months" "msg-param") with true.
    by destruct (tags !! _). }
  rewrite coerced_lookup_ne by done.
  rewrite raw_bag_lookup. destruct (strings.Contains k "msg-param"); [|done].
  rewrite (bool_decide_false (_ ∈ _)) by not_in_list.
  rewrite (bool_decide_false (k = _)) by done. done.
Qed.

(** [part_000] keeps the bag as strings: a verbatim copy of the tags whose
    name contains ["msg-param"]. *)
Lemma Part000_bag pf pmt m r :
  Part000.parseUserNoticeMessage pf pmt m = Ok (Part000.MUserNotice r) ->
  forall k, Part000.UserNoticeMessage_MsgParams r !! k =
            if strings.Contains k "msg-param"
            then Part000.ircMessage_Tags m !! k else None.
Proof.
  intros H k. unfold Part000.parseUserNoticeMessage in H. cbv zeta in H.
  binds. cbn [Part000.UserNoticeMessage_MsgParams].
  rewrite map_lookup_filter.
  destruct (Part000.ircMessage_Tags m !! k) as [v|]; cbn [fst snd];
    [|by destruct (strings.Contains _ _)].
  simpl. destruct (strings.Contains k "msg-param") eqn:Ec.
  - by rewrite option_guard_True.
  - by rewrite option_guard_False.
Qed.

Lemma isASCII_app s t :
  strings.isASCII (s +:+ t) = strings.isASCII s && strings.isASCII t.
Proof.
  induction s as [|c s IH]; [done|].
  rewrite app_cons. cbn [strings.isASCII]. by rewrite IH, andb_assoc.
Qed.

Lemma isASCII_take n s :
  strings.isASCII s = true -> strings.isASCII (take_bytes n s) = true.
Proof.
  revert s. induction n as [|n IH]; intros [|c s]; try done.
  cbn [take_bytes strings.isASCII]. intros [-> H]%andb_true_iff. by apply IH.
Qed.

Lemma isASCII_drop n s :
  strings.isASCII s = true -> strings.isASCII (drop_bytes n s) = true.
Proof.
  revert s. induction n as [|n IH]; intros [|c s]; try done.
  cbn [drop_bytes strings.isASCII]. intros [_ H]%andb_true_iff. by apply IH.
Qed.

(** Replacing inside ASCII text by ASCII text leaves ASCII text. *)
Lemma isASCII_Replace s old new n :
  strings.isASCII s = true -> strings.isASCII new = true ->
  strings.isASCII (strings.Replace s old new n) = true.
Proof.
  intros Hs Hnew. revert s Hs. induction n as [|n IH]; intros s Hs; [done|].
  rewrite Replace_unfold. destruct (strings.Index s old) as [j|]; [|done].
  rewrite !isASCII_app, isASCII_take, Hnew, IH by (try apply isASCII_drop; done).
  done.
Qed.

(** Once the emote decoder has returned, [parseUSERNOTICEMessage] returns:
    the tag map of the record is the one of the message, the bag is the one
    of [parseMsgParams], and the system message is the [system-msg] tag with
    [\s] turned into a space, [\n] removed and the white space trimmed. *)
Lemma MessageGo_usernotice pf m emotes :
  MessageGo.parseEmotes pf m = Ok emotes ->
  exists u r, MessageGo.parseUSERNOTICEMessage pf m = Ok (u, r)
    /\ USERNOTICE_tags r = MessageGo.Tags_of m
    /\ (forall k, MessageGo.USERNOTICEMessage_MsgParams r !! k
                  = bag_entry (MessageGo.Tags_of m) k)
    /\ MessageGo.USERNOTICEMessage_SystemMsg r =
         match MessageGo.Tags_of m !! "system-msg" with
         | None => EmptyString
         | Some raw =>
             strings.TrimSpace (TrimSpace_unicode pf)
               (strings.ReplaceAll (strings.ReplaceAll raw "\s" " ") "\n" EmptyString)
         end.
Proof.
  intros He. unfold MessageGo.parseUSERNOTICEMessage, MessageGo.parseUserMessage.
  cbv zeta. rewrite He. cbn [bind].
  assert (MessageGo.RawMessage_Tags
            (MessageGo.chatMessage_RawMessage (MessageGo.parseChatMessage m))
          = MessageGo.Tags_of m) as HT
    by (unfold MessageGo.parseChatMessage; by destruct (strconv.ParseInt _)).
  rewrite HT.
  destruct (parseMsgParams_bag (MessageGo.Tags_of m)) as (bag & -> & Hbag).
  cbn [bind]. eexists _, _. split; [reflexivity|].
  unfold USERNOTICE_tags.
  cbn [MessageGo.USERNOTICEMessage_chatMessage MessageGo.USERNOTICEMessage_MsgParams
       MessageGo.USERNOTICEMessage_SystemMsg].
  by rewrite HT.
Qed.

(** On ASCII text the white space trimmed is the six ASCII spaces. *)
Lemma system_msg_ascii unicode raw :
  strings.isASCII raw = true ->
  strings.TrimSpace unicode
    (strings.ReplaceAll (strings.ReplaceAll raw "\s" " ") "\n" EmptyString)
  = strings.Trim
      (strings.ReplaceAll (strings.ReplaceAll raw "\s" " ") "\n" EmptyString)
      strings.asciiSpace.
Proof.
  intros H. unfold strings.TrimSpace, strings.ReplaceAll.
  assert (strings.isASCII (strings.Replace raw "\s" " " (len raw)) = true) as H1
    by (by apply isASCII_Replace).
  by rewrite (isASCII_Replace _ "\n" EmptyString _ H1 eq_refl).
Qed.

(** ** Names; emote names and the body; emote groups, [message.go] *)

Lemma parseNamesMessage_four pmt m p0 p1 p2 p3 :
  Part000.ircMessage_Params m = [p0; p1; p2; p3] ->
  exists r, Part000.parseNamesMessage pmt m = Ok (Part000.MNames r)
    /\ Part000.NamesMessage_Channel r = strings.TrimPrefix p2 "#"
    /\ Part000.NamesMessage_Users r = strings.Split p3 " ".
Proof. intros H. unfold Part000.parseNamesMessage. rewrite H. by eexists. Qed.

Lemma parseNamesMessage_other pmt m :
  length (Part000.ircMessage_Params m) <> 4%nat ->
  exists r, Part000.parseNamesMessage pmt m = Ok (Part000.MNames r)
    /\ Part000.NamesMessage_Channel r = EmptyString
    /\ Part000.NamesMessage_Users r = [].
Proof.
  intros H. unfold Part000.parseNamesMessage.
  destruct (Part000.ircMessage_Params m) as [|? [|? [|? [|? [|]]]]];
    try done; by eexists.
Qed.

Lemma TrimPrefix_hash s : strings.TrimPrefix ("#" +:+ s) "#" = s.
Proof. reflexivity. Qed.

Lemma encode_app rs1 rs2 :
  utf8.encode (rs1 ++ rs2) = utf8.encode rs1 +:+ utf8.encode rs2.
Proof.
  induction rs1 as [|r rs1 IH]; [done|].
  cbn [app utf8.encode]. by rewrite IH, app_assoc'.
Qed.

Lemma slice_substring body lo n :
  valid_utf8 body ->
  substring_of (utf8.encode (take n (drop lo (utf8.decode body)))) body.
Proof.
  intros Hv. set (rs := utf8.decode body) in *.
  exists (utf8.encode (take lo rs)), (utf8.encode (drop n (drop lo rs))).
  rewrite <- !encode_app, take_drop, take_drop. by symmetry.
Qed.

Lemma for_each_inv {A B} (f : A -> result B) xs ys y :
  for_each f xs = Ok ys -> y ∈ ys -> exists x, x ∈ xs /\ f x = Ok y.
Proof.
  revert ys. induction xs as [|x xs IH]; intros ys H Hy.
  - injection H as <-. by apply elem_of_nil in Hy.
  - cbn [for_each] in H. destruct (f x) as [y0|] eqn:Hx; [|done].
    cbn [bind] in H. destruct (for_each f xs) as [ys0|] eqn:Hxs; [|done].
    injection H as <-. apply elem_of_cons in Hy as [->|Hy].
    + exists x. split; [apply elem_of_cons; by left|done].
    + destruct (IH _ eq_refl Hy) as (x' & Hin & Hf).
      exists x'. split; [apply elem_of_cons; by right|done].
Qed.

(** A byte of a piece is a byte of the whole. *)
Lemma substring_occurs c piece whole :
  substring_of piece whole -> occurs c piece = true -> occurs c whole = true.
Proof.
  intros (pre & post & ->) H. rewrite !occurs_app, H.
  by destruct (occurs c pre).
Qed.

Lemma MessageGo_parseEmotes_groups pf m gs :
  let body := MessageGo.RawMessage_Message (MessageGo.message_RawMessage m) in
  tag (MessageGo.Tags_of m) "emotes" = render_emotes gs ->
  Z.of_nat (len body) < 2 ^ 63 ->
  Forall (fun g => group_id_ok g /\
            (group_first g <= group_last g <= length (utf8.decode body))%nat) gs ->
  MessageGo.parseEmotes pf m = Ok (MessageGo_emote body <$> gs).
Proof.
  intros body Htag Hlen Hgs. unfold MessageGo.parseEmotes. rewrite Htag.
  cbv zeta. unfold render_emotes.
  destruct gs as [|g gs]; [done|].
  rewrite decide_False by (apply Join_nonempty, render_group_nonempty).
  rewrite Split_Join.
  - apply for_each_fmap. eapply Forall_impl; [exact Hgs|].
    intros g' [Hid Hr]. cbv beta in *.
    apply (MessageGo_step (to_runes pf body)); [done|done|].
    pose proof (length_decode_le body). fold body. lia.
  - done.
  - apply Forall_forall. intros p [g' [-> Hin]]%list_elem_of_fmap.
    apply occurs_render_group. rewrite Forall_forall in Hgs. by apply Hgs.
Qed.

(** ** Kinds of [message.go]; lines without a separator; PING and PONG *)

Lemma MessageGo_parseMessageType_table cmd :
  MessageGo.parseMessageType cmd
  = default MessageGo.UNSET (legacy_assoc cmd legacy_table).
Proof.
  unfold MessageGo.parseMessageType, legacy_table. cbn [legacy_assoc].
  repeat (case_decide; [done|]). done.
Qed.

(** On the seven tokens both generations agree. *)
Lemma MessageGo_kind_agrees cmd t :
  legacy_assoc cmd legacy_table = Some t ->
  MessageGo.MessageType_value t = Part000.MessageType_value (dispatch_kind cmd).
Proof.
  unfold legacy_table, dispatch_kind, dispatch_table. cbn [legacy_assoc assoc].
  repeat (case_decide; [intros [= <-]; subst; reflexivity|]). done.
Qed.

Lemma parseTags_loop_total vs tags : exists t, MessageGo.parseTags_loop vs tags = Ok t.
Proof.
  revert tags. induction vs as [|v vs IH]; intros tags; [by eexists|].
  cbn [MessageGo.parseTags_loop]. unfold MessageGo.parseTags_step. cbv zeta.
  destruct (SplitN_S_nonempty v "=" 1) as (x & xs & ->). rewrite index_0.
  cbn [bind]. apply IH.
Qed.

Lemma parseTags_total raw : exists t, MessageGo.parseTags raw = Ok t.
Proof. apply parseTags_loop_total. Qed.

Lemma parseMiddle_loop_total vs i acc :
  exists r, MessageGo.parseMiddle_loop i vs acc = Ok r.
Proof.
  revert i acc. induction vs as [|v vs IH]; intros i acc; [by eexists|].
  cbn [MessageGo.parseMiddle_loop]. unfold MessageGo.parseMiddle_step.
  destruct acc as [[rawType channel] username].
  case_decide; [cbn [bind]; apply IH|].
  destruct (strings.Contains v "!").
  - destruct (SplitN_S_nonempty v "!" 1) as (x & xs & ->). rewrite index_0.
    cbn [bind]. apply IH.
  - destruct (strings.Contains v "#"); cbn [bind]; apply IH.
Qed.

(** A tagged line without any [" :"] separator makes [parseMessage] index
    past the padded segments. *)
Lemma parseMessage_short line :
  strings.HasPrefix line "@" = true ->
  strings.Index line " :" = None ->
  MessageGo.parseMessage line = Panic IndexOutOfRange.
Proof.
  intros Hat Hidx. unfold MessageGo.parseMessage. rewrite Hat. cbn [negb].
  cbv zeta.
  assert (strings.SplitN line " :" 3 = [line]) as -> by (by rewrite SplitN_SS, Hidx).
  change (if (length [line] <? 3)%nat then MessageGo.pad_loop 3 0 [line] else [line])
    with [line; EmptyString].
  rewrite index_1. cbn [bind].
  change (MessageGo.parseMiddle EmptyString)
    with (Ok (EmptyString, EmptyString, EmptyString) : result (string * string * string)).
  cbn [bind]. rewrite index_0. cbn [bind].
  destruct (parseTags_total line) as [t ->]. cbn [bind]. done.
Qed.

(** Whatever the line, the kind is the one [parseMessageType] gives for the
    command token the framer found. *)
Lemma parseMessage_kind line m :
  MessageGo.parseMessage line = Ok m ->
  MessageGo.RawMessage_Type (MessageGo.message_RawMessage m)
  = MessageGo.parseMessageType
      (MessageGo.RawMessage_RawType (MessageGo.message_RawMessage m)).
Proof.
  unfold MessageGo.parseMessage. destruct (negb _).
  - by intros [= <-].
  - cbv zeta. intros H. binds. done.
Qed.

Lemma ParseMessage_ping pf framer line :
  Part000.ircMessage_Command (framer line).1 = "PING" ->
  exists r, Part000.ParseMessage pf framer line = Ok r
            /\ Part000.GetType r = Part000.PING.
Proof.
  intros Hc. unfold Part000.ParseMessage.
  destruct (framer line) as [m err] eqn:Hf. cbn [fst] in Hc.
  assert (Part000.parseMessageType pf "PING" = Part000.PING) as HP by done.
  destruct err.
  - eexists. split; [done|]. cbn. by rewrite Hc.
  - rewrite Hc.
    change (Part000.messageTypeMap pf !! "PING")
      with (Some {| Part000.Type_ := Part000.PING;
                    Part000.Parser := Part000.parsePingMessage |}).
    cbn [Part000.Parser].
    destruct (parsePingMessage_returns (Part000.parseMessageType pf) m) as [r Hr].
    exists r. split; [done|].
    apply parsePingMessage_kind in Hr. by rewrite Hr, Hc.
Qed.

Lemma ParseMessage_pong pf framer line :
  Part000.ircMessage_Command (framer line).1 = "PONG" ->
  exists r, Part000.ParseMessage pf framer line = Ok r
            /\ Part000.GetType r = Part000.PONG.
Proof.
  intros Hc. unfold Part000.ParseMessage.
  destruct (framer line) as [m err] eqn:Hf. cbn [fst] in Hc.
  assert (Part000.parseMessageType pf "PONG" = Part000.PONG) as HP by done.
  destruct err.
  - eexists. split; [done|]. cbn. by rewrite Hc.
  - rewrite Hc.
    change (Part000.messageTypeMap pf !! "PONG")
      with (Some {| Part000.Type_ := Part000.PONG;
                    Part000.Parser := Part000.parsePongMessage |}).
    cbn [Part000.Parser].
    destruct (parsePongMessage_returns (Part000.parseMessageType pf) m) as [r Hr].
    exists r. split; [done|].
    apply parsePongMessage_kind in Hr. by rewrite Hr, Hc.
Qed.

(** ** More on [Index], [Contains] and the pieces of [SplitN] *)

Lemma Index_cons c s sub :
  strings.Index (String c s) sub
  = if strings.HasPrefix (String c s) sub then Some 0%nat
    else S <$> strings.Index s sub.
Proof. reflexivity. Qed.

Lemma Contains_false s sub :
  strings.Contains s sub = false <-> strings.Index s sub = None.
Proof.
  unfold strings.Contains. rewrite bool_decide_eq_false.
  by rewrite eq_None_not_Some.
Qed.

Lemma Contains_true s sub :
  strings.Contains s sub = true <-> exists m, strings.Index s sub = Some m.
Proof. unfold strings.Contains. by rewrite bool_decide_eq_true. Qed.

Lemma Contains_byte c s : strings.Contains s (sep1 c) = occurs c s.
Proof.
  destruct (occurs c s) eqn:H.
  - apply Contains_true. induction s as [|d s IH]; [done|].
    rewrite Index_cons, HasPrefix_byte. case_bool_decide; [by eexists|].
    cbn [occurs] in H. rewrite bool_decide_false in H by done.
    destruct (IH H) as [m ->]. by eexists.
  - apply Contains_false. by apply Index_byte_absent.
Qed.

Lemma Index_byte_None c s : strings.Index s (sep1 c) = None -> occurs c s = false.
Proof. intros H. rewrite <- Contains_byte. by apply Contains_false. Qed.

Lemma occurs_take_bytes c n s : occurs c s = false -> occurs c (take_bytes n s) = false.
Proof.
  revert n. induction s as [|d s IH]; intros [|n] H; try done.
  cbn [occurs take_bytes] in *. apply orb_false_elim in H as [-> H].
  by rewrite IH.
Qed.

Lemma occurs_drop_bytes c n s : occurs c s = false -> occurs c (drop_bytes n s) = false.
Proof.
  revert n. induction s as [|d s IH]; intros [|n] H; try done.
  cbn [occurs drop_bytes] in *. apply orb_false_elim in H as [_ H]. by apply IH.
Qed.

(** Up to the first occurrence of a byte there is none. *)
Lemma occurs_take_Index c s m :
  strings.Index s (sep1 c) = Some m -> occurs c (take_bytes m s) = false.
Proof.
  revert m. induction s as [|d s IH]; intros m; [done|].
  rewrite Index_cons, HasPrefix_byte. case_bool_decide as Hd.
  - by intros [= <-].
  - destruct (strings.Index s (sep1 c)) as [k|]; [|done].
    intros [= <-]. cbn [take_bytes occurs]. rewrite bool_decide_false by done.
    by apply IH.
Qed.

Lemma Index_Some_lt s sub m :
  sub <> EmptyString -> strings.Index s sub = Some m -> (m < len s)%nat.
Proof.
  intros Hsub. revert m. induction s as [|d s IH]; intros m.
  - cbn [strings.Index]. destruct sub; [done|]. done.
  - rewrite Index_cons. destruct (strings.HasPrefix _ _).
    + intros [= <-]. simpl. lia.
    + destruct (strings.Index s sub) as [k|]; [|done].
      intros [= <-]. specialize (IH k eq_refl). simpl. lia.
Qed.

Lemma len_drop_bytes_le n s : (len (drop_bytes n s) <= len s - n)%nat.
Proof.
  revert n. induction s as [|d s IH]; intros [|n]; simpl; try lia.
  specialize (IH n). unfold len in *. lia.
Qed.

(** A byte absent from a string is absent from every piece of it. *)
Lemma SplitN_pieces_occurs d s sep n :
  occurs d s = false ->
  Forall (fun p => occurs d p = false) (strings.SplitN s sep n).
Proof.
  revert s. induction n as [|n IH]; intros s H; [constructor|].
  destruct n as [|n]; [by repeat constructor|].
  rewrite SplitN_SS. destruct (strings.Index s sep) as [m|].
  - constructor; [by apply occurs_take_bytes|].
    apply IH. by apply occurs_drop_bytes.
  - by repeat constructor.
Qed.

(** With room for every piece, no piece holds the separator. *)
Lemma SplitN_sepfree c s n :
  (len s < n)%nat ->
  Forall (fun p => occurs c p = false) (strings.SplitN s (sep1 c) n).
Proof.
  revert s. induction n as [|n IH]; intros s Hn; [constructor|].
  destruct n as [|n]; [destruct s; [by repeat constructor|simpl in Hn; lia]|].
  rewrite SplitN_SS. destruct (strings.Index s (sep1 c)) as [m|] eqn:Hi.
  - constructor; [by apply occurs_take_Index|].
    apply IH. pose proof (len_drop_bytes_le (m + len (sep1 c)) s).
    apply Index_Some_lt in Hi; [|done]. simpl in *. lia.
  - repeat constructor. by apply Index_byte_None.
Qed.

Lemma Split_sepfree c s :
  Forall (fun p => occurs c p = false) (strings.Split s (sep1 c)).
Proof. apply SplitN_sepfree. lia. Qed.

(** The first of two or more pieces stops before the separator. *)
Lemma SplitN_head_sepfree c s n x y ys :
  strings.SplitN s (sep1 c) (S (S n)) = x :: y :: ys -> occurs c x = false.
Proof.
  rewrite SplitN_SS. destruct (strings.Index s (sep1 c)) as [m|] eqn:Hi; [|done].
  intros [= <- _]. by apply occurs_take_Index.
Qed.

Lemma Split_head_sepfree c s x xs :
  strings.Split s (sep1 c) = x :: xs -> occurs c x = false.
Proof.
  intros H. pose proof (Split_sepfree c s) as HF. rewrite H in HF.
  by inversion HF.
Qed.

Lemma SplitN_head_free d v c x xs :
  occurs d v = false -> strings.SplitN v (sep1 c) 2 = x :: xs -> occurs d x = false.
Proof.
  intros Hv Hs. pose proof (SplitN_pieces_occurs d v (sep1 c) 2 Hv) as HF.
  rewrite Hs in HF. by inversion HF.
Qed.

Lemma Index_sp_colon a b :
  strings.Index a " :" = None ->
  strings.Index (a +:+ " :" +:+ b) " :" = Some (len a).
Proof.
  induction a as [|c a IH]; intros H; [done|].
  rewrite Index_cons in H.
  destruct (strings.HasPrefix (String c a) " :") eqn:Hp; [done|].
  destruct (strings.Index a " :") eqn:Ha; [done|].
  rewrite app_cons, Index_cons, IH by done.
  replace (strings.HasPrefix (String c (a +:+ " :" +:+ b)) " :") with false; [done|].
  symmetry. cbn [strings.HasPrefix] in *. case_decide; [|done].
  destruct a as [|d a]; [done|]. rewrite app_cons.
  case_decide; [|done]. by destruct a.
Qed.

Lemma drop_sp_colon a b :
  drop_bytes (len a + len " :") (a +:+ " :" +:+ b) = b.
Proof. by rewrite drop_bytes_app. Qed.

(** A line of three segments comes apart at its first two [" :"]; the
    third segment is not looked into. *)
Lemma SplitN3_segments a b c :
  strings.Index a " :" = None -> strings.Index b " :" = None ->
  strings.SplitN (a +:+ " :" +:+ b +:+ " :" +:+ c) " :" 3 = [a; b; c].
Proof.
  intros Ha Hb.
  rewrite SplitN_SS, Index_sp_colon, take_bytes_app, drop_sp_colon by done.
  rewrite SplitN_SS, Index_sp_colon, take_bytes_app, drop_sp_colon by done.
  done.
Qed.

Lemma SplitN3_two_segments a b :
  strings.Index a " :" = None -> strings.Index b " :" = None ->
  strings.SplitN (a +:+ " :" +:+ b) " :" 3 = [a; b].
Proof.
  intros Ha Hb.
  rewrite SplitN_SS, Index_sp_colon, take_bytes_app, drop_sp_colon by done.
  by rewrite SplitN_SS, Hb.
Qed.

Lemma HasPrefix_app_l s t p :
  strings.HasPrefix s p = true -> strings.HasPrefix (s +:+ t) p = true.
Proof.
  revert s. induction p as [|c p IH]; intros s H; [done|].
  destruct s as [|d s]; [done|]. rewrite app_cons.
  cbn [strings.HasPrefix] in *. case_decide; [by apply IH|done].
Qed.

(** ** The framer of [message.go] *)

Lemma parseMiddle_total middle : exists r, MessageGo.parseMiddle middle = Ok r.
Proof. apply parseMiddle_loop_total. Qed.

(** The record [parseMessage] builds from the three segments. *)
Lemma parseMessage_split line s0 s1 s2 :
  strings.HasPrefix line "@" = true ->
  (let split := strings.SplitN line " :" 3 in
   if (length split <? 3)%nat then MessageGo.pad_loop 3 0 split else split)
  = [s0; s1; s2] ->
  exists tags rawType channel username,
    MessageGo.parseTags s0 = Ok tags
    /\ MessageGo.parseMiddle s1 = Ok (rawType, channel, username)
    /\ MessageGo.parseMessage line
       = Ok {| MessageGo.message_RawMessage :=
                 {| MessageGo.RawMessage_Type := MessageGo.parseMessageType rawType;
                    MessageGo.RawMessage_RawType := rawType;
                    MessageGo.RawMessage_Raw := line;
                    MessageGo.RawMessage_Tags := tags;
                    MessageGo.RawMessage_Message := s2 |};
               MessageGo.message_Channel := channel;
               MessageGo.message_Username := username |}.
Proof.
  intros Hat Hsplit. unfold MessageGo.parseMessage. rewrite Hat. cbn [negb].
  cbv zeta in *. rewrite Hsplit. rewrite index_1. cbn [bind].
  destruct (parseTags_total s0) as [tags Ht].
  destruct (parseMiddle_total s1) as [[[rawType channel] username] Hm].
  exists tags, rawType, channel, username.
  split; [done|]. split; [done|].
  rewrite Hm. cbn [bind]. rewrite index_0. cbn [bind]. rewrite Ht. cbn [bind].
  done.
Qed.

Lemma SplitN3_Some line k :
  strings.Index line " :" = Some k ->
  exists s0 s1 s2,
    (let split := strings.SplitN line " :" 3 in
     if (length split <? 3)%nat then MessageGo.pad_loop 3 0 split else split)
    = [s0; s1; s2].
Proof.
  intros Hk. cbv zeta. rewrite SplitN_SS, Hk, SplitN_SS.
  destruct (strings.Index (drop_bytes _ _) " :"); by eexists _, _, _.
Qed.

Lemma parseMessage_returns line :
  strings.HasPrefix line "@" = false \/ strings.Contains line " :" = true ->
  exists m, MessageGo.parseMessage line = Ok m
            /\ MessageGo.RawMessage_Raw (MessageGo.message_RawMessage m) = line.
Proof.
  intros H. destruct (strings.HasPrefix line "@") eqn:Hat.
  - destruct H as [?|[k Hk]%Contains_true]; [done|].
    destruct (SplitN3_Some line k Hk) as (s0 & s1 & s2 & Hs).
    destruct (parseMessage_split line s0 s1 s2 Hat Hs)
      as (tags & rawType & channel & username & _ & _ & ->).
    by eexists.
  - unfold MessageGo.parseMessage. rewrite Hat. by eexists.
Qed.

Lemma parseMessage_segments tags middle body :
  strings.HasPrefix tags "@" = true ->
  strings.Contains tags " :" = false -> strings.Contains middle " :" = false ->
  exists t rawType channel username,
    MessageGo.parseTags tags = Ok t
    /\ MessageGo.parseMiddle middle = Ok (rawType, channel, username)
    /\ MessageGo.parseMessage (tags +:+ " :" +:+ middle +:+ " :" +:+ body)
       = Ok {| MessageGo.message_RawMessage :=
                 {| MessageGo.RawMessage_Type := MessageGo.parseMessageType rawType;
                    MessageGo.RawMessage_RawType := rawType;
                    MessageGo.RawMessage_Raw :=
                      tags +:+ " :" +:+ middle +:+ " :" +:+ body;
                    MessageGo.RawMessage_Tags := t;
                    MessageGo.RawMessage_Message := body |};
               MessageGo.message_Channel := channel;
               MessageGo.message_Username := username |}.
Proof.
  intros Hat Ht%Contains_false Hm%Contains_false.
  apply parseMessage_split; [by apply HasPrefix_app_l|].
  cbv zeta. by rewrite SplitN3_segments.
Qed.

Lemma parseMessage_two_segments tags middle :
  strings.HasPrefix tags "@" = true ->
  strings.Contains tags " :" = false -> strings.Contains middle " :" = false ->
  exists t rawType channel username,
    MessageGo.parseTags tags = Ok t
    /\ MessageGo.parseMiddle middle = Ok (rawType, channel, username)
    /\ MessageGo.parseMessage (tags +:+ " :" +:+ middle)
       = Ok {| MessageGo.message_RawMessage :=
                 {| MessageGo.RawMessage_Type := MessageGo.parseMessageType rawType;
                    MessageGo.RawMessage_RawType := rawType;
                    MessageGo.RawMessage_Raw := tags +:+ " :" +:+ middle;
                    MessageGo.RawMessage_Tags := t;
                    MessageGo.RawMessage_Message := EmptyString |};
               MessageGo.message_Channel := channel;
               MessageGo.message_Username := username |}.
Proof.
  intros Hat Ht%Contains_false Hm%Contains_false.
  apply parseMessage_split; [by apply HasPrefix_app_l|].
  cbv zeta. by rewrite SplitN3_two_segments.
Qed.

Lemma SplitN3_spaces a b c :
  occurs " " a = false -> occurs " " b = false ->
  strings.SplitN (a +:+ " " +:+ b +:+ " " +:+ c) " " 3 = [a; b; c].
Proof.
  intros Ha Hb.
  rewrite SplitN_SS, Index_sep1, take_bytes_app, drop_sep1 by done.
  by rewrite SplitN_SS, Index_sep1, take_bytes_app, drop_sep1.
Qed.

Lemma parseMiddle_user nick host cmd chan :
  occurs " " nick = false -> occurs "!" nick = false ->
  occurs " " host = false -> occurs " " cmd = false ->
  occurs "!" chan = false ->
  MessageGo.parseMiddle
    (nick +:+ "!" +:+ host +:+ " " +:+ cmd +:+ " #" +:+ chan)
  = Ok (cmd, chan, nick).
Proof.
  intros Hn1 Hn2 Hh Hc Hch. unfold MessageGo.parseMiddle.
  change (nick +:+ "!" +:+ host +:+ " " +:+ cmd +:+ " #" +:+ chan)
    with (nick +:+ "!" +:+ (host +:+ " " +:+ cmd +:+ " " +:+ ("#" +:+ chan))).
  rewrite <- (app_assoc' nick "!"), <- (app_assoc' (nick +:+ "!") host).
  rewrite SplitN3_spaces; [|by rewrite !occurs_app, Hn1, Hh|done].
  cbn [MessageGo.parseMiddle_loop]. unfold MessageGo.parseMiddle_step.
  rewrite (decide_False (P := 0%nat = 1%nat)) by done.
  rewrite (Contains_byte "!"), !occurs_app, Hn2. cbn [occurs orb bool_decide].
  rewrite bool_decide_true by done. cbn [orb].
  rewrite app_assoc', SplitN2_sep, index_0 by done. cbn [bind].
  rewrite (decide_True (P := 1%nat = 1%nat)) by done. cbn [bind].
  rewrite (decide_False (P := 2%nat = 1%nat)) by done.
  rewrite (Contains_byte "!"), (Contains_byte "#"), !occurs_app, Hch.
  cbn [occurs orb]. rewrite bool_decide_false by done.
  rewrite bool_decide_true by done. cbn [orb bind]. done.
Qed.

Lemma parseMiddle_server host cmd chan :
  occurs " " host = false -> occurs "!" host = false -> occurs "#" host = false ->
  occurs " " cmd = false -> occurs "!" chan = false ->
  MessageGo.parseMiddle (host +:+ " " +:+ cmd +:+ " #" +:+ chan)
  = Ok (cmd, chan, EmptyString).
Proof.
  intros Hh1 Hh2 Hh3 Hc Hch. unfold MessageGo.parseMiddle.
  change (host +:+ " " +:+ cmd +:+ " #" +:+ chan)
    with (host +:+ " " +:+ cmd +:+ " " +:+ ("#" +:+ chan)).
  rewrite SplitN3_spaces by done.
  cbn [MessageGo.parseMiddle_loop]. unfold MessageGo.parseMiddle_step.
  rewrite (decide_False (P := 0%nat = 1%nat)) by done.
  rewrite (Contains_byte "!"), (Contains_byte "#"), Hh2, Hh3. cbn [bind].
  rewrite (decide_True (P := 1%nat = 1%nat)) by done. cbn [bind].
  rewrite (decide_False (P := 2%nat = 1%nat)) by done.
  rewrite (Contains_byte "!"), (Contains_byte "#"), !occurs_app, Hch.
  cbn [occurs orb]. rewrite bool_decide_false by done.
  rewrite bool_decide_true by done. cbn [orb bind]. done.
Qed.

(** ** JOIN, PART and 353 lines of [message.go]; room state; timestamps; badges on any value *)

Lemma Split_none c s : occurs c s = false -> strings.Split s (sep1 c) = [s].
Proof.
  intros H. unfold strings.Split. destruct (len s) as [|n]; [done|].
  by rewrite SplitN_SS, Index_byte_absent.
Qed.

Lemma Split_two c a b :
  occurs c a = false -> occurs c b = false ->
  strings.Split (a +:+ sep1 c +:+ b) (sep1 c) = [a; b].
Proof.
  intros Ha Hb. apply (Split_Join c [a; b]); [done|].
  by repeat constructor.
Qed.

Lemma parseJoinPart_shape a b c :
  occurs "!" a = false ->
  occurs "!" b = false -> occurs "#" b = false ->
  occurs "!" c = false -> occurs "#" c = false ->
  MessageGo.parseJoinPart (a +:+ "!" +:+ b +:+ "#" +:+ c)
  = Ok (strings.Trim c " ", strings.Trim a " :").
Proof.
  intros Ha Hb1 Hb2 Hc1 Hc2. unfold MessageGo.parseJoinPart. cbv zeta.
  rewrite Split_two; [|done|].
  - rewrite index_1. cbn [bind]. rewrite Split_two by done.
    rewrite index_1. cbn [bind]. by rewrite index_0.
  - rewrite !occurs_app, Hb1, Hc1. done.
Qed.

Lemma parseJoinPart_no_bang text :
  occurs "!" text = false -> MessageGo.parseJoinPart text = Panic IndexOutOfRange.
Proof.
  intros H. unfold MessageGo.parseJoinPart. cbv zeta.
  by rewrite Split_none.
Qed.

Lemma parseJoinPart_no_hash text :
  occurs "#" text = false -> MessageGo.parseJoinPart text = Panic IndexOutOfRange.
Proof.
  intros H. unfold MessageGo.parseJoinPart. cbv zeta.
  pose proof (SplitN_pieces_occurs "#" text "!" (S (len text)) H) as HF.
  fold (strings.Split text "!") in HF.
  destruct (strings.Split text "!") as [|u0 [|u1 us]]; [done|done|].
  rewrite index_1. cbn [bind].
  inversion HF as [|? ? _ HF']; subst. inversion HF' as [|? ? Hu1 _]; subst.
  by rewrite Split_none.
Qed.

Lemma parseNames_shape p0 p1 chan users :
  occurs ":" p0 = false ->
  occurs ":" p1 = false -> occurs "#" p1 = false ->
  occurs ":" chan = false -> occurs "#" chan = false ->
  users <> [] ->
  Forall (fun u => occurs " " u = false /\ occurs ":" u = false) users ->
  MessageGo.parseNames
    (p0 +:+ ":" +:+ p1 +:+ "#" +:+ chan +:+ ":" +:+ strings.Join users " ")
  = Ok (strings.Trim chan " ", users).
Proof.
  intros Hp0 Hp1 Hp1' Hc Hc' Hne Hu. unfold MessageGo.parseNames. cbv zeta.
  assert (occurs ":" (strings.Join users " ") = false) as HJ.
  { apply occurs_Join; [done|]. eapply Forall_impl; [exact Hu|]. by intros ? [_ ?]. }
  assert (strings.Split
            (p0 +:+ ":" +:+ p1 +:+ "#" +:+ chan +:+ ":" +:+ strings.Join users " ") ":"
          = [p0; p1 +:+ "#" +:+ chan; strings.Join users " "]) as ->.
  { rewrite <- (Split_Join ":" [p0; p1 +:+ "#" +:+ chan; strings.Join users " "]).
    - cbn [strings.Join]. by rewrite !app_assoc'.
    - done.
    - repeat constructor; [done| |done].
      rewrite !occurs_app, Hp1, Hc. done. }
  rewrite index_1. cbn [bind]. rewrite Split_two by done.
  rewrite index_1. cbn [bind].
  change (index [p0; p1 +:+ "#" +:+ chan; strings.Join users " "] 2)
    with (Ok (strings.Join users " ") : result string).
  cbn [bind]. rewrite Split_Join; [done|done|].
  eapply Forall_impl; [exact Hu|]. by intros ? [? _].
Qed.

(** The loop over the state tags, entry by entry. *)
Lemma foldl_state_lookup tags ts acc k :
  foldl (Part000.parseRoomState_step tags) acc ts !! k
  = if bool_decide (k ∈ ts)
    then match tags !! k with
         | Some rawValue => Some (strconv.Atoi rawValue).1
         | None => acc !! k
         end
    else acc !! k.
Proof.
  revert acc. induction ts as [|t ts IH]; intros acc.
  - cbn [foldl]. rewrite bool_decide_false; [done|]. apply not_elem_of_nil.
  - cbn [foldl]. rewrite IH. unfold Part000.parseRoomState_step.
    destruct (decide (k = t)) as [->|Hkt].
    + rewrite (bool_decide_true (t ∈ t :: ts)) by (apply elem_of_cons; by left).
      destruct (tags !! t) as [raw|] eqn:Ht.
      * rewrite lookup_insert_eq. by destruct (bool_decide _).
      * by destruct (bool_decide _).
    + destruct (bool_decide (k ∈ ts)) eqn:Hin.
      * apply bool_decide_eq_true in Hin.
        rewrite bool_decide_true by (apply elem_of_cons; by right).
        destruct (tags !! k); [done|].
        destruct (tags !! t); [by rewrite lookup_insert_ne|done].
      * apply bool_decide_eq_false in Hin.
        rewrite bool_decide_false by (by intros [?|?]%elem_of_cons).
        destruct (tags !! t); [by rewrite lookup_insert_ne|done].
Qed.

Lemma state_lookup tags k :
  foldl (Part000.parseRoomState_step tags) ∅ Part000.stateTags !! k
  = if bool_decide (k ∈ Part000.stateTags)
    then (fun rawValue => (strconv.Atoi rawValue).1) <$> tags !! k
    else None.
Proof.
  rewrite foldl_state_lookup, lookup_empty.
  destruct (bool_decide _); [|done]. by destruct (tags !! k).
Qed.

Lemma addState_Tags t m :
  MessageGo.ROOMSTATEMessage_Tags (MessageGo.addState t m)
  = MessageGo.ROOMSTATEMessage_Tags m.
Proof. unfold MessageGo.addState. by destruct (_ !! t). Qed.

Lemma addState_State t m :
  MessageGo.ROOMSTATEMessage_State (MessageGo.addState t m)
  = Part000.parseRoomState_step (MessageGo.ROOMSTATEMessage_Tags m)
      (MessageGo.ROOMSTATEMessage_State m) t.
Proof.
  unfold MessageGo.addState, Part000.parseRoomState_step. by destruct (_ !! t).
Qed.

Lemma addState_Language t m :
  MessageGo.ROOMSTATEMessage_Language (MessageGo.addState t m)
  = MessageGo.ROOMSTATEMessage_Language m.
Proof. unfold MessageGo.addState. by destruct (_ !! t). Qed.

(** [parseState] of [message.go] runs the loop of [part_000] unrolled. *)
Lemma parseState_foldl m :
  MessageGo.ROOMSTATEMessage_State (MessageGo.parseState m)
  = foldl (Part000.parseRoomState_step (MessageGo.ROOMSTATEMessage_Tags m)) ∅
      Part000.stateTags.
Proof.
  unfold MessageGo.parseState. cbv zeta.
  rewrite !addState_State, !addState_Tags. reflexivity.
Qed.





Lemma parseBadges_loop_agree bs acc b :
  Part000.parseBadges_loop bs acc = Ok b ->
  foldl MessageGo.parseBadges_step acc bs = b.
Proof.
  revert acc. induction bs as [|v bs IH]; intros acc H.
  - by injection H.
  - cbn [Part000.parseBadges_loop foldl] in *.
    unfold Part000.parseBadges_step, MessageGo.parseBadges_step in *.
    cbv zeta in H. destruct (strings.SplitN v "/" 2) as [|name [|level rest]].
    + done.
    + done.
    + rewrite index_0, index_1 in H. cbn [bind] in H. by apply IH.
Qed.

Lemma parseBadges_loop_panic bs acc p :
  Part000.parseBadges_loop bs acc = Panic p -> p = IndexOutOfRange.
Proof.
  revert acc. induction bs as [|v bs IH]; intros acc H; [done|].
  cbn [Part000.parseBadges_loop] in H. unfold Part000.parseBadges_step in H.
  cbv zeta in H. destruct (strings.SplitN v "/" 2) as [|name [|level rest]].
  - by injection H.
  - by injection H.
  - rewrite index_0, index_1 in H. cbn [bind] in H. by eapply IH.
Qed.

Lemma parseUser_panic pf m p :
  Part000.parseUser pf m = Panic p -> p = IndexOutOfRange.
Proof.
  unfold Part000.parseUser. cbv zeta. case_decide; [done|].
  destruct (Part000.parseBadges _) eqn:Hb; [done|].
  cbn [bind]. intros [= <-]. by eapply parseBadges_loop_panic.
Qed.

(** ** [ReplaceAll] and the escape; tag blocks on any input *)

Lemma HasPrefix_take s p n :
  strings.HasPrefix (take_bytes n s) p = true -> strings.HasPrefix s p = true.
Proof.
  revert s n. induction p as [|c p IH]; intros s n H; [done|].
  destruct s as [|d s]; [by destruct n|]. destruct n as [|n]; [done|].
  cbn [take_bytes strings.HasPrefix] in *. case_decide; [by eapply IH|done].
Qed.

(** Before the first occurrence of [sub] there is none. *)
Lemma Index_take s sub m :
  sub <> EmptyString ->
  strings.Index s sub = Some m -> strings.Index (take_bytes m s) sub = None.
Proof.
  intros Hsub. revert m. induction s as [|d s IH]; intros m.
  - destruct sub; [done|]. done.
  - rewrite Index_cons. destruct (strings.HasPrefix (String d s) sub) eqn:Hp.
    + intros [= <-]. by destruct sub.
    + destruct (strings.Index s sub) as [k|] eqn:Hk; [|done].
      intros [= <-]. cbn [take_bytes]. rewrite Index_cons, (IH k eq_refl).
      destruct (strings.HasPrefix (String d (take_bytes k s)) sub) eqn:Hp'; [|done].
      apply (HasPrefix_take (String d s) sub (S k)) in Hp'. congruence.
Qed.

(** Gluing two escape-free texts with a space makes no escape. *)
Lemma Index_escape_glue a b :
  strings.Index a "\s" = None -> strings.Index b "\s" = None ->
  strings.Index (a +:+ " " +:+ b) "\s" = None.
Proof.
  intros Ha Hb. induction a as [|c a IH].
  - rewrite app_empty_l. change (" " +:+ b) with (String " " b).
    rewrite Index_cons, Hb. done.
  - rewrite Index_cons in Ha.
    destruct (strings.HasPrefix (String c a) "\s") eqn:Hp; [done|].
    destruct (strings.Index a "\s") eqn:Hi; [done|].
    rewrite app_cons, Index_cons, IH by done.
    replace (strings.HasPrefix (String c (a +:+ " " +:+ b)) "\s") with false; [done|].
    symmetry. cbn [strings.HasPrefix] in *. case_decide; [|done].
    destruct a as [|d a]; [done|]. rewrite app_cons.
    case_decide; [|done]. by destruct a.
Qed.

Lemma Replace_no_escape n s :
  (len s <= n)%nat ->
  strings.Index (strings.Replace s "\s" " " n) "\s" = None.
Proof.
  revert s. induction n as [|n IH]; intros s Hn.
  - destruct s; [done|simpl in Hn; lia].
  - cbn [strings.Replace]. destruct (strings.Index s "\s") as [j|] eqn:Hj; [|done].
    apply Index_escape_glue; [by apply Index_take|].
    apply IH. pose proof (len_drop_bytes_le (j + len "\s") s).
    apply Index_Some_lt in Hj; [|done]. simpl in *. lia.
Qed.

Lemma ReplaceAll_no_escape s :
  strings.Contains (strings.ReplaceAll s "\s" " ") "\s" = false.
Proof. apply Contains_false, Replace_no_escape. lia. Qed.

Lemma parseTags_step_clean tags v tags' :
  tags_clean tags -> occurs ";" v = false ->
  MessageGo.parseTags_step tags v = Ok tags' -> tags_clean tags'.
Proof.
  intros Hc Hv. unfold MessageGo.parseTags_step. cbv zeta.
  pose proof (SplitN_pieces_occurs ";" v "=" 2 Hv) as HF.
  destruct (strings.SplitN v "=" 2) as [|k0 rest] eqn:Hs; [done|].
  rewrite index_0. cbn [bind]. intros [= <-] k w.
  inversion HF as [|? ? Hk0 Hrest]; subst.
  rewrite lookup_insert. case_decide as Hk; [|by apply Hc].
  subst k0. intros [= <-]. split; [done|]. split.
  - destruct rest as [|y ys].
    + rewrite SplitN_SS in Hs. destruct (strings.Index v "=") eqn:Hi; [done|].
      injection Hs as <-. by apply Index_byte_None.
    + by eapply SplitN_head_sepfree.
  - destruct rest as [|y ys]; [done|]. by inversion Hrest.
Qed.

Lemma parseTags_loop_clean vs tags tags' :
  tags_clean tags -> Forall (fun v => occurs ";" v = false) vs ->
  MessageGo.parseTags_loop vs tags = Ok tags' -> tags_clean tags'.
Proof.
  revert tags. induction vs as [|v vs IH]; intros tags Hc Hvs H.
  - by injection H as <-.
  - cbn [MessageGo.parseTags_loop] in H.
    destruct (MessageGo.parseTags_step tags v) as [t|] eqn:Hstep; [|done].
    cbn [bind] in H. inversion Hvs; subst.
    eapply IH; [|done|exact H]. by eapply parseTags_step_clean.
Qed.

Lemma parseTags_clean raw :
  exists tags, MessageGo.parseTags raw = Ok tags /\ tags_clean tags.
Proof.
  destruct (parseTags_total raw) as [tags Ht]. exists tags. split; [done|].
  unfold MessageGo.parseTags in Ht. cbv zeta in Ht.
  eapply parseTags_loop_clean; [|apply Split_sepfree|exact Ht].
  intros k v Hk. by rewrite lookup_empty in Hk.
Qed.

(** ** Emotes on any value; the fallback body; PING and PONG; lines without parameters; the table of [init] *)

Lemma for_each_length {A B} (f : A -> result B) xs ys :
  for_each f xs = Ok ys -> length ys = length xs.
Proof.
  revert ys. induction xs as [|x xs IH]; intros ys H.
  - by injection H as <-.
  - cbn [for_each] in H. destruct (f x); [|done]. cbn [bind] in H.
    destruct (for_each f xs); [|done]. injection H as <-.
    cbn [length]. f_equal. by apply IH.
Qed.

Lemma Part000_step_inv runes v e :
  Part000.parseEmotes_step runes v = Ok e ->
  1 <= Part000.Emote_Count e /\ occurs ":" (Part000.Emote_ID e) = false
  /\ (occurs "/" v = false -> occurs "/" (Part000.Emote_ID e) = false).
Proof.
  unfold Part000.parseEmotes_step. cbv zeta. intros H.
  destruct (strings.SplitN v ":" 2) as [|id [|ranges rest]] eqn:Hs; [done|done|].
  rewrite index_1, index_0 in H. cbn [bind] in H. binds.
  cbn [Part000.Emote_Count Part000.Emote_ID]. split; [lia|].
  split; [by eapply SplitN_head_sepfree|].
  intros Hv. by eapply SplitN_head_free.
Qed.

Lemma MessageGo_step_inv runes v e :
  MessageGo.parseEmotes_step runes v = Ok e ->
  1 <= MessageGo.Emote_Count e /\ occurs ":" (MessageGo.Emote_ID e) = false
  /\ (occurs "/" v = false -> occurs "/" (MessageGo.Emote_ID e) = false).
Proof.
  unfold MessageGo.parseEmotes_step. cbv zeta. intros H.
  destruct (strings.SplitN v ":" 2) as [|id [|ranges rest]] eqn:Hs; [done|done|].
  rewrite index_1, index_0 in H. cbn [bind] in H. binds.
  cbn [MessageGo.Emote_Count MessageGo.Emote_ID]. split; [lia|].
  split; [by eapply SplitN_head_sepfree|].
  intros Hv. by eapply SplitN_head_free.
Qed.

Lemma Split_nonempty s sep : strings.Split s sep <> [].
Proof.
  unfold strings.Split. by destruct (SplitN_S_nonempty s sep (len s)) as (x & xs & ->).
Qed.

Lemma parseRawMessage_loop_skip pre rest :
  Forall (fun v => occurs "#" v = true) pre ->
  Part000.parseRawMessage_loop (pre ++ rest) = Part000.parseRawMessage_loop rest.
Proof.
  induction pre as [|v pre IH]; intros H; [done|].
  inversion H as [|? ? Hv Hpre]; subst.
  cbn [app Part000.parseRawMessage_loop].
  rewrite (Contains_byte "#"), Hv. cbn [negb]. by apply IH.
Qed.

Lemma first_word p0 :
  exists w, index (strings.Split p0 " ") 0 = Ok w /\ occurs " " w = false.
Proof.
  destruct (strings.Split p0 " ") as [|w ws] eqn:Hs.
  - by destruct (Split_nonempty p0 " ").
  - exists w. split; [done|]. by eapply Split_head_sepfree.
Qed.

Lemma Split_first_word w rest :
  occurs " " w = false ->
  index (strings.Split (w +:+ " " +:+ rest) " ") 0 = Ok w.
Proof.
  intros Hw. unfold strings.Split.
  assert (len (w +:+ " " +:+ rest) = S (len w + len rest)) as ->
    by (rewrite !len_app; simpl; lia).
  by rewrite SplitN_SS, Index_sep1, take_bytes_app.
Qed.

Section NoParams.
Variable pf : platform.
Variable pmt : string -> Part000.MessageType.
Variable m : Part000.ircMessage.
Hypothesis Hm : Part000.ircMessage_Params m = [].

Ltac user_first :=
  cbv zeta; destruct (Part000.parseUser pf m) as [u|p] eqn:Hu;
  [cbn [bind]; rewrite Hm; done
  |cbn [bind]; by rewrite (parseUser_panic _ _ _ Hu)].

Lemma parseWhisperMessage_no_params :
  Part000.parseWhisperMessage pf pmt m = Panic IndexOutOfRange.
Proof. unfold Part000.parseWhisperMessage. user_first. Qed.

Lemma parsePrivateMessage_no_params :
  Part000.parsePrivateMessage pf pmt m = Panic IndexOutOfRange.
Proof. unfold Part000.parsePrivateMessage. user_first. Qed.

Lemma parseUserNoticeMessage_no_params :
  Part000.parseUserNoticeMessage pf pmt m = Panic IndexOutOfRange.
Proof. unfold Part000.parseUserNoticeMessage. user_first. Qed.

Lemma parseUserStateMessage_no_params :
  Part000.parseUserStateMessage pf pmt m = Panic IndexOutOfRange.
Proof. unfold Part000.parseUserStateMessage. user_first. Qed.

Lemma parseClearChatMessage_no_params :
  Part000.parseClearChatMessage pmt m = Panic IndexOutOfRange.
Proof. unfold Part000.parseClearChatMessage. cbv zeta. by rewrite Hm. Qed.

Lemma parseRoomStateMessage_no_params :
  Part000.parseRoomStateMessage pmt m = Panic IndexOutOfRange.
Proof. unfold Part000.parseRoomStateMessage. cbv zeta. by rewrite Hm. Qed.

Lemma parseNoticeMessage_no_params :
  Part000.parseNoticeMessage pmt m = Panic IndexOutOfRange.
Proof. unfold Part000.parseNoticeMessage. cbv zeta. by rewrite Hm. Qed.
End NoParams.

Ltac in_list H :=
  repeat (apply elem_of_cons in H as [H|H]; [subst|]);
  [..|by apply elem_of_nil in H].

Section EntryPointEdges.
Variable pf : platform.
Variable parseIRCMessage : string -> Part000.ircMessage * bool.

Lemma ParseMessage_no_params line :
  (parseIRCMessage line).2 = false ->
  Part000.ircMessage_Command (parseIRCMessage line).1 ∈ channel_commands ->
  Part000.ircMessage_Params (parseIRCMessage line).1 = [] ->
  Part000.ParseMessage pf parseIRCMessage line = Panic IndexOutOfRange.
Proof.
  unfold Part000.ParseMessage. destruct (parseIRCMessage line) as [m err].
  cbn [fst snd]. intros -> Hc Hp. unfold channel_commands in Hc.
  in_list Hc; rewrite Hc.
  - apply (parseWhisperMessage_no_params pf _ m Hp).
  - apply (parsePrivateMessage_no_params pf _ m Hp).
  - apply (parseClearChatMessage_no_params _ m Hp).
  - apply (parseRoomStateMessage_no_params _ m Hp).
  - apply (parseUserNoticeMessage_no_params pf _ m Hp).
  - apply (parseUserStateMessage_no_params pf _ m Hp).
  - apply (parseNoticeMessage_no_params _ m Hp).
Qed.

Lemma ParseMessage_guarded line :
  (parseIRCMessage line).2 = true
  \/ Part000.ircMessage_Command (parseIRCMessage line).1 ∈ guarded_commands ->
  exists r, Part000.ParseMessage pf parseIRCMessage line = Ok r.
Proof.
  unfold Part000.ParseMessage. destruct (parseIRCMessage line) as [m err].
  cbn [fst snd]. intros [->|Hc]; [by eexists|].
  destruct err; [by eexists|]. unfold guarded_commands in Hc.
  in_list Hc; rewrite Hc.
  - by eexists.
  - by eexists.
  - by eexists.
  - apply parseNamesMessage_returns.
  - apply parsePingMessage_returns.
  - apply parsePongMessage_returns.
Qed.
End EntryPointEdges.

Lemma dispatch_kind_inj c1 c2 :
  dispatch_kind c1 <> Part000.UNSET ->
  dispatch_kind c1 = dispatch_kind c2 -> c1 = c2.
Proof.
  unfold dispatch_kind, dispatch_table. cbn [assoc].
  repeat (case_decide; [subst c1; cbv [default from_option id]; intros _;
    repeat (case_decide; [subst c2; cbv beta iota; congruence|]);
    cbv beta iota; congruence|]).
  cbv [default from_option]. done.
Qed.

Lemma MessageType_value_inj t1 t2 :
  Part000.MessageType_value t1 = Part000.MessageType_value t2 -> t1 = t2.
Proof. destruct t1, t2; cbn; intros H; try reflexivity; discriminate H. Qed.

(** ** User names; emote sets; CLEARCHAT of [message.go] *)

Lemma map_bytes_app f s t :
  strings.map_bytes f (s +:+ t) = strings.map_bytes f s +:+ strings.map_bytes f t.
Proof.
  induction s as [|c s IH]; [done|].
  rewrite app_cons. cbn [strings.map_bytes]. by rewrite IH, app_cons.
Qed.

Lemma lower_byte_space c :
  bool_decide (strings.lower_byte c = " "%char) = bool_decide (c = " "%char).
Proof. destruct c as [[] [] [] [] [] [] [] []]; vm_compute; reflexivity. Qed.

Lemma occurs_space_lower s :
  occurs " " (strings.map_bytes strings.lower_byte s) = occurs " " s.
Proof.
  induction s as [|c s IH]; [done|].
  cbn [strings.map_bytes occurs]. by rewrite lower_byte_space, IH.
Qed.

Lemma ToLower_ascii lower s :
  strings.isASCII s = true ->
  strings.ToLower lower s = strings.map_bytes strings.lower_byte s.
Proof. intros H. unfold strings.ToLower. by rewrite H. Qed.

(** [Replace(s, " ", "", 1)]: the first space goes, the rest stays. *)
Lemma Replace_first_space a b :
  occurs " " a = false ->
  strings.Replace (a +:+ " " +:+ b) " " EmptyString 1 = a +:+ b.
Proof.
  intros Ha. rewrite Replace_unfold, Index_sep1, take_bytes_app, drop_sep1 by done.
  done.
Qed.

Lemma Replace_no_space a :
  occurs " " a = false -> strings.Replace a " " EmptyString 1 = a.
Proof. intros Ha. by rewrite Replace_unfold, Index_byte_absent. Qed.

Section UserName.
Variable pf : platform.

(** The badges of the record do not matter for the name. *)
Lemma Part000_parseUser_Name m u :
  Part000.parseUser pf m = Ok u ->
  Part000.User_Name u
  = let name := Part000.Source_Username (Part000.ircMessage_Source m) in
    let displayName := tag (Part000.ircMessage_Tags m) "display-name" in
    if bool_decide (name = EmptyString)
       && negb (bool_decide (displayName = EmptyString))
    then strings.Replace (strings.ToLower (ToLower_table pf) displayName)
           " " EmptyString 1
    else name.
Proof. unfold Part000.parseUser. cbv zeta. intros H. binds; done. Qed.
End UserName.

Lemma MessageGo_emote_sets pf m :
  (MessageGo.parseUSERSTATEMessage pf m).2.(MessageGo.USERSTATEMessage_EmoteSets)
  = match MessageGo.Tags_of m !! "emote-sets" with
    | Some rawEmoteSets => strings.Split rawEmoteSets ","
    | None => []
    end.
Proof.
  unfold MessageGo.parseUSERSTATEMessage. cbv zeta.
  unfold MessageGo.parseChannelMessage, MessageGo.Tags_of.
  cbn [MessageGo.channelMessage_RawMessage].
  by destruct (_ !! "emote-sets").
Qed.

Lemma Part000_emote_sets pf pmt m r :
  Part000.parseUserStateMessage pf pmt m = Ok (Part000.MUserState r) ->
  Part000.UserStateMessage_EmoteSets r
  = match Part000.ircMessage_Tags m !! "emote-sets" with
    | Some rawEmoteSets => strings.Split rawEmoteSets ","
    | None => []
    end.
Proof.
  unfold Part000.parseUserStateMessage. cbv zeta. intros H. binds. done.
Qed.

Lemma parseCLEARCHATMessage_fields m :
  let c := MessageGo.parseCLEARCHATMessage m in
  MessageGo.CLEARCHATMessage_TargetUsername c
  = MessageGo.RawMessage_Message (MessageGo.message_RawMessage m)
  /\ MessageGo.RawMessage_Message
       (MessageGo.chatMessage_RawMessage (MessageGo.CLEARCHATMessage_chatMessage c))
     = EmptyString
  /\ MessageGo.RawMessage_Raw
       (MessageGo.chatMessage_RawMessage (MessageGo.CLEARCHATMessage_chatMessage c))
     = MessageGo.RawMessage_Raw (MessageGo.message_RawMessage m)
  /\ MessageGo.channelMessage_Channel
       (MessageGo.roomMessage_channelMessage
          (MessageGo.chatMessage_roomMessage (MessageGo.CLEARCHATMessage_chatMessage c)))
     = MessageGo.message_Channel m.
Proof.
  cbv zeta. unfold MessageGo.parseCLEARCHATMessage, MessageGo.parseChatMessage.
  destruct (strconv.ParseInt _) as [i err]. done.
Qed.

(** ** The raw line in every record *)

Section RawKept.
Variable pf : platform.
Variable pmt : string -> Part000.MessageType.

Lemma parseWhisperMessage_raw : raw_ok (Part000.parseWhisperMessage pf pmt).
Proof. intros m r H. unfold Part000.parseWhisperMessage in H. binds. done. Qed.
Lemma parsePrivateMessage_raw : raw_ok (Part000.parsePrivateMessage pf pmt).
Proof. intros m r H. unfold Part000.parsePrivateMessage in H. cbv zeta in H. binds; done. Qed.
Lemma parseClearChatMessage_raw : raw_ok (Part000.parseClearChatMessage pmt).
Proof. intros m r H. unfold Part000.parseClearChatMessage in H. binds; done. Qed.
Lemma parseRoomStateMessage_raw : raw_ok (Part000.parseRoomStateMessage pmt).
Proof. intros m r H. unfold Part000.parseRoomStateMessage in H. binds; done. Qed.
Lemma parseUserNoticeMessage_raw : raw_ok (Part000.parseUserNoticeMessage pf pmt).
Proof. intros m r H. unfold Part000.parseUserNoticeMessage in H. binds; done. Qed.
Lemma parseUserStateMessage_raw : raw_ok (Part000.parseUserStateMessage pf pmt).
Proof. intros m r H. unfold Part000.parseUserStateMessage in H. binds; done. Qed.
Lemma parseNoticeMessage_raw : raw_ok (Part000.parseNoticeMessage pmt).
Proof. intros m r H. unfold Part000.parseNoticeMessage in H. binds; done. Qed.
Lemma parseUserJoinMessage_raw : raw_ok (Part000.parseUserJoinMessage pmt).
Proof. intros m r H. unfold Part000.parseUserJoinMessage in H. binds; done. Qed.
Lemma parseUserPartMessage_raw : raw_ok (Part000.parseUserPartMessage pmt).
Proof. intros m r H. unfold Part000.parseUserPartMessage in H. binds; done. Qed.
Lemma parseReconnectMessage_raw : raw_ok (Part000.parseReconnectMessage pmt).
Proof. intros m r H. unfold Part000.parseReconnectMessage in H. binds; done. Qed.
Lemma parseNamesMessage_raw : raw_ok (Part000.parseNamesMessage pmt).
Proof. intros m r H. unfold Part000.parseNamesMessage in H. cbv zeta in H.
  repeat case_match; binds; done. Qed.
Lemma parsePingMessage_raw : raw_ok (Part000.parsePingMessage pmt).
Proof. intros m r H. unfold Part000.parsePingMessage in H. binds; done. Qed.
Lemma parsePongMessage_raw : raw_ok (Part000.parsePongMessage pmt).
Proof. intros m r H. unfold Part000.parsePongMessage in H. binds; done. Qed.
End RawKept.

Section EntryPointRaw.
Variable pf : platform.
Variable parseIRCMessage : string -> Part000.ircMessage * bool.

Lemma ParseMessage_raw line r :
  Part000.ParseMessage pf parseIRCMessage line = Ok r ->
  GetRaw r = Part000.ircMessage_Raw (parseIRCMessage line).1
  /\ GetRawType r = Part000.ircMessage_Command (parseIRCMessage line).1.
Proof.
  unfold Part000.ParseMessage. destruct (parseIRCMessage line) as [m err]. cbn [fst].
  destruct err; [by intros [= <-]|].
  unfold Part000.messageTypeMap. cbn [list_to_map foldr fst snd uncurry].
  repeat (rewrite lookup_insert; case_decide;
    [ cbn [Part000.Parser];
      first [ apply parseWhisperMessage_raw | apply parsePrivateMessage_raw
            | apply parseClearChatMessage_raw | apply parseRoomStateMessage_raw
            | apply parseUserNoticeMessage_raw | apply parseUserStateMessage_raw
            | apply parseNoticeMessage_raw | apply parseUserJoinMessage_raw
            | apply parseUserPartMessage_raw | apply parseReconnectMessage_raw
            | apply parseNamesMessage_raw | apply parsePingMessage_raw
            | apply parsePongMessage_raw ] |]).
  rewrite lookup_empty. by intros [= <-].
Qed.
End EntryPointRaw.

(** * The claims *)

(** C1 (defect found). The specification wants the entry point to return a
    record for every line and never to abort. The code aborts: [parseMessage]
    of [message.go] pads a tagged line that has no [" :"] separator to two
    segments only and then reads the third; [parseBadges] of [part_000] reads
    the level of a badge that has no ['/']; both [parseEmotes] read the ranges
    of a group that has no [':']. *)
Theorem C1_decode_aborts :
  (forall line,
     strings.HasPrefix line "@" = true ->
     strings.Index line " :" = None ->
     MessageGo.parseMessage line = Panic IndexOutOfRange)
  /\ Part000.parseBadges "subscriber" = Panic IndexOutOfRange
  /\ (forall pf,
     Part000.parsePrivateMessage pf (Part000.parseMessageType pf)
       (framed "PRIVMSG" {[ "badges" := "subscriber" ]} ["#c"; "hi"])
     = Panic IndexOutOfRange)
  /\ (forall pf, Part000.parseEmotes pf "25" "Kappa" = Panic IndexOutOfRange)
  /\ (forall pf,
     MessageGo.parseEmotes pf (legacy_message {[ "emotes" := "25" ]} "Kappa")
     = Panic IndexOutOfRange).
Proof.
  split; [apply parseMessage_short|].
  repeat split; intros; vm_compute; reflexivity.
Qed.

Lemma C1_decode_aborts_witness :
  MessageGo.parseMessage "@foo" = Panic IndexOutOfRange.
Proof.
  destruct C1_decode_aborts as [H _].
  apply (H "@foo"); reflexivity.
Defined.

(** C2, as stated, fails on [message.go]: a tagged PING line decodes to
    kind Unset there, while the dispatch table sends PING to Ping. *)
Lemma C2_counterexample :
  (let* m := MessageGo.parseMessage "@x=1 :tmi.twitch.tv PING" in
   Ok (MessageGo.RawMessage_RawType (MessageGo.message_RawMessage m),
       MessageGo.RawMessage_Type (MessageGo.message_RawMessage m)))
  = Ok ("PING", MessageGo.UNSET)
  /\ dispatch_kind "PING" = Part000.PING.
Proof. split; vm_compute; reflexivity. Qed.

(** C2 (amended). In [part_000], whatever the framer returns for a line, a
    record that [ParseMessage] produces has the kind the dispatch table
    gives for the command token (353 is Names), and Unset for every token
    outside the table; a record is produced whenever the framed line is
    [decodable], and always for a token outside the table. In [message.go],
    the kind of a decoded line is the entry of the seven-token table
    (PRIVMSG, WHISPER, CLEARCHAT, NOTICE, ROOMSTATE, USERSTATE, USERNOTICE)
    for the command token and Unset for every other token; on those seven
    tokens the two tables agree. *)
Theorem C2_dispatch :
  (forall pf framer line,
     (forall r, Part000.ParseMessage pf framer line = Ok r ->
        Part000.GetType r
        = dispatch_kind (Part000.ircMessage_Command (framer line).1))
     /\ (decodable pf (framer line).1 = true ->
         exists r, Part000.ParseMessage pf framer line = Ok r)
     /\ (assoc (Part000.ircMessage_Command (framer line).1) dispatch_table = None ->
         exists raw, Part000.ParseMessage pf framer line = Ok (Part000.MRaw raw)
                     /\ Part000.RawMessage_Type raw = Part000.UNSET
                     /\ Part000.RawMessage_Raw raw
                        = Part000.ircMessage_Raw (framer line).1))
  /\ (forall line m, MessageGo.parseMessage line = Ok m ->
        MessageGo.RawMessage_Type (MessageGo.message_RawMessage m)
        = default MessageGo.UNSET
            (legacy_assoc
               (MessageGo.RawMessage_RawType (MessageGo.message_RawMessage m))
               legacy_table))
  /\ (forall cmd t, legacy_assoc cmd legacy_table = Some t ->
        MessageGo.MessageType_value t
        = Part000.MessageType_value (dispatch_kind cmd)).
Proof.
  split; [|split].
  - intros pf framer line. split; [|split].
    + intros r. apply (ParseMessage_kind pf framer line r).
    + apply (ParseMessage_returns pf framer line).
    + apply (ParseMessage_unsupported pf framer line).
  - intros line m H. rewrite <- MessageGo_parseMessageType_table.
    by apply (parseMessage_kind line).
  - apply MessageGo_kind_agrees.
Qed.

Lemma C2_dispatch_witness :
  (exists r, Part000.ParseMessage sample_platform (fun _ => (sample_privmsg, false))
               (Part000.ircMessage_Raw sample_privmsg) = Ok r
             /\ Part000.GetType r = Part000.PRIVMSG)
  /\ (exists raw, Part000.ParseMessage sample_platform
                    (fun _ => (framed "CAP" ∅ ["*"; "ACK"], false)) "CAP * ACK"
                  = Ok (Part000.MRaw raw)
                  /\ Part000.RawMessage_Type raw = Part000.UNSET)
  /\ (forall m, MessageGo.parseMessage "@slow=10 :tmi.twitch.tv ROOMSTATE #gempir" = Ok m ->
        MessageGo.RawMessage_Type (MessageGo.message_RawMessage m)
        = default MessageGo.UNSET
            (legacy_assoc
               (MessageGo.RawMessage_RawType (MessageGo.message_RawMessage m))
               legacy_table))
  /\ MessageGo.MessageType_value MessageGo.NOTICE
     = Part000.MessageType_value (dispatch_kind "NOTICE").
Proof.
  destruct C2_dispatch as (H1 & H2 & H3).
  split; [|split; [|split]].
  - destruct (H1 sample_platform (fun _ => (sample_privmsg, false))
                (Part000.ircMessage_Raw sample_privmsg)) as (Hk & Hr & _).
    destruct (Hr eq_refl) as [r Hr']. exists r. split; [exact Hr'|].
    rewrite (Hk r Hr'). reflexivity.
  - destruct (H1 sample_platform (fun _ => (framed "CAP" ∅ ["*"; "ACK"], false))
                "CAP * ACK") as (_ & _ & Hu).
    destruct (Hu eq_refl) as (raw & Hr & Ht & _). exists raw. by split.
  - intros m. apply H2.
  - apply (H3 "NOTICE" MessageGo.NOTICE). reflexivity.
Defined.

(** C3, as stated, fails: [parseTags] stores the value of [foo=a\sb]
    unchanged, backslash and all. *)
Lemma C3_counterexample :
  MessageGo.parseTags "@foo=a\sb" = Ok {[ "foo" := "a\sb" ]}
  /\ MessageGo.parseTags "@foo=a\sb" <> Ok {[ "foo" := "a b" ]}.
Proof.
  assert (MessageGo.parseTags "@foo=a\sb" = Ok {[ "foo" := "a\sb" ]}) as H
    by (vm_compute; reflexivity).
  split; [exact H|]. rewrite H. intros E.
  apply (f_equal (fun r : result (gmap string string) =>
                    match r with Ok m => m !! "foo" | Panic _ => None end)) in E.
  rewrite !lookup_singleton_eq in E. discriminate E.
Qed.

(** C3 (amended). For every tag block ["@" entry ";" entry ...] whose
    entries are [name] or [name "=" value] (names free of [';'] and ['='],
    values free of [';']), [parseTags] strips the leading ['@'], splits the
    entries on [';'] and each entry on its first ['='], and maps every name
    to its value exactly as written (no escape is applied; an entry with no
    ['='] maps to the empty value); when a name occurs more than once its
    last entry decides. The escapes are applied afterwards, by the
    USERNOTICE decoder of [message.go], to the fields it derives and not to
    the tag map: once its emote sub-decoder has returned,
    [parseUSERNOTICEMessage] returns a record whose tag map is the one of
    the message, unchanged; whose parameter bag holds, for each tag with
    ["msg-param"] in its name, the value with every [\s] replaced by a space
    (then coerced by name) and nothing else; and whose system message is the
    [system-msg] value with every [\s] replaced by a space, then every [\n]
    removed, then trimmed by [TrimSpace] (for an all-ASCII value: tab, line
    feed, vertical tab, form feed, carriage return and space are cut off at
    both ends), and is empty when the tag is absent. *)
Theorem C3_parseTags_raw :
  (forall es : list (string * option string),
     es <> [] ->
     Forall entry_ok es ->
     MessageGo.parseTags (render_tags es) = Ok (tags_of_entries es)
     /\ forall pre k v rest,
          es = pre ++ (k, v) :: rest ->
          Forall (fun e => e.1 <> k) rest ->
          tags_of_entries es !! k = Some (default EmptyString v))
  /\ (forall pf m emotes,
     MessageGo.parseEmotes pf m = Ok emotes ->
     exists u r, MessageGo.parseUSERNOTICEMessage pf m = Ok (u, r)
       /\ USERNOTICE_tags r = MessageGo.Tags_of m
       /\ (forall k, MessageGo.USERNOTICEMessage_MsgParams r !! k
                     = bag_entry (MessageGo.Tags_of m) k)
       /\ MessageGo.USERNOTICEMessage_SystemMsg r =
            match MessageGo.Tags_of m !! "system-msg" with
            | None => EmptyString
            | Some raw =>
                strings.TrimSpace (TrimSpace_unicode pf)
                  (strings.ReplaceAll (strings.ReplaceAll raw "\s" " ")
                     "\n" EmptyString)
            end
       /\ (forall raw,
             MessageGo.Tags_of m !! "system-msg" = Some raw ->
             strings.isASCII raw = true ->
             MessageGo.USERNOTICEMessage_SystemMsg r =
             strings.Trim
               (strings.ReplaceAll (strings.ReplaceAll raw "\s" " ")
                  "\n" EmptyString)
               strings.asciiSpace)).
Proof.
  split.
  - intros es Hne Hes. split; [by apply parseTags_entries|].
    intros pre k v rest -> Hrest. by apply tags_of_entries_last.
  - intros pf m emotes He.
    destruct (MessageGo_usernotice pf m emotes He) as (u & r & Hr & HT & Hb & Hs).
    exists u, r. repeat (split; [assumption|]).
    intros raw Hraw Hascii. rewrite Hs, Hraw. by apply system_msg_ascii.
Qed.

Lemma C3_parseTags_raw_witness :
  (MessageGo.parseTags "@foo=a\sb;mod;foo=c=d"
   = Ok (tags_of_entries [("foo", Some "a\sb"); ("mod", None); ("foo", Some "c=d")])
   /\ tags_of_entries [("foo", Some "a\sb"); ("mod", None); ("foo", Some "c=d")] !! "mod"
      = Some EmptyString)
  /\ (exists u r,
     MessageGo.parseUSERNOTICEMessage sample_platform
       (legacy_message sample_resub_tags EmptyString) = Ok (u, r)
     /\ USERNOTICE_tags r !! "system-msg"
        = Some "\sann\ssubscribed\sfor\s6\smonths!\n"
     /\ MessageGo.USERNOTICEMessage_MsgParams r !! "msg-param-sub-plan-name"
        = Some (MessageGo.PString "Channel Subscription")
     /\ MessageGo.USERNOTICEMessage_MsgParams r !! "msg-param-months"
        = Some (MessageGo.PInt 6)
     /\ MessageGo.USERNOTICEMessage_MsgParams r !! "system-msg" = None
     /\ MessageGo.USERNOTICEMessage_SystemMsg r = "ann subscribed for 6 months!").
Proof.
  destruct C3_parseTags_raw as [HA HB]. split.
  - assert (Forall entry_ok [("foo", Some "a\sb"); ("mod", None); ("foo", Some "c=d")]) as Hes.
    { repeat constructor; cbn; by intros ? [= <-]. }
    destruct (HA [("foo", Some "a\sb"); ("mod", None); ("foo", Some "c=d")]
                ltac:(discriminate) Hes) as [H1 H2].
    split; [exact H1|].
    apply (H2 [("foo", Some "a\sb")] "mod" None [("foo", Some "c=d")] eq_refl).
    repeat constructor. cbn. discriminate.
  - assert (MessageGo.parseEmotes sample_platform
              (legacy_message sample_resub_tags EmptyString) = Ok []) as He
      by (vm_compute; reflexivity).
    destruct (HB sample_platform (legacy_message sample_resub_tags EmptyString) [] He)
      as (u & r & Hr & HT & Hb & _ & Hs).
    exists u, r. split; [exact Hr|].
    rewrite HT, !Hb.
    rewrite (Hs "\sann\ssubscribed\sfor\s6\smonths!\n")
      by (vm_compute; reflexivity).
    repeat split; vm_compute; reflexivity.
Defined.

(** C4, as stated, fails: with a first range that runs past the rune slice
    of the body, spare capacity included, the decoder produces no emote at
    all, it panics on the slice; so it does, whatever the capacity, with a
    range that ends before it starts. *)
Lemma C4_counterexample :
  Part000.parseEmotes sample_platform "25:100-104" "Kappa" = Panic SliceOutOfRange
  /\ (forall pf, Part000.parseEmotes pf "25:4-2" "Kappa" = Panic SliceOutOfRange).
Proof. split; [|intros pf]; vm_compute; reflexivity. Qed.

(** C4 (amended). For every emotes tag value made of ['/']-separated groups
    [emoteID ":" first "-" last "," first "-" last ...] (emoteID free of
    ['/'] and [':'], offsets in decimal) and every body whose codepoint
    sequence contains the first range of every group
    ([first <= last + 1 <= number of codepoints]), [parseEmotes] of
    [part_000] returns exactly one Emote per group, in order: its Name is the
    body's codepoints [first .. last] (both ends included) re-encoded, its
    ID is the emoteID, its Count is 1 plus the number of additional ranges. *)
Theorem C4_emote_groups (pf : platform) (body : string) (gs : list emote_group) :
  Z.of_nat (len body) < 2 ^ 63 ->
  Forall (fun g => group_id_ok g /\
            (group_first g <= S (group_last g) <= length (utf8.decode body))%nat) gs ->
  Part000.parseEmotes pf (render_emotes gs) body = Ok (Part000_emote body <$> gs)
  /\ length (Part000_emote body <$> gs) = length gs.
Proof.
  intros Hlen Hgs. split; [by apply Part000_parseEmotes_groups|].
  apply length_fmap.
Qed.

Lemma C4_emote_groups_witness :
  Part000.parseEmotes sample_platform "25:0-4,6-10/1902:12-16" "Kappa Kappa Keepo"
  = Ok (Part000_emote "Kappa Kappa Keepo" <$> sample_groups)
  /\ length (Part000_emote "Kappa Kappa Keepo" <$> sample_groups) = 2%nat.
Proof.
  apply (C4_emote_groups sample_platform "Kappa Kappa Keepo" sample_groups).
  - vm_compute. reflexivity.
  - repeat (apply Forall_cons; split); [..|apply Forall_nil];
      try (split; reflexivity); vm_compute; lia.
Defined.

(** C5, as stated, fails. The WHISPER decoder of [part_000] does not look
    for the ACTION markers: the wrapped body comes back unchanged with the
    action flag false. And the PRIVMSG decoder removes eight bytes in front,
    the marker and the byte after it, not the marker alone. *)
Lemma C5_counterexample :
  (exists w,
     Part000.parseWhisperMessage sample_platform
       (Part000.parseMessageType sample_platform)
       (framed "WHISPER" ∅ ["someone"; action_waves]) = Ok (Part000.MWhisper w)
     /\ Part000.WhisperMessage_Action w = false
     /\ Part000.WhisperMessage_Message w = action_waves)
  /\ (exists p,
     Part000.parsePrivateMessage sample_platform
       (Part000.parseMessageType sample_platform)
       (framed "PRIVMSG" ∅ ["#c"; action_waves]) = Ok (Part000.MPrivate p)
     /\ Part000.PrivateMessage_Message p = "waves"
     /\ Part000.PrivateMessage_Message p <> " waves").
Proof.
  split; eexists; (split; [vm_compute; reflexivity|]); by split.
Qed.

(** C5 (amended). For every PRIVMSG line (both decoders) and every WHISPER
    line of [message.go] whose body reads [\x01ACTION], one more byte, a
    text, [\x01]: the record's body is that text (the first eight bytes and
    the last byte are removed) and the action flag is true; for every body
    that does not both start with [\x01ACTION] and end with [\x01] the
    action flag is false and the body is unchanged. The WHISPER decoder of
    [part_000] sets the action flag exactly when the body contains ["/me"],
    and then removes a leading ["/me"]. (All of this when the user and emote
    sub-decoders return and, in [part_000], a first parameter exists.) *)
Theorem C5_action_stripping :
  (forall pf pmt m user emotes p0 text,
     text = Part000.second_of_two (Part000.ircMessage_Params m) ->
     Part000.parseUser pf m = Ok user ->
     index (Part000.ircMessage_Params m) 0 = Ok p0 ->
     Part000.parseEmotes pf (tag (Part000.ircMessage_Tags m) "emotes") text = Ok emotes ->
     (forall c mid, text = ACTION_marker +:+ String c mid +:+ SOH ->
        exists r, Part000.parsePrivateMessage pf pmt m = Ok (Part000.MPrivate r)
                  /\ Part000.PrivateMessage_Message r = mid
                  /\ Part000.PrivateMessage_Action r = true)
     /\ (~ action_shape text ->
        exists r, Part000.parsePrivateMessage pf pmt m = Ok (Part000.MPrivate r)
                  /\ Part000.PrivateMessage_Message r = text
                  /\ Part000.PrivateMessage_Action r = false)
     /\ (exists r, Part000.parseWhisperMessage pf pmt m = Ok (Part000.MWhisper r)
                  /\ Part000.WhisperMessage_Action r = strings.Contains text "/me"
                  /\ Part000.WhisperMessage_Message r =
                       (if strings.Contains text "/me"
                        then strings.TrimPrefix text "/me" else text)))
  /\ (forall pf m emotes text,
     text = MessageGo.RawMessage_Message (MessageGo.message_RawMessage m) ->
     MessageGo.parseEmotes pf m = Ok emotes ->
     (forall c mid, text = ACTION_marker +:+ String c mid +:+ SOH ->
        (exists u r, MessageGo.parsePRIVMSGMessage pf m = Ok (u, r)
           /\ PRIVMSG_text r = mid
           /\ MessageGo.userMessage_Action (MessageGo.PRIVMSGMessage_userMessage r) = true)
        /\ (exists u r, MessageGo.parseWHISPERMessage pf m = Ok (u, r)
           /\ WHISPER_text r = mid
           /\ MessageGo.userMessage_Action (MessageGo.WHISPERMessage_userMessage r) = true))
     /\ (~ action_shape text ->
        (exists u r, MessageGo.parsePRIVMSGMessage pf m = Ok (u, r)
           /\ PRIVMSG_text r = text
           /\ MessageGo.userMessage_Action (MessageGo.PRIVMSGMessage_userMessage r) = false)
        /\ (exists u r, MessageGo.parseWHISPERMessage pf m = Ok (u, r)
           /\ WHISPER_text r = text
           /\ MessageGo.userMessage_Action (MessageGo.WHISPERMessage_userMessage r) = false))).
Proof.
  split.
  - intros pf pmt m user emotes p0 text Ht Hu Hp He. split; [|split].
    + intros c mid Hshape.
      destruct (Part000_private_action pf pmt m user emotes p0 text Ht Hu Hp He c mid Hshape)
        as (r & H1 & H2 & H3 & _). by exists r.
    + intros Hshape.
      destruct (Part000_private_plain pf pmt m user emotes p0 text Ht Hu Hp He Hshape)
        as (r & H1 & H2 & H3 & _). by exists r.
    + destruct (Part000_whisper pf pmt m user emotes p0 text Ht Hu Hp He)
        as (r & H1 & H2 & H3 & _). by exists r.
  - intros pf m emotes text Ht He. split.
    + intros c mid Hshape. split.
      * destruct (MessageGo_privmsg_action pf m emotes text Ht He c mid Hshape)
          as (u & r & H1 & H2 & H3 & _). by exists u, r.
      * apply (MessageGo_whisper_action pf m emotes text Ht He c mid Hshape).
    + intros Hshape. split.
      * destruct (MessageGo_privmsg_plain pf m emotes text Ht He Hshape)
          as (u & r & H1 & H2 & H3 & _). by exists u, r.
      * apply (MessageGo_whisper_plain pf m emotes text Ht He Hshape).
Qed.

Lemma C5_action_stripping_witness :
  (exists r,
     Part000.parsePrivateMessage sample_platform
       (Part000.parseMessageType sample_platform)
       (framed "PRIVMSG" ∅ ["#c"; action_waves]) = Ok (Part000.MPrivate r)
     /\ Part000.PrivateMessage_Message r = "waves"
     /\ Part000.PrivateMessage_Action r = true)
  /\ (exists u r,
     MessageGo.parseWHISPERMessage sample_platform (legacy_message ∅ action_waves)
     = Ok (u, r)
     /\ WHISPER_text r = "waves"
     /\ MessageGo.userMessage_Action (MessageGo.WHISPERMessage_userMessage r) = true).
Proof.
  destruct C5_action_stripping as [H1 H2]. split.
  - pose (m := framed "PRIVMSG" ∅ ["#c"; action_waves]).
    pose (user := {| Part000.User_ID := EmptyString;
                     Part000.User_Name := "redflamingo13";
                     Part000.User_DisplayName := EmptyString;
                     Part000.User_Color := EmptyString;
                     Part000.User_Badges := ∅ |}).
    assert (Part000.parseUser sample_platform m = Ok user) as Hu
      by (vm_compute; reflexivity).
    assert (Part000.parseEmotes sample_platform (tag (Part000.ircMessage_Tags m) "emotes")
              action_waves = Ok []) as He by (vm_compute; reflexivity).
    destruct (H1 sample_platform (Part000.parseMessageType sample_platform)
                m user [] "#c" action_waves eq_refl Hu eq_refl He) as (Ha & _ & _).
    apply (Ha " "%char "waves" eq_refl).
  - assert (MessageGo.parseEmotes sample_platform (legacy_message ∅ action_waves) = Ok []) as He
      by (vm_compute; reflexivity).
    destruct (H2 sample_platform (legacy_message ∅ action_waves) [] action_waves
                eq_refl He) as (Ha & _).
    apply (Ha " "%char "waves" eq_refl).
Defined.

(** C6, as stated, fails on [part_000]: its bag holds the tag value itself,
    the string ["6"], where the claim has the integer 6. *)
Lemma C6_counterexample :
  exists r,
    Part000.parseUserNoticeMessage sample_platform
      (Part000.parseMessageType sample_platform)
      (framed "USERNOTICE" {[ "msg-param-months" := "6" ]} ["#c"])
    = Ok (Part000.MUserNotice r)
    /\ Part000.UserNoticeMessage_MsgParams r !! "msg-param-months" = Some "6"
    /\ (let* bag := MessageGo.parseMsgParams {[ "msg-param-months" := "6" ]} in
        Ok (bag !! "msg-param-months")) = Ok (Some (MessageGo.PInt 6)).
Proof. eexists. split; [vm_compute; reflexivity|]. split; vm_compute; reflexivity. Qed.

(** C6 (amended). In [message.go], [parseMsgParams] never panics and the
    bag holds, for every tag whose name contains ["msg-param"], the value
    with every [\s] replaced by a space: as an integer for
    msg-param-cumulative-months, msg-param-months, msg-param-streak-months
    and msg-param-viewerCount, as the boolean "the value is literally 1" for
    msg-param-should-share-streak, as a string for every other name; no
    other tag is in the bag. In [part_000] the bag of a decoded USERNOTICE
    holds the same names, each with its tag value unchanged, as a string. *)
Theorem C6_parameter_bag :
  (forall tags,
     exists bag, MessageGo.parseMsgParams tags = Ok bag
                 /\ forall k, bag !! k = bag_entry tags k)
  /\ (forall pf pmt m r,
     Part000.parseUserNoticeMessage pf pmt m = Ok (Part000.MUserNotice r) ->
     forall k, Part000.UserNoticeMessage_MsgParams r !! k =
               if strings.Contains k "msg-param"
               then Part000.ircMessage_Tags m !! k else None).
Proof. split; [apply parseMsgParams_bag|apply Part000_bag]. Qed.

Lemma C6_parameter_bag_witness :
  (exists bag, MessageGo.parseMsgParams sample_notice_tags = Ok bag
     /\ bag !! "msg-param-months" = Some (MessageGo.PInt 6)
     /\ bag !! "msg-param-should-share-streak" = Some (MessageGo.PBool true)
     /\ bag !! "msg-param-sub-plan-name"
        = Some (MessageGo.PString "Channel Subscription")
     /\ bag !! "msg-id" = None)
  /\ (forall r,
     Part000.parseUserNoticeMessage sample_platform
       (Part000.parseMessageType sample_platform)
       (framed "USERNOTICE" sample_notice_tags ["#c"]) = Ok (Part000.MUserNotice r) ->
     Part000.UserNoticeMessage_MsgParams r !! "msg-param-months" = Some "6").
Proof.
  destruct C6_parameter_bag as [H1 H2]. split.
  - destruct (H1 sample_notice_tags) as (bag & Hb & Hk). exists bag.
    split; [exact Hb|]. rewrite !Hk. repeat split; vm_compute; reflexivity.
  - intros r Hr.
    rewrite (H2 sample_platform (Part000.parseMessageType sample_platform)
               (framed "USERNOTICE" sample_notice_tags ["#c"]) r Hr).
    vm_compute. reflexivity.
Defined.

(** C7 (defect found). [parseNamesMessage] of [part_000] does what the
    claim says: with exactly four parameters the channel is the third with a
    leading ['#'] removed and the users are the fourth split on spaces, with
    any other number of parameters the record has an empty channel and no
    users, and it never panics. [parseNames] of [message.go] decodes the same
    line and panics on a 353 line that stops before the user list. *)
Theorem C7_names :
  (forall pmt m p0 p1 p2 p3,
     Part000.ircMessage_Params m = [p0; p1; p2; p3] ->
     exists r, Part000.parseNamesMessage pmt m = Ok (Part000.MNames r)
       /\ Part000.NamesMessage_Channel r = strings.TrimPrefix p2 "#"
       /\ Part000.NamesMessage_Users r = strings.Split p3 " ")
  /\ (forall pmt m,
     length (Part000.ircMessage_Params m) <> 4%nat ->
     exists r, Part000.parseNamesMessage pmt m = Ok (Part000.MNames r)
       /\ Part000.NamesMessage_Channel r = EmptyString
       /\ Part000.NamesMessage_Users r = [])
  /\ (forall users,
     users <> [] -> Forall (fun u => occurs " " u = false) users ->
     strings.Split (strings.Join users " ") " " = users)
  /\ MessageGo.parseNames ":justinfan.tmi.twitch.tv 353 justinfan = #chan :ann bob"
     = Ok ("chan", ["ann"; "bob"])
  /\ MessageGo.parseNames ":tmi.twitch.tv 353 justinfan = #chan"
     = Panic IndexOutOfRange.
Proof.
  split; [apply parseNamesMessage_four|].
  split; [apply parseNamesMessage_other|].
  split; [intros users; apply Split_Join|].
  split; vm_compute; reflexivity.
Qed.

Lemma C7_names_witness :
  (exists r,
     Part000.parseNamesMessage (Part000.parseMessageType sample_platform)
       (framed "353" ∅ ["justinfan"; "="; "#chan"; "ann bob"]) = Ok (Part000.MNames r)
     /\ Part000.NamesMessage_Channel r = "chan"
     /\ Part000.NamesMessage_Users r = ["ann"; "bob"])
  /\ (exists r,
     Part000.parseNamesMessage (Part000.parseMessageType sample_platform)
       (framed "353" ∅ ["justinfan"; "="; "#chan"]) = Ok (Part000.MNames r)
     /\ Part000.NamesMessage_Channel r = EmptyString
     /\ Part000.NamesMessage_Users r = []).
Proof.
  destruct C7_names as (H4 & Hother & Hsplit & _). split.
  - destruct (H4 (Part000.parseMessageType sample_platform)
                (framed "353" ∅ ["justinfan"; "="; "#chan"; "ann bob"])
                "justinfan" "=" "#chan" "ann bob" eq_refl) as (r & Hr & Hc & Hu).
    exists r. split; [exact Hr|]. split; [exact Hc|].
    rewrite Hu. apply (Hsplit ["ann"; "bob"]); [discriminate|].
    repeat (apply Forall_cons; split; [reflexivity|]). apply Forall_nil. exact I.
  - apply (Hother (Part000.parseMessageType sample_platform)
             (framed "353" ∅ ["justinfan"; "="; "#chan"])).
    cbn. lia.
Defined.



(** C9, as stated, fails on [message.go]: an untagged PING line decodes to
    kind Unset, with no command token looked up. *)
Lemma C9_counterexample :
  MessageGo.parseMessage "PING :tmi.twitch.tv"
  = Ok {| MessageGo.message_RawMessage :=
            {| MessageGo.RawMessage_Type := MessageGo.UNSET;
               MessageGo.RawMessage_RawType := EmptyString;
               MessageGo.RawMessage_Raw := "PING :tmi.twitch.tv";
               MessageGo.RawMessage_Tags := ∅;
               MessageGo.RawMessage_Message := "PING :tmi.twitch.tv" |};
          MessageGo.message_Channel := EmptyString;
          MessageGo.message_Username := EmptyString |}.
Proof. vm_compute. reflexivity. Qed.

(** C9 (amended). For every line that does not begin with ['@'],
    [parseMessage] of [message.go] returns a record of kind Unset whose raw
    text and body are the whole line, with no tags, no command token, no
    channel and no user name. In [part_000] the kind does not depend on
    tags: once the framer reports the command token PING (or PONG),
    [ParseMessage] returns a record of kind Ping (or Pong). *)
Theorem C9_untagged_lines :
  (forall line,
     strings.HasPrefix line "@" = false ->
     MessageGo.parseMessage line
     = Ok {| MessageGo.message_RawMessage :=
               {| MessageGo.RawMessage_Type := MessageGo.UNSET;
                  MessageGo.RawMessage_RawType := EmptyString;
                  MessageGo.RawMessage_Raw := line;
                  MessageGo.RawMessage_Tags := ∅;
                  MessageGo.RawMessage_Message := line |};
             MessageGo.message_Channel := EmptyString;
             MessageGo.message_Username := EmptyString |})
  /\ (forall pf framer line,
     Part000.ircMessage_Command (framer line).1 = "PING" ->
     exists r, Part000.ParseMessage pf framer line = Ok r
               /\ Part000.GetType r = Part000.PING)
  /\ (forall pf framer line,
     Part000.ircMessage_Command (framer line).1 = "PONG" ->
     exists r, Part000.ParseMessage pf framer line = Ok r
               /\ Part000.GetType r = Part000.PONG).
Proof.
  split; [apply HasPrefix_at_false|]. split.
  - intros pf framer line. apply (ParseMessage_ping pf framer line).
  - intros pf framer line. apply (ParseMessage_pong pf framer line).
Qed.

Lemma C9_untagged_lines_witness :
  (exists m, MessageGo.parseMessage "PONG :tmi.twitch.tv" = Ok m
     /\ MessageGo.RawMessage_Type (MessageGo.message_RawMessage m) = MessageGo.UNSET)
  /\ (exists r,
     Part000.ParseMessage sample_platform
       (fun _ => (framed "PING" ∅ ["tmi.twitch.tv"], false)) "PING :tmi.twitch.tv" = Ok r
     /\ Part000.GetType r = Part000.PING)
  /\ (exists r,
     Part000.ParseMessage sample_platform
       (fun _ => (framed "PONG" ∅ ["tmi.twitch.tv"; "x"], false)) "PONG tmi.twitch.tv :x" = Ok r
     /\ Part000.GetType r = Part000.PONG).
Proof.
  destruct C9_untagged_lines as (H1 & H2 & H3). split; [|split].
  - eexists. split; [apply (H1 "PONG :tmi.twitch.tv" eq_refl)|reflexivity].
  - apply (H2 sample_platform
             (fun _ => (framed "PING" ∅ ["tmi.twitch.tv"], false))
             "PING :tmi.twitch.tv" eq_refl).
  - apply (H3 sample_platform
             (fun _ => (framed "PONG" ∅ ["tmi.twitch.tv"; "x"], false))
             "PONG tmi.twitch.tv :x" eq_refl).
Defined.

(** C10, as stated, fails, in both decoders. A range that ends one
    codepoint past the body is cut from the spare capacity of the rune
    slice: the record is returned, and the Name of its emote ends in the
    closing marker and a zero byte, which is no substring of the body. And a
    wrapped body with nothing between the markers makes the strip, and with
    it the decode, panic: no record is returned. *)
Lemma C10_counterexample :
  (exists r e,
     Part000.parsePrivateMessage sample_platform
       (Part000.parseMessageType sample_platform)
       (framed "PRIVMSG" {[ "emotes" := "25:8-14" ]} ["#c"; action_kappa])
     = Ok (Part000.MPrivate r)
     /\ Part000.PrivateMessage_Message r = "Kappa"
     /\ Part000.PrivateMessage_Emotes r = [e]
     /\ Part000.Emote_Name e = "Kappa" +:+ SOH +:+ NUL
     /\ ~ substring_of (Part000.Emote_Name e) action_kappa)
  /\ (exists u r e,
     MessageGo.parsePRIVMSGMessage sample_platform
       (legacy_message {[ "emotes" := "25:8-15" ]} action_kappa) = Ok (u, r)
     /\ PRIVMSG_text r = "Kappa"
     /\ MessageGo.userMessage_Emotes (MessageGo.PRIVMSGMessage_userMessage r) = [e]
     /\ MessageGo.Emote_Name e = "Kappa" +:+ SOH +:+ NUL
     /\ ~ substring_of (MessageGo.Emote_Name e) action_kappa)
  /\ Part000.parsePrivateMessage sample_platform
       (Part000.parseMessageType sample_platform)
       (framed "PRIVMSG" {[ "emotes" := "25:1-6" ]} ["#c"; ACTION_marker +:+ SOH])
     = Panic SliceOutOfRange
  /\ MessageGo.parsePRIVMSGMessage sample_platform
       (legacy_message {[ "emotes" := "25:1-7" ]} (ACTION_marker +:+ SOH))
     = Panic SliceOutOfRange.
Proof.
  assert (forall name, name = "Kappa" +:+ SOH +:+ NUL ->
            ~ substring_of name action_kappa) as Hno.
  { intros name -> H.
    apply (substring_occurs (ascii_of_nat 0)) in H; [|reflexivity].
    vm_compute in H. discriminate H. }
  split; [|split; [|split]].
  - eexists _, _. split; [vm_compute; reflexivity|].
    repeat (split; [reflexivity|]). by apply Hno.
  - eexists _, _, _. split; [vm_compute; reflexivity|].
    repeat (split; [reflexivity|]). by apply Hno.
  - vm_compute. reflexivity.
  - vm_compute. reflexivity.
Qed.

(** C10 (amended). For every PRIVMSG whose body reads [\x01ACTION], one
    more byte, a text, [\x01] (so at least one byte stands between the
    markers; the body is shorter than [2^63] bytes, as every Go string is)
    and whose emotes tag is a list, possibly empty, of ['/']-separated groups
    [emoteID ":" first "-" last ...] (emoteID free of ['/'] and [':'],
    offsets in decimal) with the first range of every group inside the
    codepoint sequence of the whole body, markers included
    ([first <= last + 1 <= number of codepoints] in [part_000],
    [first <= last <= number of codepoints] in [message.go]), the decoder
    returns a record (in [part_000]: when the user sub-decoder returns and
    the parameters are the channel and the body). The emotes of the record
    are resolved against the unstripped body, one per group in order: the
    Name is the codepoints [first .. last] of the whole body ([message.go]
    leaves out the one at [last]). The text of the record is the text
    between the markers without its first byte, and the action flag is set.
    When the body is valid UTF-8 every emote Name is a substring of the
    unstripped body. *)
Theorem C10_emotes_before_strip :
  (forall pf pmt m user p0 c mid gs,
     let body := ACTION_marker +:+ String c mid +:+ SOH in
     Part000.ircMessage_Params m = [p0; body] ->
     Part000.parseUser pf m = Ok user ->
     tag (Part000.ircMessage_Tags m) "emotes" = render_emotes gs ->
     Z.of_nat (len body) < 2 ^ 63 ->
     Forall (fun g => group_id_ok g /\
               (group_first g <= S (group_last g) <= length (utf8.decode body))%nat) gs ->
     exists r, Part000.parsePrivateMessage pf pmt m = Ok (Part000.MPrivate r)
       /\ Part000.PrivateMessage_Emotes r = Part000_emote body <$> gs
       /\ Part000.PrivateMessage_Message r = mid
       /\ Part000.PrivateMessage_Action r = true
       /\ (valid_utf8 body ->
           forall e, e ∈ Part000.PrivateMessage_Emotes r ->
                     substring_of (Part000.Emote_Name e) body))
  /\ (forall pf m c mid gs,
     let body := ACTION_marker +:+ String c mid +:+ SOH in
     MessageGo.RawMessage_Message (MessageGo.message_RawMessage m) = body ->
     tag (MessageGo.Tags_of m) "emotes" = render_emotes gs ->
     Z.of_nat (len body) < 2 ^ 63 ->
     Forall (fun g => group_id_ok g /\
               (group_first g <= group_last g <= length (utf8.decode body))%nat) gs ->
     exists u r, MessageGo.parsePRIVMSGMessage pf m = Ok (u, r)
       /\ MessageGo.userMessage_Emotes (MessageGo.PRIVMSGMessage_userMessage r)
          = MessageGo_emote body <$> gs
       /\ PRIVMSG_text r = mid
       /\ MessageGo.userMessage_Action (MessageGo.PRIVMSGMessage_userMessage r) = true
       /\ (valid_utf8 body ->
           forall e,
             e ∈ MessageGo.userMessage_Emotes (MessageGo.PRIVMSGMessage_userMessage r) ->
             substring_of (MessageGo.Emote_Name e) body)).
Proof.
  split.
  - intros pf pmt m user p0 c mid gs body Hp Hu Htag Hlen Hgs.
    assert (Part000.parseEmotes pf (tag (Part000.ircMessage_Tags m) "emotes") body
            = Ok (Part000_emote body <$> gs)) as He
      by (rewrite Htag; by apply Part000_parseEmotes_groups).
    destruct (Part000_private_action pf pmt m user (Part000_emote body <$> gs) p0 body) with (c := c) (mid := mid)
      as (r & H1 & H2 & H3 & H4); try done.
    { by rewrite Hp. } { by rewrite Hp. }
    exists r. repeat (split; [assumption|]).
    intros Hv e. rewrite H4. intros (g & -> & _)%list_elem_of_fmap.
    by apply slice_substring.
  - intros pf m c mid gs body Hb Htag Hlen Hgs.
    assert (MessageGo.parseEmotes pf m = Ok (MessageGo_emote body <$> gs)) as He.
    { rewrite <- Hb. apply MessageGo_parseEmotes_groups; by rewrite ?Hb. }
    destruct (MessageGo_privmsg_action pf m (MessageGo_emote body <$> gs) body) with (c := c) (mid := mid)
      as (u & r & H1 & H2 & H3 & H4); try done.
    exists u, r. repeat (split; [assumption|]).
    intros Hv e. rewrite H4. intros (g & -> & _)%list_elem_of_fmap.
    by apply slice_substring.
Qed.

Lemma C10_emotes_before_strip_witness :
  (exists r,
     Part000.parsePrivateMessage sample_platform
       (Part000.parseMessageType sample_platform)
       (framed "PRIVMSG" {[ "emotes" := "25:8-12" ]} ["#c"; action_kappa])
     = Ok (Part000.MPrivate r)
     /\ Part000.PrivateMessage_Emotes r
        = [ {| Part000.Emote_Name := "Kappa"; Part000.Emote_ID := "25";
               Part000.Emote_Count := 1 |} ]
     /\ Part000.PrivateMessage_Message r = "Kappa"
     /\ Part000.PrivateMessage_Action r = true
     /\ forall e, e ∈ Part000.PrivateMessage_Emotes r ->
                  substring_of (Part000.Emote_Name e) action_kappa)
  /\ (exists u r,
     MessageGo.parsePRIVMSGMessage sample_platform
       (legacy_message {[ "emotes" := "25:8-13" ]} action_kappa) = Ok (u, r)
     /\ MessageGo.userMessage_Emotes (MessageGo.PRIVMSGMessage_userMessage r)
        = [ {| MessageGo.Emote_Name := "Kappa"; MessageGo.Emote_ID := "25";
               MessageGo.Emote_Count := 1 |} ]
     /\ PRIVMSG_text r = "Kappa"
     /\ MessageGo.userMessage_Action (MessageGo.PRIVMSGMessage_userMessage r) = true
     /\ forall e,
          e ∈ MessageGo.userMessage_Emotes (MessageGo.PRIVMSGMessage_userMessage r) ->
          substring_of (MessageGo.Emote_Name e) action_kappa).
Proof.
  destruct C10_emotes_before_strip as [H1 H2].
  assert (Z.of_nat (len action_kappa) < 2 ^ 63) as Hlen by (vm_compute; reflexivity).
  assert (valid_utf8 action_kappa) as Hv by (vm_compute; reflexivity).
  split.
  - pose (m := framed "PRIVMSG" {[ "emotes" := "25:8-12" ]} ["#c"; action_kappa]).
    pose (user := {| Part000.User_ID := EmptyString;
                     Part000.User_Name := "redflamingo13";
                     Part000.User_DisplayName := EmptyString;
                     Part000.User_Color := EmptyString;
                     Part000.User_Badges := ∅ |}).
    assert (Part000.parseUser sample_platform m = Ok user) as Hu
      by (vm_compute; reflexivity).
    assert (Forall (fun g => group_id_ok g /\
              (group_first g <= S (group_last g)
               <= length (utf8.decode action_kappa))%nat) [kappa_group 12]) as Hgs.
    { apply Forall_cons. split; [|apply Forall_nil; exact I].
      split; [split; reflexivity|vm_compute; lia]. }
    destruct (H1 sample_platform (Part000.parseMessageType sample_platform)
                m user "#c" " "%char "Kappa" [kappa_group 12]
                eq_refl Hu eq_refl Hlen Hgs)
      as (r & Hr & Hes & Hm & Ha & Hsub).
    exists r. split; [exact Hr|]. split; [exact Hes|].
    split; [exact Hm|]. split; [exact Ha|exact (Hsub Hv)].
  - assert (Forall (fun g => group_id_ok g /\
              (group_first g <= group_last g
               <= length (utf8.decode action_kappa))%nat) [kappa_group 13]) as Hgs.
    { apply Forall_cons. split; [|apply Forall_nil; exact I].
      split; [split; reflexivity|vm_compute; lia]. }
    assert (tag (MessageGo.Tags_of
                   (legacy_message {[ "emotes" := "25:8-13" ]} action_kappa)) "emotes"
            = render_emotes [kappa_group 13]) as Htag by (vm_compute; reflexivity).
    destruct (H2 sample_platform
                (legacy_message {[ "emotes" := "25:8-13" ]} action_kappa)
                " "%char "Kappa" [kappa_group 13] eq_refl Htag Hlen Hgs)
      as (u & r & Hr & Hes & Hm & Ha & Hsub).
    exists u, r. split; [exact Hr|]. split; [exact Hes|].
    split; [exact Hm|]. split; [exact Ha|exact (Hsub Hv)].
Defined.

(** * Further properties of the decoders *)

(** X1. [parseMessage] of [message.go] returns a record exactly for the
    lines that are untagged or hold a [" :"] separator, and the record
    carries the line as its raw text; on every other line, a tagged one
    without separator, it panics with an index out of range. *)
Theorem X1_parseMessage_returns (line : string) :
  match MessageGo.parseMessage line with
  | Ok m =>
      (strings.HasPrefix line "@" = false \/ strings.Contains line " :" = true)
      /\ MessageGo.RawMessage_Raw (MessageGo.message_RawMessage m) = line
  | Panic p =>
      strings.HasPrefix line "@" = true /\ strings.Contains line " :" = false
      /\ p = IndexOutOfRange
  end.
Proof.
  destruct (strings.HasPrefix line "@") eqn:Hat;
    [destruct (strings.Contains line " :") eqn:Hc|].
  - destruct (parseMessage_returns line) as (m & -> & Hraw); [by right|].
    split; [by right|done].
  - rewrite (parseMessage_short line Hat); [done|]. by apply Contains_false.
  - destruct (parseMessage_returns line) as (m & -> & Hraw); [by left|].
    split; [by left|done].
Qed.

(** X2. A tagged line [tags " :" middle " :" body], where neither [tags]
    nor [middle] holds a [" :"], decodes to the record whose tags are
    [parseTags tags], whose command token, channel and user name are
    [parseMiddle middle], and whose body is [body] byte for byte, further
    [" :"] included. Without the last segment the body is empty. *)
Theorem X2_parseMessage_segments (tags middle : string) :
  strings.HasPrefix tags "@" = true ->
  strings.Contains tags " :" = false ->
  strings.Contains middle " :" = false ->
  exists t rawType channel username,
    MessageGo.parseTags tags = Ok t
    /\ MessageGo.parseMiddle middle = Ok (rawType, channel, username)
    /\ (forall body,
          let line := tags +:+ " :" +:+ middle +:+ " :" +:+ body in
          MessageGo.parseMessage line
          = Ok (tagged_record line t rawType channel username body))
    /\ (let line := tags +:+ " :" +:+ middle in
        MessageGo.parseMessage line
        = Ok (tagged_record line t rawType channel username EmptyString)).
Proof.
  intros Hat Ht Hm.
  destruct (parseMessage_two_segments tags middle Hat Ht Hm)
    as (t & rawType & channel & username & Htags & Hmid & H2).
  exists t, rawType, channel, username. repeat split; try done.
  intros body line.
  destruct (parseMessage_segments tags middle body Hat Ht Hm)
    as (t' & rawType' & channel' & username' & Htags' & Hmid' & H3).
  rewrite Htags in Htags'. rewrite Hmid in Hmid'.
  injection Htags' as <-. injection Hmid' as <- <- <-. exact H3.
Qed.

Lemma X2_parseMessage_segments_witness :
  MessageGo.parseMessage "@slow=10 :tmi.twitch.tv PRIVMSG #gempir :see :this"
  = Ok (tagged_record "@slow=10 :tmi.twitch.tv PRIVMSG #gempir :see :this"
          {[ "slow" := "10" ]} "PRIVMSG" "gempir" EmptyString "see :this").
Proof.
  destruct (X2_parseMessage_segments "@slow=10" "tmi.twitch.tv PRIVMSG #gempir"
              eq_refl eq_refl eq_refl)
    as (t & rawType & channel & username & Ht & Hm & H3 & _).
  assert (MessageGo.parseTags "@slow=10" = Ok {[ "slow" := "10" ]}) as Ht'
    by (vm_compute; reflexivity).
  assert (MessageGo.parseMiddle "tmi.twitch.tv PRIVMSG #gempir"
          = Ok ("PRIVMSG", "gempir", EmptyString)) as Hm'
    by (vm_compute; reflexivity).
  rewrite Ht' in Ht. rewrite Hm' in Hm.
  injection Ht as <-. injection Hm as <- <- <-.
  exact (H3 "see :this").
Defined.

(** X3. [parseMiddle] on the two shapes the server sends. For
    [nick!host CMD #chan] it returns the command, the channel without its
    ['#'] and the nick; for [host CMD #chan], with a host free of ['!'] and
    ['#'], it returns the command, the channel and no user name. The command
    is the second word whatever it holds; the channel runs to the end of the
    segment. *)
Theorem X3_parseMiddle_shapes :
  (forall nick host cmd chan,
     occurs " " nick = false -> occurs "!" nick = false ->
     occurs " " host = false -> occurs " " cmd = false ->
     occurs "!" chan = false ->
     MessageGo.parseMiddle
       (nick +:+ "!" +:+ host +:+ " " +:+ cmd +:+ " #" +:+ chan)
     = Ok (cmd, chan, nick))
  /\ (forall host cmd chan,
     occurs " " host = false -> occurs "!" host = false ->
     occurs "#" host = false ->
     occurs " " cmd = false -> occurs "!" chan = false ->
     MessageGo.parseMiddle (host +:+ " " +:+ cmd +:+ " #" +:+ chan)
     = Ok (cmd, chan, EmptyString)).
Proof. split; [apply parseMiddle_user|apply parseMiddle_server]. Qed.

Lemma X3_parseMiddle_shapes_witness :
  MessageGo.parseMiddle
    "redflamingo13!redflamingo13@redflamingo13.tmi.twitch.tv PRIVMSG #pajlada"
  = Ok ("PRIVMSG", "pajlada", "redflamingo13")
  /\ MessageGo.parseMiddle "tmi.twitch.tv CLEARCHAT #pajlada"
     = Ok ("CLEARCHAT", "pajlada", EmptyString).
Proof.
  destruct X3_parseMiddle_shapes as [H1 H2]. split.
  - apply (H1 "redflamingo13" "redflamingo13@redflamingo13.tmi.twitch.tv"
              "PRIVMSG" "pajlada"); reflexivity.
  - apply (H2 "tmi.twitch.tv" "CLEARCHAT" "pajlada"); reflexivity.
Defined.

(** X4. [parseJoinPart] on a line [a "!" b "#" c], where [a] holds no
    ['!'] and [b], [c] hold neither ['!'] nor ['#']: the channel is [c]
    with the spaces around it trimmed, the user name is [a] with the spaces
    and colons around it trimmed. *)
Theorem X4_parseJoinPart (a b c : string) :
  occurs "!" a = false ->
  occurs "!" b = false -> occurs "#" b = false ->
  occurs "!" c = false -> occurs "#" c = false ->
  MessageGo.parseJoinPart (a +:+ "!" +:+ b +:+ "#" +:+ c)
  = Ok (strings.Trim c " ", strings.Trim a " :").
Proof. apply parseJoinPart_shape. Qed.

Lemma X4_parseJoinPart_witness :
  MessageGo.parseJoinPart ":ann!ann@ann.tmi.twitch.tv JOIN #pajlada"
  = Ok ("pajlada", "ann").
Proof.
  apply (X4_parseJoinPart ":ann" "ann@ann.tmi.twitch.tv JOIN " "pajlada");
    reflexivity.
Defined.

(** X5. [parseJoinPart] checks no length: a line without ['!'] or without
    ['#'] makes it panic with an index out of range. *)
Theorem X5_parseJoinPart_panics (text : string) :
  occurs "!" text = false \/ occurs "#" text = false ->
  MessageGo.parseJoinPart text = Panic IndexOutOfRange.
Proof.
  intros [H|H]; [by apply parseJoinPart_no_bang|by apply parseJoinPart_no_hash].
Qed.

Lemma X5_parseJoinPart_panics_witness :
  MessageGo.parseJoinPart ":tmi.twitch.tv RECONNECT" = Panic IndexOutOfRange
  /\ MessageGo.parseJoinPart ":ann!ann@ann.tmi.twitch.tv QUIT" = Panic IndexOutOfRange.
Proof.
  split.
  - apply (X5_parseJoinPart_panics ":tmi.twitch.tv RECONNECT"). left. reflexivity.
  - apply (X5_parseJoinPart_panics ":ann!ann@ann.tmi.twitch.tv QUIT").
    right. reflexivity.
Defined.

(** X6. [parseNames] of [message.go] on a complete 353 line
    [p0 ":" p1 "#" chan ":" users], the users separated by single spaces:
    the channel is [chan] with the spaces around it trimmed and the users
    come back one by one, in order. *)
Theorem X6_parseNames (p0 p1 chan : string) (users : list string) :
  occurs ":" p0 = false ->
  occurs ":" p1 = false -> occurs "#" p1 = false ->
  occurs ":" chan = false -> occurs "#" chan = false ->
  users <> [] ->
  Forall (fun u => occurs " " u = false /\ occurs ":" u = false) users ->
  MessageGo.parseNames
    (p0 +:+ ":" +:+ p1 +:+ "#" +:+ chan +:+ ":" +:+ strings.Join users " ")
  = Ok (strings.Trim chan " ", users).
Proof. apply parseNames_shape. Qed.

Lemma X6_parseNames_witness :
  MessageGo.parseNames ":justinfan.tmi.twitch.tv 353 justinfan = #chan :ann bob"
  = Ok ("chan", ["ann"; "bob"]).
Proof.
  apply (X6_parseNames EmptyString "justinfan.tmi.twitch.tv 353 justinfan = "
           "chan " ["ann"; "bob"]); try reflexivity; [discriminate|].
  repeat (apply Forall_cons; split; [split; reflexivity|]).
  apply Forall_nil. exact I.
Defined.

(** X7. [parseRoomStateMessage] of [part_000], for a framed line with at
    least one parameter: the channel is the first parameter without its
    leading ['#'], and the state map holds, for each of the six state tags
    that is present, its value as an integer (0 when it is not a number)
    and nothing else: no entry for an absent state tag, none for any other
    tag. *)
Theorem X7_room_state (pmt : string -> Part000.MessageType)
    (m : Part000.ircMessage) (p0 : string) (ps : list string) :
  Part000.ircMessage_Params m = p0 :: ps ->
  exists r,
    Part000.parseRoomStateMessage pmt m = Ok (Part000.MRoomState r)
    /\ Part000.RoomStateMessage_Channel r = strings.TrimPrefix p0 "#"
    /\ forall k,
         Part000.RoomStateMessage_State r !! k
         = if bool_decide (k ∈ Part000.stateTags)
           then (fun rawValue => (strconv.Atoi rawValue).1)
                  <$> Part000.ircMessage_Tags m !! k
           else None.
Proof.
  intros Hp. unfold Part000.parseRoomStateMessage. cbv zeta.
  rewrite Hp, index_0. cbn [bind]. eexists. split; [done|]. split; [done|].
  intros k. cbn [Part000.RoomStateMessage_State]. apply state_lookup.
Qed.

Lemma X7_room_state_witness :
  exists r,
    Part000.parseRoomStateMessage (Part000.parseMessageType sample_platform)
      (framed "ROOMSTATE" sample_room_tags ["#gempir"]) = Ok (Part000.MRoomState r)
    /\ Part000.RoomStateMessage_Channel r = "gempir"
    /\ Part000.RoomStateMessage_State r !! "slow" = Some 10
    /\ Part000.RoomStateMessage_State r !! "r9k" = Some 0
    /\ Part000.RoomStateMessage_State r !! "subs-only" = None
    /\ Part000.RoomStateMessage_State r !! "mod" = None.
Proof.
  destruct (X7_room_state (Part000.parseMessageType sample_platform)
              (framed "ROOMSTATE" sample_room_tags ["#gempir"]) "#gempir" []
              eq_refl) as (r & Hr & Hc & Hs).
  exists r. split; [exact Hr|]. split; [exact Hc|].
  rewrite !Hs. repeat split; vm_compute; reflexivity.
Defined.

(** X8. [parseROOMSTATEMessage] of [message.go]: the state map holds an
    entry for each of the six state tags (emote-only, followers-only, r9k,
    rituals, slow, subs-only) that is present, its value as an integer (0
    when it is not a number), and nothing else. The language is the
    [broadcaster-lang] tag. *)
Theorem X8_ROOMSTATE_state (m : MessageGo.message) (k : string) :
  MessageGo.ROOMSTATEMessage_State (MessageGo.parseROOMSTATEMessage m) !! k
  = (if bool_decide (k ∈ Part000.stateTags)
     then (fun rawValue => (strconv.Atoi rawValue).1) <$> MessageGo.Tags_of m !! k
     else None)
  /\ MessageGo.ROOMSTATEMessage_Language (MessageGo.parseROOMSTATEMessage m)
     = tag (MessageGo.Tags_of m) "broadcaster-lang".
Proof.
  unfold MessageGo.parseROOMSTATEMessage. split.
  - rewrite parseState_foldl. apply state_lookup.
  - unfold MessageGo.parseState. cbv zeta. by rewrite !addState_Language.
Qed.



(** X10. The two generations agree on the time of a message exactly when
    the [tmi-sent-ts] tag is empty (or absent) or parses as a 64-bit
    integer. On any other value [parseChatMessage] of [message.go] keeps
    the zero time, while [parseTime] of [part_000] ignores the error and
    builds an instant from the value [ParseInt] fell back to. *)
Theorem X10_time_agrees (m : MessageGo.message) :
  let raw := tag (MessageGo.Tags_of m) "tmi-sent-ts" in
  (MessageGo.chatMessage_Time (MessageGo.parseChatMessage m) = Part000.parseTime raw
   <-> raw = EmptyString \/ (strconv.ParseInt raw).2 = false)
  /\ ((strconv.ParseInt raw).2 = true ->
      MessageGo.chatMessage_Time (MessageGo.parseChatMessage m) = TimeZero).
Proof.
  intros raw. unfold MessageGo.parseChatMessage, Part000.parseTime. fold raw.
  destruct (strconv.ParseInt raw) as [i err] eqn:Hp.
  cbn [MessageGo.chatMessage_Time fst snd]. split.
  - case_decide as Hraw.
    + rewrite Hraw in Hp. injection Hp as <- <-. split; [by left|done].
    + destruct err; split; try done.
      * by intros [?|?].
      * by right.
  - by intros ->.
Qed.

Lemma X10_time_agrees_witness :
  MessageGo.chatMessage_Time
    (MessageGo.parseChatMessage (legacy_message {[ "tmi-sent-ts" := "soon" ]} "hi"))
  = TimeZero
  /\ Part000.parseTime "soon" = TimeUnixNano 0.
Proof.
  split; [|reflexivity].
  apply (X10_time_agrees (legacy_message {[ "tmi-sent-ts" := "soon" ]} "hi")).
  reflexivity.
Defined.

(** X11. Whatever the value of the [badges] tag, when [parseBadges] of
    [part_000] returns a map, [parseBadges] of [message.go] returns the
    same map for that value. *)
Theorem X11_badges_agree (m : MessageGo.message) (rawBadges : string)
    (badges : gmap string Z) :
  MessageGo.Tags_of m !! "badges" = Some rawBadges ->
  Part000.parseBadges rawBadges = Ok badges ->
  MessageGo.parseBadges m = badges.
Proof.
  intros Ht Hb. unfold MessageGo.parseBadges. rewrite Ht.
  by apply parseBadges_loop_agree.
Qed.

Lemma X11_badges_agree_witness :
  MessageGo.parseBadges
    (legacy_message {[ "badges" := "subscriber/6,premium/1" ]} "hi")
  = {[ "subscriber" := 6; "premium" := 1 ]}.
Proof.
  apply (X11_badges_agree _ "subscriber/6,premium/1"); vm_compute; reflexivity.
Defined.

(** X12. The body [parseRawMessage] recovers for a line no decoder
    claims: the parameters from the first one without a ['#'] onward,
    joined by single spaces; when every parameter holds a ['#'], the body
    is empty. *)
Theorem X12_raw_body (pmt : string -> Part000.MessageType) (m : Part000.ircMessage) :
  (forall pre v rest,
     Part000.ircMessage_Params m = pre ++ v :: rest ->
     Forall (fun p => occurs "#" p = true) pre -> occurs "#" v = false ->
     Part000.RawMessage_Message (Part000.parseRawMessage pmt m)
     = strings.Join (v :: rest) " ")
  /\ (Forall (fun p => occurs "#" p = true) (Part000.ircMessage_Params m) ->
      Part000.RawMessage_Message (Part000.parseRawMessage pmt m) = EmptyString).
Proof.
  unfold Part000.parseRawMessage. cbn [Part000.RawMessage_Message]. split.
  - intros pre v rest -> Hpre Hv. rewrite parseRawMessage_loop_skip by done.
    cbn [Part000.parseRawMessage_loop]. by rewrite (Contains_byte "#"), Hv.
  - intros H. rewrite <- (app_nil_r (Part000.ircMessage_Params m)).
    by rewrite parseRawMessage_loop_skip.
Qed.

Lemma X12_raw_body_witness :
  Part000.RawMessage_Message
    (Part000.parseRawMessage (Part000.parseMessageType sample_platform)
       (framed "HOSTTARGET" ∅ ["#pajlada"; "gempir"; "-"]))
  = "gempir -"
  /\ Part000.RawMessage_Message
       (Part000.parseRawMessage (Part000.parseMessageType sample_platform)
          (framed "HOSTTARGET" ∅ ["#pajlada"; "#gempir 3"]))
     = EmptyString.
Proof.
  split.
  - destruct (X12_raw_body (Part000.parseMessageType sample_platform)
                (framed "HOSTTARGET" ∅ ["#pajlada"; "gempir"; "-"])) as [H _].
    apply (H ["#pajlada"] "gempir" ["-"]); [reflexivity| |reflexivity].
    apply Forall_cons. split; [reflexivity|]. apply Forall_nil. exact I.
  - destruct (X12_raw_body (Part000.parseMessageType sample_platform)
                (framed "HOSTTARGET" ∅ ["#pajlada"; "#gempir 3"])) as [_ H].
    apply H.
    repeat (apply Forall_cons; split; [reflexivity|]). apply Forall_nil. exact I.
Defined.

(** X13. The text of a PING or PONG record is one word. [parsePingMessage]
    takes it from the only parameter, [parsePongMessage] from the second of
    exactly two: the parameter itself when it holds no space, else what
    comes before its first space; with any other number of parameters the
    text is empty. Neither decoder panics. *)
Theorem X13_ping_pong_word (pmt : string -> Part000.MessageType)
    (m : Part000.ircMessage) :
  (exists r, Part000.parsePingMessage pmt m = Ok (Part000.MPing r)
     /\ occurs " " (Part000.PingMessage_Message r) = false
     /\ (forall w, occurs " " w = false ->
           Part000.ircMessage_Params m = [w] ->
           Part000.PingMessage_Message r = w)
     /\ (forall w rest, occurs " " w = false ->
           Part000.ircMessage_Params m = [w +:+ " " +:+ rest] ->
           Part000.PingMessage_Message r = w)
     /\ (length (Part000.ircMessage_Params m) <> 1%nat ->
         Part000.PingMessage_Message r = EmptyString))
  /\ (exists r, Part000.parsePongMessage pmt m = Ok (Part000.MPong r)
     /\ occurs " " (Part000.PongMessage_Message r) = false
     /\ (forall p0 w, occurs " " w = false ->
           Part000.ircMessage_Params m = [p0; w] ->
           Part000.PongMessage_Message r = w)
     /\ (forall p0 w rest, occurs " " w = false ->
           Part000.ircMessage_Params m = [p0; w +:+ " " +:+ rest] ->
           Part000.PongMessage_Message r = w)
     /\ (length (Part000.ircMessage_Params m) <> 2%nat ->
         Part000.PongMessage_Message r = EmptyString)).
Proof.
  split.
  - unfold Part000.parsePingMessage.
    destruct (Part000.ircMessage_Params m) as [|p0 [|p1 ps]] eqn:Hp;
      cbn [Part000.only_param bind].
    + eexists. repeat split; done.
    + destruct (first_word p0) as (w & Hw & Hsp). rewrite Hw. cbn [bind].
      eexists. split; [done|]. cbn [Part000.PingMessage_Message].
      split; [done|]. split; [|split; [|done]].
      * intros w' Hw' [= ->]. rewrite Split_none in Hw by done. by injection Hw.
      * intros w' rest Hw' [= ->]. rewrite Split_first_word in Hw by done.
        by injection Hw.
    + eexists. repeat split; done.
  - unfold Part000.parsePongMessage.
    destruct (Part000.ircMessage_Params m) as [|p0 [|p1 [|p2 ps]]] eqn:Hp;
      cbn [bind].
    + eexists. repeat split; done.
    + eexists. repeat split; done.
    + destruct (first_word p1) as (w & Hw & Hsp). rewrite Hw. cbn [bind].
      eexists. split; [done|]. cbn [Part000.PongMessage_Message].
      split; [done|]. split; [|split; [|done]].
      * intros p0' w' Hw' [= -> ->]. rewrite Split_none in Hw by done.
        by injection Hw.
      * intros p0' w' rest Hw' [= -> ->]. rewrite Split_first_word in Hw by done.
        by injection Hw.
    + eexists. repeat split; done.
Qed.

Lemma X13_ping_pong_word_witness :
  exists r,
    Part000.parsePingMessage (Part000.parseMessageType sample_platform)
      (framed "PING" ∅ ["tmi.twitch.tv and more"]) = Ok (Part000.MPing r)
    /\ Part000.PingMessage_Message r = "tmi.twitch.tv".
Proof.
  destruct (X13_ping_pong_word (Part000.parseMessageType sample_platform)
              (framed "PING" ∅ ["tmi.twitch.tv and more"]))
    as [(r & Hr & _ & _ & Hw & _) _].
  exists r. split; [exact Hr|].
  apply (Hw "tmi.twitch.tv" "and more"); reflexivity.
Defined.

(** X14. [ParseMessage] never panics on a line the framer rejects, nor on
    a JOIN, PART, RECONNECT, 353, PING or PONG line, whatever its tags and
    parameters. *)
Theorem X14_guarded_decoders (pf : platform)
    (parseIRCMessage : string -> Part000.ircMessage * bool) (line : string) :
  (parseIRCMessage line).2 = true
  \/ Part000.ircMessage_Command (parseIRCMessage line).1 ∈ guarded_commands ->
  exists r, Part000.ParseMessage pf parseIRCMessage line = Ok r.
Proof. apply ParseMessage_guarded. Qed.

Lemma X14_guarded_decoders_witness :
  exists r,
    Part000.ParseMessage sample_platform
      (fun _ => (framed "PART" ∅ [], false)) ":ann!ann@ann.tmi.twitch.tv PART"
    = Ok r.
Proof.
  apply (X14_guarded_decoders sample_platform
           (fun _ => (framed "PART" ∅ [], false))).
  right. apply (bool_decide_unpack _). vm_compute. exact I.
Defined.

(** X15. The decoders of WHISPER, PRIVMSG, CLEARCHAT, ROOMSTATE,
    USERNOTICE, USERSTATE and NOTICE read the first parameter without
    looking at the number of parameters: on an accepted line with one of
    these commands and no parameter, [ParseMessage] panics with an index
    out of range. *)
Theorem X15_no_params_panic (pf : platform)
    (parseIRCMessage : string -> Part000.ircMessage * bool) (line : string) :
  (parseIRCMessage line).2 = false ->
  Part000.ircMessage_Command (parseIRCMessage line).1 ∈ channel_commands ->
  Part000.ircMessage_Params (parseIRCMessage line).1 = [] ->
  Part000.ParseMessage pf parseIRCMessage line = Panic IndexOutOfRange.
Proof. apply ParseMessage_no_params. Qed.

Lemma X15_no_params_panic_witness :
  Part000.ParseMessage sample_platform
    (fun _ => (framed "NOTICE" ∅ [], false)) ":tmi.twitch.tv NOTICE"
  = Panic IndexOutOfRange.
Proof.
  apply (X15_no_params_panic sample_platform
           (fun _ => (framed "NOTICE" ∅ [], false)));
    [reflexivity|apply (bool_decide_unpack _); vm_compute; exact I|reflexivity].
Defined.

(** X16. What [parseEmotes] returns for any tag value and any body, when
    it returns: one emote per ['/']-separated group of the value (none for
    the empty value, at least one otherwise), each with a count of at least
    1 and an ID that holds neither [':'] nor ['/']. Both generations. *)
Theorem X16_emote_invariants :
  (forall pf rawEmotes body es,
     Part000.parseEmotes pf rawEmotes body = Ok es ->
     length es = (if decide (rawEmotes = EmptyString) then 0
                  else length (strings.Split rawEmotes "/"))%nat
     /\ (rawEmotes <> EmptyString -> es <> [])
     /\ forall e, e ∈ es ->
          1 <= Part000.Emote_Count e
          /\ occurs ":" (Part000.Emote_ID e) = false
          /\ occurs "/" (Part000.Emote_ID e) = false)
  /\ (forall pf m es,
     let rawEmotes := tag (MessageGo.Tags_of m) "emotes" in
     MessageGo.parseEmotes pf m = Ok es ->
     length es = (if decide (rawEmotes = EmptyString) then 0
                  else length (strings.Split rawEmotes "/"))%nat
     /\ (rawEmotes <> EmptyString -> es <> [])
     /\ forall e, e ∈ es ->
          1 <= MessageGo.Emote_Count e
          /\ occurs ":" (MessageGo.Emote_ID e) = false
          /\ occurs "/" (MessageGo.Emote_ID e) = false).
Proof.
  split.
  - intros pf rawEmotes body es. unfold Part000.parseEmotes. case_decide as Hraw.
    + intros [= <-]. split; [done|]. split; [done|].
      intros e0 He. by apply elem_of_nil in He.
    + cbv zeta. intros H. pose proof (for_each_length _ _ _ H) as Hlen.
      split; [done|]. split.
      * intros _ ->. pose proof (Split_nonempty rawEmotes "/").
        by destruct (strings.Split rawEmotes "/").
      * intros e He. destruct (for_each_inv _ _ _ _ H He) as (v & Hv & Hstep).
        destruct (Part000_step_inv _ _ _ Hstep) as (H1 & H2 & H3).
        split; [done|]. split; [done|]. apply H3.
        pose proof (Split_sepfree "/" rawEmotes) as HF.
        rewrite Forall_forall in HF. by apply HF.
  - intros pf m es rawEmotes. unfold MessageGo.parseEmotes. cbv zeta. fold rawEmotes.
    case_decide as Hraw.
    + intros [= <-]. split; [done|]. split; [done|].
      intros e0 He. by apply elem_of_nil in He.
    + intros H. pose proof (for_each_length _ _ _ H) as Hlen.
      split; [done|]. split.
      * intros _ ->. pose proof (Split_nonempty rawEmotes "/").
        by destruct (strings.Split rawEmotes "/").
      * intros e He. destruct (for_each_inv _ _ _ _ H He) as (v & Hv & Hstep).
        destruct (MessageGo_step_inv _ _ _ Hstep) as (H1 & H2 & H3).
        split; [done|]. split; [done|]. apply H3.
        pose proof (Split_sepfree "/" rawEmotes) as HF.
        rewrite Forall_forall in HF. by apply HF.
Qed.

Lemma X16_emote_invariants_witness :
  length sample_emotes = 2%nat /\ sample_emotes <> [].
Proof.
  assert (Part000.parseEmotes sample_platform "25:0-4,6-10/1902:12-16" "Kappa Kappa Keepo"
          = Ok sample_emotes) as Hes by (vm_compute; reflexivity).
  destruct X16_emote_invariants as [H _].
  destruct (H sample_platform "25:0-4,6-10/1902:12-16" "Kappa Kappa Keepo"
              sample_emotes Hes)
    as (Hlen & Hne & _).
  split; [exact Hlen|]. apply Hne. discriminate.
Defined.

(** X17. [parseEmotes] of [message.go] on a well-formed tag value: one
    Emote per group, in order, with the group's ID and 1 plus the number of
    additional ranges as its count; its name is the body's codepoints from
    [first] up to but not including [last], since the slice [runes[first:last]]
    leaves its upper bound out. The first range of every group has to lie
    inside the body ([first <= last <= number of codepoints]). *)
Theorem X17_legacy_emote_groups (pf : platform) (m : MessageGo.message)
    (gs : list emote_group) :
  let body := MessageGo.RawMessage_Message (MessageGo.message_RawMessage m) in
  tag (MessageGo.Tags_of m) "emotes" = render_emotes gs ->
  Z.of_nat (len body) < 2 ^ 63 ->
  Forall (fun g => group_id_ok g /\
            (group_first g <= group_last g <= length (utf8.decode body))%nat) gs ->
  MessageGo.parseEmotes pf m = Ok (MessageGo_emote body <$> gs).
Proof. apply MessageGo_parseEmotes_groups. Qed.

Lemma X17_legacy_emote_groups_witness :
  MessageGo.parseEmotes sample_platform
    (legacy_message {[ "emotes" := "25:0-5" ]} "Kappa Keepo")
  = Ok [ {| MessageGo.Emote_Name := "Kappa"; MessageGo.Emote_ID := "25";
            MessageGo.Emote_Count := 1 |} ].
Proof.
  apply (X17_legacy_emote_groups sample_platform
           (legacy_message {[ "emotes" := "25:0-5" ]} "Kappa Keepo")
           sample_legacy_groups).
  - vm_compute. reflexivity.
  - vm_compute. reflexivity.
  - apply Forall_cons. split; [|apply Forall_nil; exact I].
    split; [split; reflexivity|]. vm_compute. lia.
Defined.

(** X18. The emote sets of a USERSTATE record, both generations: when the
    [emote-sets] tag is a comma-separated list of set IDs, the record holds
    exactly these IDs, in order (an empty tag value gives the one empty ID);
    when the tag is absent, the record holds none. *)
Theorem X18_emote_sets :
  (forall pf m ids,
     ids <> [] -> Forall (fun i => occurs "," i = false) ids ->
     MessageGo.Tags_of m !! "emote-sets" = Some (strings.Join ids ",") ->
     MessageGo.USERSTATEMessage_EmoteSets (MessageGo.parseUSERSTATEMessage pf m).2
     = ids)
  /\ (forall pf m,
     MessageGo.Tags_of m !! "emote-sets" = None ->
     MessageGo.USERSTATEMessage_EmoteSets (MessageGo.parseUSERSTATEMessage pf m).2
     = [])
  /\ (forall pf pmt m r ids,
     ids <> [] -> Forall (fun i => occurs "," i = false) ids ->
     Part000.ircMessage_Tags m !! "emote-sets" = Some (strings.Join ids ",") ->
     Part000.parseUserStateMessage pf pmt m = Ok (Part000.MUserState r) ->
     Part000.UserStateMessage_EmoteSets r = ids)
  /\ (forall pf pmt m r,
     Part000.ircMessage_Tags m !! "emote-sets" = None ->
     Part000.parseUserStateMessage pf pmt m = Ok (Part000.MUserState r) ->
     Part000.UserStateMessage_EmoteSets r = []).
Proof.
  split; [|split; [|split]].
  - intros pf m ids Hne Hids Ht. rewrite MessageGo_emote_sets, Ht.
    by apply Split_Join.
  - intros pf m Ht. by rewrite MessageGo_emote_sets, Ht.
  - intros pf pmt m r ids Hne Hids Ht Hr.
    rewrite (Part000_emote_sets _ _ _ _ Hr), Ht. by apply Split_Join.
  - intros pf pmt m r Ht Hr. by rewrite (Part000_emote_sets _ _ _ _ Hr), Ht.
Qed.

Lemma X18_emote_sets_witness :
  MessageGo.USERSTATEMessage_EmoteSets
    (MessageGo.parseUSERSTATEMessage sample_platform
       (legacy_message {[ "emote-sets" := "0,33,50" ]} EmptyString)).2
  = ["0"; "33"; "50"]
  /\ MessageGo.USERSTATEMessage_EmoteSets
       (MessageGo.parseUSERSTATEMessage sample_platform
          (legacy_message {[ "emote-sets" := EmptyString ]} EmptyString)).2
     = [EmptyString]
  /\ MessageGo.USERSTATEMessage_EmoteSets
       (MessageGo.parseUSERSTATEMessage sample_platform
          (legacy_message ∅ EmptyString)).2
     = [].
Proof.
  destruct X18_emote_sets as (H1 & H2 & _). split; [|split].
  - apply (H1 sample_platform _ ["0"; "33"; "50"]); [discriminate| |reflexivity].
    repeat (apply Forall_cons; split; [reflexivity|]). apply Forall_nil. exact I.
  - apply (H1 sample_platform _ [EmptyString]); [discriminate| |reflexivity].
    repeat (apply Forall_cons; split; [reflexivity|]). apply Forall_nil. exact I.
  - apply (H2 sample_platform). reflexivity.
Defined.

(** X19. A CLEARCHAT line through [parseMessage] and
    [parseCLEARCHATMessage] of [message.go]: the last segment of the line
    becomes the target user name and the body of the record is left empty;
    the ban duration is the [ban-duration] tag as an integer, 0 when the
    tag is absent or not a number; the target user ID is the
    [target-user-id] tag. *)
Theorem X19_clearchat_line (tags middle target : string) :
  strings.HasPrefix tags "@" = true ->
  strings.Contains tags " :" = false ->
  strings.Contains middle " :" = false ->
  exists m t,
    MessageGo.parseMessage (tags +:+ " :" +:+ middle +:+ " :" +:+ target) = Ok m
    /\ MessageGo.parseTags tags = Ok t
    /\ let c := MessageGo.parseCLEARCHATMessage m in
       MessageGo.CLEARCHATMessage_TargetUsername c = target
       /\ CLEARCHAT_text c = EmptyString
       /\ MessageGo.CLEARCHATMessage_TargetUserID c = tag t "target-user-id"
       /\ MessageGo.CLEARCHATMessage_BanDuration c
          = match t !! "ban-duration" with
            | Some rawBanDuration => (strconv.Atoi rawBanDuration).1
            | None => 0
            end.
Proof.
  intros Hat Ht Hm.
  destruct (parseMessage_segments tags middle target Hat Ht Hm)
    as (t & rawType & channel & username & Htags & Hmid & Hline).
  eexists _, t. split; [exact Hline|]. split; [exact Htags|].
  cbv zeta.
  match goal with |- context [MessageGo.parseCLEARCHATMessage ?m] =>
    destruct (parseCLEARCHATMessage_fields m) as (H1 & H2 & _) end.
  split; [exact H1|]. split; [exact H2|].
  unfold MessageGo.parseCLEARCHATMessage, MessageGo.Tags_of.
  cbn [MessageGo.CLEARCHATMessage_TargetUserID MessageGo.CLEARCHATMessage_BanDuration
       MessageGo.message_RawMessage MessageGo.RawMessage_Tags].
  split; [done|]. by destruct (t !! "ban-duration").
Qed.

Lemma X19_clearchat_line_witness :
  exists m,
    MessageGo.parseMessage
      "@ban-duration=1;ban-reason=testing\sxd;room-id=11148817;target-user-id=40910607 :tmi.twitch.tv CLEARCHAT #pajlada :ampzyh"
    = Ok m
    /\ MessageGo.CLEARCHATMessage_TargetUsername (MessageGo.parseCLEARCHATMessage m)
       = "ampzyh"
    /\ CLEARCHAT_text (MessageGo.parseCLEARCHATMessage m) = EmptyString
    /\ MessageGo.CLEARCHATMessage_BanDuration (MessageGo.parseCLEARCHATMessage m) = 1.
Proof.
  destruct (X19_clearchat_line
              "@ban-duration=1;ban-reason=testing\sxd;room-id=11148817;target-user-id=40910607"
              "tmi.twitch.tv CLEARCHAT #pajlada" "ampzyh" eq_refl eq_refl eq_refl)
    as (m & t & Hm & Ht & H1 & H2 & _ & H4).
  exists m. split; [exact Hm|]. split; [exact H1|]. split; [exact H2|].
  rewrite H4.
  assert (MessageGo.parseTags
            "@ban-duration=1;ban-reason=testing\sxd;room-id=11148817;target-user-id=40910607"
          = Ok {[ "ban-duration" := "1"; "ban-reason" := "testing\sxd";
                  "room-id" := "11148817"; "target-user-id" := "40910607" ]}) as Ht'
    by (vm_compute; reflexivity).
  rewrite Ht' in Ht. injection Ht as <-. vm_compute. reflexivity.
Defined.

(** X20. After [parseMsgParams] of [message.go], no text value of the
    parameter bag holds the escape [\s] any more: every occurrence has
    become a space, and the replacement creates no new one. *)
Theorem X20_no_escape_left (tags : gmap string string)
    (bag : gmap string MessageGo.param) (k s : string) :
  MessageGo.parseMsgParams tags = Ok bag ->
  bag !! k = Some (MessageGo.PString s) ->
  strings.Contains s "\s" = false.
Proof.
  intros Hbag Hk. destruct (parseMsgParams_bag tags) as (bag' & Hbag' & Hentry).
  rewrite Hbag in Hbag'. injection Hbag' as <-.
  rewrite Hentry in Hk. unfold bag_entry, coerce in Hk.
  destruct (strings.Contains k "msg-param"); [|done].
  destruct (tags !! k) as [v|]; [|done]. cbn in Hk.
  repeat case_bool_decide; try done.
  injection Hk as <-. apply ReplaceAll_no_escape.
Qed.

Lemma X20_no_escape_left_witness :
  strings.Contains "5 raiders from a\ b" "\s" = false.
Proof.
  assert (MessageGo.parseMsgParams
            {[ "msg-param-viewerCount" := "5";
               "msg-param-note" := "5\sraiders\sfrom\sa\\sb" ]}
          = Ok {[ "msg-param-viewerCount" := MessageGo.PInt 5;
                  "msg-param-note" := MessageGo.PString "5 raiders from a\ b" ]})
    as Hbag by (vm_compute; reflexivity).
  apply (X20_no_escape_left _ _ "msg-param-note" _ Hbag).
  vm_compute. reflexivity.
Defined.

(** X21. The kinds of [part_000] are told apart: the thirteen constants
    have pairwise distinct numbers, and no two command tokens of the table
    built by [init] share a kind, so that a kind other than [UNSET] names
    its command. *)
Theorem X21_kinds_distinct (pf : platform) :
  (forall t1 t2,
     Part000.MessageType_value t1 = Part000.MessageType_value t2 -> t1 = t2)
  /\ (forall c1 c2,
     Part000.parseMessageType pf c1 <> Part000.UNSET ->
     Part000.parseMessageType pf c1 = Part000.parseMessageType pf c2 ->
     c1 = c2).
Proof.
  split; [apply MessageType_value_inj|].
  intros c1 c2. rewrite !parseMessageType_table. apply dispatch_kind_inj.
Qed.

Lemma X21_kinds_distinct_witness :
  Part000.parseMessageType sample_platform "353" = Part000.NAMES
  /\ "353" = "353"
  /\ Part000.parseMessageType sample_platform "NAMES" <> Part000.NAMES.
Proof.
  destruct (X21_kinds_distinct sample_platform) as [_ Hinj].
  split; [reflexivity|]. split.
  - apply (Hinj "353" "353"); [discriminate|reflexivity].
  - intros H. assert ("353" = "NAMES") as Habs; [|discriminate Habs].
    apply (Hinj "353" "NAMES"); [discriminate|]. rewrite H. reflexivity.
Defined.

(** X22. [parseTags] never panics, and whatever the input, no key of the
    map it returns holds a [';'] or an ['='] and no value holds a [';']. *)
Theorem X22_parseTags_clean (tagsRaw : string) :
  exists tags,
    MessageGo.parseTags tagsRaw = Ok tags
    /\ forall k v, tags !! k = Some v ->
         occurs ";" k = false /\ occurs "=" k = false /\ occurs ";" v = false.
Proof. apply parseTags_clean. Qed.

(** X23. The name of a user when the line has no source user name and the
    [display-name] tag is a non-empty ASCII text: [parseUser] of
    [message.go] takes the display name in lower case, spaces kept;
    [parseUser] of [part_000] takes it in lower case with its first space,
    and only the first, removed. The two agree on a display name without
    spaces. *)
Theorem X23_user_name_fallback (pf : platform) :
  (forall m,
     MessageGo.message_Username m = EmptyString ->
     strings.isASCII (tag (MessageGo.Tags_of m) "display-name") = true ->
     MessageGo.User_Name (MessageGo.parseUser pf m)
     = strings.map_bytes strings.lower_byte (tag (MessageGo.Tags_of m) "display-name"))
  /\ (forall m u a b,
     Part000.Source_Username (Part000.ircMessage_Source m) = EmptyString ->
     tag (Part000.ircMessage_Tags m) "display-name" = a +:+ " " +:+ b ->
     strings.isASCII (a +:+ " " +:+ b) = true -> occurs " " a = false ->
     Part000.parseUser pf m = Ok u ->
     Part000.User_Name u
     = strings.map_bytes strings.lower_byte a +:+ strings.map_bytes strings.lower_byte b)
  /\ (forall m u,
     Part000.Source_Username (Part000.ircMessage_Source m) = EmptyString ->
     strings.isASCII (tag (Part000.ircMessage_Tags m) "display-name") = true ->
     occurs " " (tag (Part000.ircMessage_Tags m) "display-name") = false ->
     Part000.parseUser pf m = Ok u ->
     Part000.User_Name u
     = strings.map_bytes strings.lower_byte
         (tag (Part000.ircMessage_Tags m) "display-name")).
Proof.
  split; [|split].
  - intros m Hname Hascii. unfold MessageGo.parseUser. cbv zeta.
    cbn [MessageGo.User_Name]. rewrite decide_True by done.
    by apply ToLower_ascii.
  - intros m u a b Hname Hd Hascii Ha Hu.
    rewrite (Part000_parseUser_Name pf m u Hu). cbv zeta.
    rewrite Hname, Hd. rewrite bool_decide_true by done.
    rewrite bool_decide_false by (by destruct a). cbn [negb andb].
    rewrite ToLower_ascii by done. rewrite !map_bytes_app.
    change (strings.map_bytes strings.lower_byte " ") with " ".
    apply Replace_first_space. by rewrite occurs_space_lower.
  - intros m u Hname Hascii Hsp Hu.
    rewrite (Part000_parseUser_Name pf m u Hu). cbv zeta. rewrite Hname.
    rewrite bool_decide_true by done. cbn [andb].
    destruct (bool_decide (tag _ "display-name" = EmptyString)) eqn:Hd.
    + apply bool_decide_eq_true in Hd. by rewrite Hd.
    + cbn [negb]. rewrite ToLower_ascii by done.
      apply Replace_no_space. by rewrite occurs_space_lower.
Qed.

Lemma X23_user_name_fallback_witness :
  MessageGo.User_Name (MessageGo.parseUser sample_platform sample_userstate)
  = "red flamingo 13"
  /\ Part000.User_Name sample_userstate_user = "redflamingo 13".
Proof.
  destruct (X23_user_name_fallback sample_platform) as (H1 & H2 & _). split.
  - assert (strings.isASCII (tag (MessageGo.Tags_of sample_userstate) "display-name")
            = true) as Ha by (vm_compute; reflexivity).
    rewrite (H1 sample_userstate eq_refl Ha). vm_compute. reflexivity.
  - assert (Part000.parseUser sample_platform sample_userstate_framed
            = Ok sample_userstate_user) as Hu by (vm_compute; reflexivity).
    assert (tag (Part000.ircMessage_Tags sample_userstate_framed) "display-name"
            = "Red" +:+ " " +:+ "Flamingo 13") as Hd by (vm_compute; reflexivity).
    rewrite (H2 sample_userstate_framed sample_userstate_user "Red" "Flamingo 13"
               eq_refl Hd eq_refl eq_refl Hu).
    vm_compute. reflexivity.
Defined.

(** X24. A chat line [tags " :" nick "!" host " PRIVMSG #" chan " :" body]
    through [parseMessage] and [parsePRIVMSGMessage] of [message.go], when
    the tags carry no emotes and the body is no ACTION: the record is of
    kind PRIVMSG, the user is [nick], the channel is [chan], the text is
    [body] unchanged, there are no emotes and the bits are the [bits] tag
    as an integer (0 without the tag). *)
Theorem X24_privmsg_line (pf : platform) (tags nick host chan body : string)
    (t : gmap string string) :
  strings.HasPrefix tags "@" = true ->
  strings.Contains tags " :" = false ->
  strings.Contains (nick +:+ "!" +:+ host +:+ " PRIVMSG #" +:+ chan) " :" = false ->
  nick <> EmptyString ->
  occurs " " nick = false -> occurs "!" nick = false ->
  occurs " " host = false -> occurs "!" chan = false ->
  MessageGo.parseTags tags = Ok t ->
  tag t "emotes" = EmptyString ->
  MessageGo.is_action body = false ->
  exists m u p,
    MessageGo.parseMessage
      (tags +:+ " :" +:+ (nick +:+ "!" +:+ host +:+ " PRIVMSG #" +:+ chan)
            +:+ " :" +:+ body) = Ok m
    /\ MessageGo.RawMessage_Type (MessageGo.message_RawMessage m) = MessageGo.PRIVMSG
    /\ MessageGo.parsePRIVMSGMessage pf m = Ok (u, p)
    /\ MessageGo.User_Name u = nick
    /\ PRIVMSG_channel p = chan
    /\ PRIVMSG_text p = body
    /\ MessageGo.userMessage_Action (MessageGo.PRIVMSGMessage_userMessage p) = false
    /\ MessageGo.userMessage_Emotes (MessageGo.PRIVMSGMessage_userMessage p) = []
    /\ MessageGo.PRIVMSGMessage_Bits p
       = match t !! "bits" with
         | Some rawBits => (strconv.Atoi rawBits).1
         | None => 0
         end.
Proof.
  intros Hat Htags Hmid Hnick Hn1 Hn2 Hh Hch Ht Hemotes Haction.
  destruct (parseMessage_segments tags _ body Hat Htags Hmid)
    as (t' & rawType & channel & username & Ht' & Hm & Hline).
  rewrite Ht in Ht'. injection Ht' as <-.
  change (nick +:+ "!" +:+ host +:+ " PRIVMSG #" +:+ chan)
    with (nick +:+ "!" +:+ host +:+ " " +:+ "PRIVMSG" +:+ " #" +:+ chan) in Hm.
  rewrite parseMiddle_user in Hm by done. injection Hm as <- <- <-.
  match type of Hline with _ = Ok ?r => set (m := r) in * end.
  assert (MessageGo.Tags_of m = t) as HT by reflexivity.
  assert (MessageGo.RawMessage_Message (MessageGo.message_RawMessage m) = body)
    as HB by reflexivity.
  assert (MessageGo.parseEmotes pf m = Ok []) as Hpe.
  { unfold MessageGo.parseEmotes. cbv zeta. rewrite HT, Hemotes.
    by rewrite decide_True. }
  assert (MessageGo.RawMessage_Message
            (MessageGo.chatMessage_RawMessage (MessageGo.parseChatMessage m)) = body
          /\ MessageGo.channelMessage_Channel
               (MessageGo.roomMessage_channelMessage
                  (MessageGo.chatMessage_roomMessage (MessageGo.parseChatMessage m)))
             = chan) as [Hcb Hcc].
  { unfold MessageGo.parseChatMessage. by destruct (strconv.ParseInt _). }
  assert (MessageGo.User_Name (MessageGo.parseUser pf m) = nick) as Hu.
  { unfold MessageGo.parseUser. cbv zeta. cbn [MessageGo.User_Name].
    by rewrite decide_False by done. }
  exists m. unfold MessageGo.parsePRIVMSGMessage, MessageGo.parseUserMessage.
  cbv zeta. rewrite Hpe. cbn [bind MessageGo.userMessage_Action].
  rewrite HB, Haction. cbn [bind]. rewrite HT.
  unfold PRIVMSG_channel, PRIVMSG_text.
  destruct (t !! "bits") as [rawBits|]; eexists _, _; by repeat split.
Qed.

Lemma X24_privmsg_line_witness :
  exists m u p,
    MessageGo.parseMessage
      "@badges=subscriber/6,premium/1;emotes=;bits=100 :redflamingo13!redflamingo13@redflamingo13.tmi.twitch.tv PRIVMSG #pajlada :Thrashh5, FeelsWayTooAmazingMan kinda"
    = Ok m
    /\ MessageGo.parsePRIVMSGMessage sample_platform m = Ok (u, p)
    /\ MessageGo.User_Name u = "redflamingo13"
    /\ PRIVMSG_channel p = "pajlada"
    /\ PRIVMSG_text p = "Thrashh5, FeelsWayTooAmazingMan kinda"
    /\ MessageGo.PRIVMSGMessage_Bits p = 100.
Proof.
  assert (MessageGo.parseTags "@badges=subscriber/6,premium/1;emotes=;bits=100"
          = Ok sample_chat_tags) as Ht by (vm_compute; reflexivity).
  assert (tag sample_chat_tags "emotes" = EmptyString) as He
    by (vm_compute; reflexivity).
  destruct (X24_privmsg_line sample_platform
              "@badges=subscriber/6,premium/1;emotes=;bits=100"
              "redflamingo13" "redflamingo13@redflamingo13.tmi.twitch.tv" "pajlada"
              "Thrashh5, FeelsWayTooAmazingMan kinda" sample_chat_tags)
    as (m & u & p & Hm & _ & Hp & Hu & Hc & Hb & _ & _ & Hbits);
    try reflexivity; try discriminate; try exact Ht; try exact He.
  exists m, u, p. repeat split; assumption.
Defined.

(** X25. Whatever the line and whichever decoder of the table runs, the
    fallback included, a record returned by [ParseMessage] carries the raw
    text and the command token of the framed line unchanged. *)
Theorem X25_raw_kept (pf : platform)
    (parseIRCMessage : string -> Part000.ircMessage * bool)
    (line : string) (r : Part000.Message) :
  Part000.ParseMessage pf parseIRCMessage line = Ok r ->
  GetRaw r = Part000.ircMessage_Raw (parseIRCMessage line).1
  /\ GetRawType r = Part000.ircMessage_Command (parseIRCMessage line).1.
Proof. apply ParseMessage_raw. Qed.

Lemma X25_raw_kept_witness :
  exists r,
    Part000.ParseMessage sample_platform (fun _ => (sample_privmsg, false))
      (Part000.ircMessage_Raw sample_privmsg) = Ok r
    /\ GetRaw r = Part000.ircMessage_Raw sample_privmsg
    /\ GetRawType r = "PRIVMSG".
Proof.
  destruct (ParseMessage_returns sample_platform (fun _ => (sample_privmsg, false))
              (Part000.ircMessage_Raw sample_privmsg)) as [r Hr];
    [vm_compute; reflexivity|].
  exists r. split; [exact Hr|].
  apply (X25_raw_kept sample_platform (fun _ => (sample_privmsg, false))
           (Part000.ircMessage_Raw sample_privmsg) r Hr).
Defined.

(** X26. The two generations agree on a CLEARCHAT line
    [tags " :" host " CLEARCHAT #" chan " :" target]. [message.go] takes
    the line apart itself ([parseMessage], then [parseCLEARCHATMessage]);
    [part_000] decodes the framed line, whose tags are [parseTags tags] and
    whose parameters are [#chan] and [target]. Both records have the channel
    [chan], the target user name [target], and the same target user ID,
    room ID and ban duration. *)
Theorem X26_clearchat_agree (pmt : string -> Part000.MessageType)
    (tags host chan target : string) (t : gmap string string)
    (m : Part000.ircMessage) :
  strings.HasPrefix tags "@" = true ->
  strings.Contains tags " :" = false ->
  strings.Contains (host +:+ " CLEARCHAT #" +:+ chan) " :" = false ->
  occurs " " host = false -> occurs "!" host = false -> occurs "#" host = false ->
  occurs "!" chan = false ->
  MessageGo.parseTags tags = Ok t ->
  Part000.ircMessage_Tags m = t ->
  Part000.ircMessage_Params m = ["#" +:+ chan; target] ->
  exists m0 r,
    MessageGo.parseMessage
      (tags +:+ " :" +:+ (host +:+ " CLEARCHAT #" +:+ chan) +:+ " :" +:+ target)
    = Ok m0
    /\ Part000.parseClearChatMessage pmt m = Ok (Part000.MClearChat r)
    /\ let c := MessageGo.parseCLEARCHATMessage m0 in
       let room := MessageGo.chatMessage_roomMessage
                     (MessageGo.CLEARCHATMessage_chatMessage c) in
       Part000.ClearChatMessage_Channel r = chan
       /\ MessageGo.channelMessage_Channel (MessageGo.roomMessage_channelMessage room)
          = chan
       /\ Part000.ClearChatMessage_TargetUsername r = target
       /\ MessageGo.CLEARCHATMessage_TargetUsername c = target
       /\ Part000.ClearChatMessage_TargetUserID r
          = MessageGo.CLEARCHATMessage_TargetUserID c
       /\ Part000.ClearChatMessage_RoomID r = MessageGo.roomMessage_RoomID room
       /\ Part000.ClearChatMessage_BanDuration r
          = MessageGo.CLEARCHATMessage_BanDuration c.
Proof.
  intros Hat Htags Hmid Hh1 Hh2 Hh3 Hch Ht HT Hp.
  destruct (parseMessage_segments tags _ target Hat Htags Hmid)
    as (t' & rawType & channel & username & Ht' & Hm & Hline).
  rewrite Ht in Ht'. injection Ht' as <-.
  change (host +:+ " CLEARCHAT #" +:+ chan)
    with (host +:+ " " +:+ "CLEARCHAT" +:+ " #" +:+ chan) in Hm.
  rewrite parseMiddle_server in Hm by done. injection Hm as <- <- <-.
  eexists _, _. split; [exact Hline|].
  unfold Part000.parseClearChatMessage. cbv zeta.
  rewrite Hp, index_0. cbn [bind]. split; [reflexivity|].
  cbn [Part000.ClearChatMessage_Channel Part000.ClearChatMessage_TargetUsername
       Part000.ClearChatMessage_TargetUserID Part000.ClearChatMessage_RoomID
       Part000.ClearChatMessage_BanDuration Part000.second_of_two].
  rewrite HT. unfold MessageGo.parseCLEARCHATMessage, MessageGo.parseChatMessage.
  destruct (strconv.ParseInt _) as [i err]. repeat split.
Qed.

Lemma X26_clearchat_agree_witness :
  exists m0 r,
    MessageGo.parseMessage
      "@ban-duration=1;target-user-id=40910607 :tmi.twitch.tv CLEARCHAT #pajlada :ampzyh"
    = Ok m0
    /\ Part000.parseClearChatMessage (Part000.parseMessageType sample_platform)
         (framed "CLEARCHAT"
            {[ "ban-duration" := "1"; "target-user-id" := "40910607" ]}
            ["#pajlada"; "ampzyh"])
       = Ok (Part000.MClearChat r)
    /\ Part000.ClearChatMessage_Channel r = "pajlada"
    /\ Part000.ClearChatMessage_TargetUsername r = "ampzyh"
    /\ Part000.ClearChatMessage_BanDuration r
       = MessageGo.CLEARCHATMessage_BanDuration (MessageGo.parseCLEARCHATMessage m0).
Proof.
  assert (MessageGo.parseTags "@ban-duration=1;target-user-id=40910607"
          = Ok {[ "ban-duration" := "1"; "target-user-id" := "40910607" ]}) as Ht
    by (vm_compute; reflexivity).
  destruct (X26_clearchat_agree (Part000.parseMessageType sample_platform)
              "@ban-duration=1;target-user-id=40910607" "tmi.twitch.tv" "pajlada"
              "ampzyh" _
              (framed "CLEARCHAT"
                 {[ "ban-duration" := "1"; "target-user-id" := "40910607" ]}
                 ["#pajlada"; "ampzyh"])
              eq_refl eq_refl eq_refl eq_refl eq_refl eq_refl eq_refl Ht
              eq_refl eq_refl)
    as (m0 & r & Hm0 & Hr & Hc & _ & Hu & _ & _ & _ & Hb).
  exists m0, r. repeat split; assumption.
Defined.
